(** * Hybrid TLS 1.3 handshake (hybrid_tls.py): a shallow embedding

    The development follows src/hybrid_tls.py.  Python objects become records,
    methods become computations in a state-and-exception monad, and the
    libraries the module calls (cryptography's HKDF and curve arithmetic, the
    optional oqs binding) are the fields of a [Backend] the whole model is
    parameterised by.  The operating system's entropy pool and clock are an
    explicit environment [Env]: [secrets.token_bytes] and [time.time] read
    from it and advance it. *)

From Stdlib Require Import List String Bool ZArith.
From Stdlib Require Import Strings.Byte Init.Byte DecimalString.
Import ListNotations.

Local Open Scope string_scope.
Local Open Scope list_scope.

(** ** Bytes and strings *)

Definition bytes := list byte.

(** [b == b'] on Python bytes. *)
Fixpoint bytes_eqb (a b : bytes) : bool :=
  match a, b with
  | [], [] => true
  | x :: a', y :: b' => Byte.eqb x y && bytes_eqb a' b'
  | _, _ => false
  end.

(** [s.encode()] and a [b"..."] literal, for the ASCII texts the module uses. *)
Definition encode (s : string) : bytes := list_byte_of_string s.

(** [str(n)] for a non-negative integer, as an f-string prints it. *)
Definition str_of_nat (n : nat) : string := NilEmpty.string_of_uint (Nat.to_uint n).

(** [x in l] for a list of strings. *)
Definition str_in (x : string) (l : list string) : bool :=
  existsb (String.eqb x) l.

(** [b''.join(parts)]. *)
Definition join (parts : list bytes) : bytes := List.concat parts.

(** [len(b)]. *)
Definition len (b : bytes) : nat := List.length b.

(** [b[i:j]] for [0 <= i <= j]. *)
Definition slice (i j : nat) (b : bytes) : bytes := firstn (j - i) (skipn i b).

(** ** Exceptions and the monad of methods *)

Inductive exn : Type :=
| ValueError (msg : string)
| KeyError (key : string)
| LibraryError (msg : string).

Inductive result (A : Type) : Type :=
| Ok (a : A)
| Raise (e : exn).
Arguments Ok {A} a.
Arguments Raise {A} e.

(** A method over mutable state [S]: it returns or raises, and the state it
    leaves is kept either way, as a Python exception keeps earlier writes. *)
Definition M (S A : Type) : Type := S -> result A * S.

Definition ret {S A} (a : A) : M S A := fun s => (Ok a, s).

Definition raise {S A} (e : exn) : M S A := fun s => (Raise e, s).

Definition bind {S A B} (m : M S A) (k : A -> M S B) : M S B :=
  fun s => match m s with
           | (Ok a, s') => k a s'
           | (Raise e, s') => (Raise e, s')
           end.

(** [try: body except Exception: handler]. *)
Definition try_except {S A} (body : M S A) (handler : exn -> M S A) : M S A :=
  fun s => match body s with
           | (Ok a, s') => (Ok a, s')
           | (Raise e, s') => handler e s'
           end.

Definition gets {S A} (f : S -> A) : M S A := fun s => (Ok (f s), s).

Definition modify {S} (f : S -> S) : M S unit := fun s => (Ok tt, f s).

(** Run a computation over a part [T] of the state [S]. *)
Definition zoom {S T A} (get : S -> T) (set : T -> S -> S) (m : M T A) : M S A :=
  fun s => let (r, t) := m (get s) in (r, set t s).

Declare Scope monad_scope.
Delimit Scope monad_scope with monad.
Notation "x <- c ;; k" := (bind c (fun x => k))
  (at level 61, c at next level, right associativity) : monad_scope.
Notation "' pat <- c ;; k" := (bind c (fun x => match x with pat => k end))
  (at level 61, pat pattern, c at next level, right associativity) : monad_scope.
Notation "c ;;; k" := (bind c (fun _ => k))
  (at level 61, right associativity) : monad_scope.
Local Open Scope monad_scope.

(** ** The environment: entropy and clock *)

(** [entropy] is the stream [secrets.token_bytes] draws from and [cursor] the
    number of bytes already drawn; [wall] lists the successive readings of
    [time.time()] (in clock ticks) and [reads] counts those taken. *)
Record Env : Type := mkEnv {
  entropy : nat -> byte;
  cursor : nat;
  wall : nat -> Z;
  reads : nat
}.

(** [secrets.token_bytes(n)]. *)
Definition token_bytes (n : nat) : M Env bytes :=
  fun e => (Ok (map (entropy e) (seq (cursor e) n)),
            mkEnv (entropy e) (cursor e + n) (wall e) (reads e)).

(** [time.time()]. *)
Definition time_time : M Env Z :=
  fun e => (Ok (wall e (reads e)),
            mkEnv (entropy e) (cursor e) (wall e) (S (reads e))).

(** ** Enumerations (lines 27-51) *)

Inductive KeyExchangeType : Type :=
| CLASSICAL | PQ_ONLY | DUAL_HYBRID | TRIPLE_HYBRID.

Definition KeyExchangeType_value (t : KeyExchangeType) : string :=
  match t with
  | CLASSICAL => "classical"
  | PQ_ONLY => "pq_only"
  | DUAL_HYBRID => "dual_hybrid"
  | TRIPLE_HYBRID => "triple_hybrid"
  end.

Definition KeyExchangeType_eqb (a b : KeyExchangeType) : bool :=
  match a, b with
  | CLASSICAL, CLASSICAL | PQ_ONLY, PQ_ONLY
  | DUAL_HYBRID, DUAL_HYBRID | TRIPLE_HYBRID, TRIPLE_HYBRID => true
  | _, _ => false
  end.

Inductive CryptoAlgorithm : Type :=
| X25519 | X448 | ECDH_P256 | ECDH_P384 | RSA_2048
| KYBER512 | KYBER768 | KYBER1024
| NTRU_HPS2048509 | NTRU_HPS2048677
| LIGHTSABER | SABER | FIRESABER.

Definition CryptoAlgorithm_value (a : CryptoAlgorithm) : string :=
  match a with
  | X25519 => "X25519"
  | X448 => "X448"
  | ECDH_P256 => "ECDH-P256"
  | ECDH_P384 => "ECDH-P384"
  | RSA_2048 => "RSA-2048"
  | KYBER512 => "Kyber512"
  | KYBER768 => "Kyber768"
  | KYBER1024 => "Kyber1024"
  | NTRU_HPS2048509 => "NTRU-HPS-2048-509"
  | NTRU_HPS2048677 => "NTRU-HPS-2048-677"
  | LIGHTSABER => "LightSaber-KEM"
  | SABER => "Saber-KEM"
  | FIRESABER => "FireSaber-KEM"
  end.

(** [str(member)], which an f-string prints: the class and member names. *)
Definition CryptoAlgorithm_str (a : CryptoAlgorithm) : string :=
  String.append "CryptoAlgorithm."
  match a with
  | X25519 => "X25519"
  | X448 => "X448"
  | ECDH_P256 => "ECDH_P256"
  | ECDH_P384 => "ECDH_P384"
  | RSA_2048 => "RSA_2048"
  | KYBER512 => "KYBER512"
  | KYBER768 => "KYBER768"
  | KYBER1024 => "KYBER1024"
  | NTRU_HPS2048509 => "NTRU_HPS2048509"
  | NTRU_HPS2048677 => "NTRU_HPS2048677"
  | LIGHTSABER => "LIGHTSABER"
  | SABER => "SABER"
  | FIRESABER => "FIRESABER"
  end.

(** ** Key material (lines 53-59) *)

Module KeyMaterial.
Record t : Type := mk {
  public_key : bytes;
  private_key : bytes;
  algorithm : CryptoAlgorithm;
  key_size : nat
}.
End KeyMaterial.

(** ** The libraries behind the module

    What hybrid_tls.py imports and does not define.  [hkdf_sha384 n salt info
    ikm] is [HKDF(hashes.SHA384(), length=n, salt, info).derive(ikm)].
    [curve_generate c] is the key generation of curve [c] followed by the two
    serialisations [generate_keypair] asks for; it yields the public bytes and
    the private bytes.  [curve_exchange c priv pub] is [from_private_bytes],
    [from_public_bytes] and [exchange], any of which may raise.  The [oqs_]
    fields are the oqs binding: the import flag, the [KeyEncapsulation]
    constructor and the four methods the wrapper calls on the object, which
    keeps its own secret key ([oqs_kem] is the object's state). *)

Inductive Curve : Type := Curve25519 | Curve448 | SECP256R1 | SECP384R1.

Class Backend : Type := {
  hkdf_sha384 : nat -> bytes -> bytes -> bytes -> bytes;
  curve_generate : Curve -> M Env (bytes * bytes);
  curve_exchange : Curve -> bytes -> bytes -> result bytes;
  OQS_AVAILABLE : bool;
  oqs_kem : Type;
  oqs_KeyEncapsulation : string -> result oqs_kem;
  oqs_generate_keypair : oqs_kem -> M Env (bytes * oqs_kem);
  oqs_export_secret_key : oqs_kem -> bytes;
  oqs_encap_secret : oqs_kem -> bytes -> M Env (bytes * bytes);
  oqs_decap_secret : oqs_kem -> bytes -> result bytes
}.

(** The length an HKDF object is built with is the length of what it derives. *)
Definition hkdf_length_law (B : Backend) : Prop :=
  forall n salt info ikm, len (hkdf_sha384 n salt info ikm) = n.

(** A method of an object of class [O] runs over the object and the
    environment. *)
Definition in_env {O A} (m : M Env A) : M (O * Env) A :=
  zoom snd (fun e s => (fst s, e)) m.

Definition self {O} : M (O * Env) O := gets fst.

Definition of_result {S A} (r : result A) : M S A := fun s => (r, s).

(** ** class QuantumSafeKEM (lines 69-152) *)

Module QuantumSafeKEM.
Section WithBackend.
Context {B : Backend}.

Record t : Type := mk {
  algorithm : CryptoAlgorithm;
  _use_simulation : bool;
  kem : option oqs_kem
}.

(** The dict [oqs_names] of [__init__]; [None] where [algorithm in
    oqs_names] is false. *)
Definition oqs_names (a : CryptoAlgorithm) : option string :=
  match a with
  | KYBER512 => Some "Kyber512"
  | KYBER768 => Some "Kyber768"
  | KYBER1024 => Some "Kyber1024"
  | NTRU_HPS2048509 => Some "NTRU-HPS-2048-509"
  | NTRU_HPS2048677 => Some "NTRU-HPS-2048-677"
  | LIGHTSABER => Some "LightSaber-KEM"
  | SABER => Some "Saber-KEM"
  | FIRESABER => Some "FireSaber-KEM"
  | _ => None
  end.

Definition __init__ (algorithm : CryptoAlgorithm) : t :=
  if OQS_AVAILABLE then
    match oqs_names algorithm with
    | Some name =>
        match oqs_KeyEncapsulation name with
        | Ok k => mk algorithm false (Some k)
        | Raise _ => mk algorithm true None
        end
    | None => mk algorithm true None
    end
  else mk algorithm true None.

(** The dict [key_sizes] of [generate_keypair]: (public, private) sizes. *)
Definition key_sizes (a : CryptoAlgorithm) : option (nat * nat) :=
  match a with
  | KYBER512 => Some (800, 1632)
  | KYBER768 => Some (1184, 2400)
  | KYBER1024 => Some (1568, 3168)
  | NTRU_HPS2048509 => Some (699, 935)
  | NTRU_HPS2048677 => Some (930, 1234)
  | LIGHTSABER => Some (672, 1568)
  | SABER => Some (992, 2304)
  | FIRESABER => Some (1312, 3040)
  | _ => None
  end.

(** [key_sizes.get(self.algorithm, (1024, 2048))]. *)
Definition key_sizes_get (a : CryptoAlgorithm) : nat * nat :=
  match key_sizes a with
  | Some sizes => sizes
  | None => (1024, 2048)
  end.

(** [not self._use_simulation and hasattr(self, 'kem')], with the object. *)
Definition real_kem (s : t) : option oqs_kem :=
  if negb (_use_simulation s) then kem s else None.

Definition set_kem (k : oqs_kem) (s : t) : t :=
  mk (algorithm s) (_use_simulation s) (Some k).

Definition generate_keypair : M (t * Env) KeyMaterial.t :=
  s <- self ;;
  match real_kem s with
  | Some k =>
      '(public_key, k') <- in_env (oqs_generate_keypair k) ;;
      modify (fun st => (set_kem k' (fst st), snd st)) ;;;
      let private_key := oqs_export_secret_key k' in
      ret (KeyMaterial.mk public_key private_key (algorithm s) (len public_key))
  | None =>
      let '(pub_size, priv_size) := key_sizes_get (algorithm s) in
      public_key <- in_env (token_bytes pub_size) ;;
      private_key <- in_env (token_bytes priv_size) ;;
      ret (KeyMaterial.mk public_key private_key (algorithm s) pub_size)
  end.

Definition encapsulate (public_key : bytes) : M (t * Env) (bytes * bytes) :=
  s <- self ;;
  match real_kem s with
  | Some k =>
      '(ciphertext, shared_secret) <- in_env (oqs_encap_secret k public_key) ;;
      ret (ciphertext, shared_secret)
  | None =>
      ciphertext <- in_env (token_bytes (len public_key)) ;;
      shared_secret <- in_env (token_bytes 32) ;;
      ret (ciphertext, shared_secret)
  end.

Definition decapsulate (ciphertext private_key : bytes) : M (t * Env) bytes :=
  s <- self ;;
  match real_kem s with
  | Some k => of_result (oqs_decap_secret k ciphertext)
  | None => in_env (token_bytes 32)
  end.

End WithBackend.
Arguments t B : clear implicits.
End QuantumSafeKEM.

(** ** class ClassicalKEM (lines 154-252) *)

Module ClassicalKEM.
Section WithBackend.
Context {B : Backend}.

Record t : Type := mk { algorithm : CryptoAlgorithm }.

Definition __init__ (algorithm : CryptoAlgorithm) : t := mk algorithm.

Definition generate_keypair (s : t) : M Env KeyMaterial.t :=
  match algorithm s with
  | X25519 =>
      '(pub, priv) <- curve_generate Curve25519 ;;
      ret (KeyMaterial.mk pub priv (algorithm s) 32)
  | X448 =>
      '(pub, priv) <- curve_generate Curve448 ;;
      ret (KeyMaterial.mk pub priv (algorithm s) 56)
  | ECDH_P256 =>
      '(pub, priv) <- curve_generate SECP256R1 ;;
      ret (KeyMaterial.mk pub priv (algorithm s) 65)
  | ECDH_P384 =>
      '(pub, priv) <- curve_generate SECP384R1 ;;
      ret (KeyMaterial.mk pub priv (algorithm s) 97)
  | _ =>
      raise (ValueError (String.append "Unsupported classical algorithm: "
                           (CryptoAlgorithm_str (algorithm s))))
  end.

Definition derive_shared_secret (s : t) (private_key public_key : bytes)
  : M Env bytes :=
  match algorithm s with
  | X25519 => of_result (curve_exchange Curve25519 private_key public_key)
  | X448 => of_result (curve_exchange Curve448 private_key public_key)
  | _ => token_bytes 32
  end.

End WithBackend.
End ClassicalKEM.

(** ** Dictionaries with string keys

    A [Dict[str, V]] the module builds key by key: an association list in
    insertion order, as [dict.items()] iterates. *)

Definition dict (V : Type) : Type := list (string * V).

Fixpoint dict_get {V} (k : string) (d : dict V) : option V :=
  match d with
  | [] => None
  | (k', v) :: d' => if String.eqb k k' then Some v else dict_get k d'
  end.

(** [k in d]. *)
Definition dict_in {V} (k : string) (d : dict V) : bool :=
  match dict_get k d with Some _ => true | None => false end.

(** [d[k] = v]: a present key keeps its place, a new one goes last. *)
Fixpoint dict_set {V} (k : string) (v : V) (d : dict V) : dict V :=
  match d with
  | [] => [(k, v)]
  | (k', v') :: d' =>
      if String.eqb k k' then (k, v) :: d' else (k', v') :: dict_set k v d'
  end.

(** [d[k]], raising [KeyError] on a missing key. *)
Definition getitem {S V} (k : string) (d : dict V) : M S V :=
  match dict_get k d with
  | Some v => ret v
  | None => raise (KeyError k)
  end.

(** ** The dictionaries of the handshake, as records *)

(** One entry of a [key_shares] dict (lines 373-399); ["private_key"] is the
    key only the server's entry gets. *)
Module KeyShare.
Record t : Type := mk {
  algorithm : string;
  public_key : bytes;
  key_size : nat;
  private_key : option bytes
}.

(** [entry["private_key"] = v]. *)
Definition set_private_key (v : bytes) (e : t) : t :=
  mk (algorithm e) (public_key e) (key_size e) (Some v).
End KeyShare.

(** The dict [client_hello] builds (lines 307-321). *)
Module ClientHello.
Record t : Type := mk {
  protocol_version : string;
  random : bytes;
  cipher_suites : list string;
  supported_groups : list string;
  key_exchange_type : string;
  supported_versions : list string;
  pq_hybrid : bool
}.
End ClientHello.

(** The dict [server_hello] builds (lines 353-362). *)
Module ServerHello.
Record t : Type := mk {
  protocol_version : string;
  random : bytes;
  cipher_suite : string;
  selected_group : string;
  key_share : bool;
  pq_hybrid : bool
}.
End ServerHello.

(** The dict [_derive_session_keys] returns (lines 531-536). *)
Module SessionKeys.
Record t : Type := mk {
  client_write_key : bytes;
  server_write_key : bytes;
  client_write_iv : bytes;
  server_write_iv : bytes
}.

Definition eqb (a b : t) : bool :=
  bytes_eqb (client_write_key a) (client_write_key b)
  && bytes_eqb (server_write_key a) (server_write_key b)
  && bytes_eqb (client_write_iv a) (client_write_iv b)
  && bytes_eqb (server_write_iv a) (server_write_iv b).
End SessionKeys.

(** The dict [perform_handshake] returns (lines 498-514);
    [handshake_duration] is a difference of two clock readings. *)
Module HandshakeResult.
Record t : Type := mk {
  success : bool;
  exchange_type : string;
  algorithms : list string;
  handshake_duration : Z;
  shared_secret_size : nat;
  session_keys : SessionKeys.t;
  message_count : nat;
  key_sizes_classical : nat;
  key_sizes_pq_primary : nat;
  key_sizes_pq_secondary : nat
}.

(** [result["algorithms"].append(a)]. *)
Definition append_algorithm (a : string) (r : t) : t :=
  mk (success r) (exchange_type r) (algorithms r ++ [a]) (handshake_duration r)
     (shared_secret_size r) (session_keys r) (message_count r)
     (key_sizes_classical r) (key_sizes_pq_primary r) (key_sizes_pq_secondary r).
End HandshakeResult.

(** The payloads [_log_message] is called with, one constructor for each
    call site. *)
Inductive Payload : Type :=
| ClientHelloPayload (m : ClientHello.t)
| ServerHelloPayload (m : ServerHello.t)
| KeySharePayload (sizes : dict string)
| SharedSecretPayload (algorithm_count total_entropy final_size : nat)
| HandshakeCompletePayload (r : HandshakeResult.t).

(** The data class [HandshakeMessage] (lines 61-67). *)
Module HandshakeMessage.
Record t : Type := mk {
  message_type : string;
  sender : string;
  payload : Payload;
  timestamp : Z
}.
End HandshakeMessage.

(** The dict [get_handshake_summary] returns (lines 540-556); an entry of
    ["messages"] holds a message's type, sender and timestamp. *)
Module HandshakeSummary.
Record message : Type := mk_message {
  type : string;
  sender : string;
  timestamp : Z
}.

Record t : Type := mk {
  total_messages : nat;
  exchange_type : string;
  algorithms_used : list (option string);
  messages : list message
}.
End HandshakeSummary.

(** ** class HybridTLSHandshake (lines 254-556) *)

Module HybridTLSHandshake.
Section WithBackend.
Context {B : Backend}.

Record t : Type := mk {
  exchange_type : KeyExchangeType;
  classical_alg : CryptoAlgorithm;
  pq_alg1 : CryptoAlgorithm;
  pq_alg2 : option CryptoAlgorithm;
  classical_kem : ClassicalKEM.t;
  pq_kem1 : QuantumSafeKEM.t B;
  pq_kem2 : option (QuantumSafeKEM.t B);
  handshake_messages : list HandshakeMessage.t
}.

Definition set_pq_kem1 (k : QuantumSafeKEM.t B) (s : t) : t :=
  mk (exchange_type s) (classical_alg s) (pq_alg1 s) (pq_alg2 s)
     (classical_kem s) k (pq_kem2 s) (handshake_messages s).

Definition set_pq_kem2 (k : QuantumSafeKEM.t B) (s : t) : t :=
  mk (exchange_type s) (classical_alg s) (pq_alg1 s) (pq_alg2 s)
     (classical_kem s) (pq_kem1 s) (Some k) (handshake_messages s).

(** [self.handshake_messages.append(m)]. *)
Definition append_message (m : HandshakeMessage.t) (s : t) : t :=
  mk (exchange_type s) (classical_alg s) (pq_alg1 s) (pq_alg2 s)
     (classical_kem s) (pq_kem1 s) (pq_kem2 s) (handshake_messages s ++ [m]).

(** A call of a method of [self.pq_kem1]. *)
Definition on_pq_kem1 {A} (m : M (QuantumSafeKEM.t B * Env) A) : M (t * Env) A :=
  zoom (fun st => (pq_kem1 (fst st), snd st))
       (fun ks st => (set_pq_kem1 (fst ks) (fst st), snd ks)) m.

(** A call of a method of the object [k2] that [self.pq_kem2] holds. *)
Definition on_pq_kem2 {A} (k2 : QuantumSafeKEM.t B)
    (m : M (QuantumSafeKEM.t B * Env) A) : M (t * Env) A :=
  zoom (fun st => (k2, snd st))
       (fun ks st => (set_pq_kem2 (fst ks) (fst st), snd ks)) m.

(** [x in [a, b, ...]] for exchange types. *)
Definition type_in (x : KeyExchangeType) (l : list KeyExchangeType) : bool :=
  existsb (KeyExchangeType_eqb x) l.

(** Lines 257-281.  The logging set-up is not part of the state. *)
Definition __init__ (exchange_type : KeyExchangeType)
    (classical_alg pq_alg1 : CryptoAlgorithm)
    (pq_alg2 : option CryptoAlgorithm) : t :=
  let classical_kem := ClassicalKEM.__init__ classical_alg in
  let pq_kem1 := QuantumSafeKEM.__init__ pq_alg1 in
  let pq_kem2 :=
    match pq_alg2 with
    | Some a2 =>
        if KeyExchangeType_eqb exchange_type TRIPLE_HYBRID
        then Some (QuantumSafeKEM.__init__ a2)
        else None
    | None => None
    end in
  mk exchange_type classical_alg pq_alg1 pq_alg2
     classical_kem pq_kem1 pq_kem2 [].

(** Lines 283-292.  The [logger.info] line writes to the logging system
    only. *)
Definition _log_message (msg_type sender : string) (payload : Payload)
  : M (t * Env) unit :=
  timestamp <- in_env time_time ;;
  let message := HandshakeMessage.mk msg_type sender payload timestamp in
  modify (fun st => (append_message message (fst st), snd st)).

(** Lines 294-324. *)
Definition client_hello : M (t * Env) ClientHello.t :=
  s <- self ;;
  let supported_groups := [] in
  let supported_groups :=
    if type_in (exchange_type s) [CLASSICAL; DUAL_HYBRID; TRIPLE_HYBRID]
    then supported_groups ++ [CryptoAlgorithm_value (classical_alg s)]
    else supported_groups in
  let supported_groups :=
    if type_in (exchange_type s) [PQ_ONLY; DUAL_HYBRID; TRIPLE_HYBRID]
    then supported_groups ++ [CryptoAlgorithm_value (pq_alg1 s)]
    else supported_groups in
  let supported_groups :=
    match pq_alg2 s with
    | Some a2 =>
        if KeyExchangeType_eqb (exchange_type s) TRIPLE_HYBRID
        then supported_groups ++ [CryptoAlgorithm_value a2]
        else supported_groups
    | None => supported_groups
    end in
  random <- in_env (token_bytes 32) ;;
  let client_hello :=
    ClientHello.mk "TLS 1.3" random
      ["TLS_AES_256_GCM_SHA384"; "TLS_CHACHA20_POLY1305_SHA256";
       "TLS_AES_128_GCM_SHA256"]
      supported_groups
      (KeyExchangeType_value (exchange_type s))
      ["TLS 1.3"] true in
  _log_message "ClientHello" "Client" (ClientHelloPayload client_hello) ;;;
  ret client_hello.

(** The truth value of [selected_group]: [None] and the empty string are
    false. *)
Definition truthy (g : option string) : bool :=
  match g with
  | None => false
  | Some g' => negb (String.eqb g' "")
  end.

(** Lines 329-348: the [if]/[elif] chain that sets [selected_group]. *)
Definition select_group (s : t) (client_groups : list string) : option string :=
  let offered alg := str_in (CryptoAlgorithm_value alg) client_groups in
  let classical := CryptoAlgorithm_value (classical_alg s) in
  let pq1 := CryptoAlgorithm_value (pq_alg1 s) in
  match (if KeyExchangeType_eqb (exchange_type s) TRIPLE_HYBRID
         then pq_alg2 s else None) with
  | Some a2 =>
      if forallb offered [classical_alg s; pq_alg1 s; a2]
      then Some (String.concat "_"
                   ["triple_hybrid"; classical; pq1; CryptoAlgorithm_value a2])
      else None
  | None =>
      if KeyExchangeType_eqb (exchange_type s) DUAL_HYBRID then
        if forallb offered [classical_alg s; pq_alg1 s]
        then Some (String.concat "_" ["hybrid"; classical; pq1])
        else None
      else if KeyExchangeType_eqb (exchange_type s) CLASSICAL then
        if offered (classical_alg s) then Some classical else None
      else if KeyExchangeType_eqb (exchange_type s) PQ_ONLY then
        if offered (pq_alg1 s) then Some pq1 else None
      else None
  end.

(** Lines 326-365. *)
Definition server_hello (client_hello : ClientHello.t) : M (t * Env) ServerHello.t :=
  s <- self ;;
  let client_groups := ClientHello.supported_groups client_hello in
  let selected_group := select_group s client_groups in
  match (if truthy selected_group then selected_group else None) with
  | None => raise (ValueError "No compatible key exchange group found")
  | Some group =>
      random <- in_env (token_bytes 32) ;;
      let server_hello :=
        ServerHello.mk "TLS 1.3" random "TLS_AES_256_GCM_SHA384" group
          true true in
      _log_message "ServerHello" "Server" (ServerHelloPayload server_hello) ;;;
      ret server_hello
  end.

(** The entry a key pair becomes (lines 373-379 and their two copies). *)
Definition share_of (keys : KeyMaterial.t) (is_server : bool) : KeyShare.t :=
  let entry :=
    KeyShare.mk (CryptoAlgorithm_value (KeyMaterial.algorithm keys))
      (KeyMaterial.public_key keys) (KeyMaterial.key_size keys) None in
  if is_server
  then KeyShare.set_private_key (KeyMaterial.private_key keys) entry
  else entry.

(** The dict comprehension of line 402: each share's name with the length
    of its public key, as text. *)
Definition share_sizes (key_shares : dict KeyShare.t) : dict string :=
  map (fun kv => (fst kv,
                  String.append (str_of_nat (len (KeyShare.public_key (snd kv))))
                                " bytes"))
      key_shares.

(** Lines 367-404. *)
Definition generate_key_shares (is_server : bool) : M (t * Env) (dict KeyShare.t) :=
  s <- self ;;
  let key_shares := [] in
  key_shares <-
    (if type_in (exchange_type s) [CLASSICAL; DUAL_HYBRID; TRIPLE_HYBRID] then
       classical_keys <- in_env (ClassicalKEM.generate_keypair (classical_kem s)) ;;
       ret (dict_set "classical" (share_of classical_keys is_server) key_shares)
     else ret key_shares) ;;
  key_shares <-
    (if type_in (exchange_type s) [PQ_ONLY; DUAL_HYBRID; TRIPLE_HYBRID] then
       pq_keys1 <- on_pq_kem1 QuantumSafeKEM.generate_keypair ;;
       ret (dict_set "pq_primary" (share_of pq_keys1 is_server) key_shares)
     else ret key_shares) ;;
  key_shares <-
    (match (if KeyExchangeType_eqb (exchange_type s) TRIPLE_HYBRID
            then pq_kem2 s else None) with
     | Some k2 =>
         pq_keys2 <- on_pq_kem2 k2 QuantumSafeKEM.generate_keypair ;;
         ret (dict_set "pq_secondary" (share_of pq_keys2 is_server) key_shares)
     | None => ret key_shares
     end) ;;
  let sender := if is_server then "Server" else "Client" in
  _log_message "KeyShare" sender (KeySharePayload (share_sizes key_shares)) ;;;
  ret key_shares.

(** Lines 412-423: the classical exchange and its [except] branch. *)
Definition classical_exchange (server_key_shares client_key_shares : dict KeyShare.t)
    (shared_secrets : list bytes) : M (t * Env) (list bytes) :=
  if dict_in "classical" server_key_shares && dict_in "classical" client_key_shares
  then
    try_except
      (s <- self ;;
       server_share <- getitem "classical" server_key_shares ;;
       private_key <-
         match KeyShare.private_key server_share with
         | Some k => ret k
         | None => raise (KeyError "private_key")
         end ;;
       client_share <- getitem "classical" client_key_shares ;;
       classical_secret <-
         in_env (ClassicalKEM.derive_shared_secret (classical_kem s)
                   private_key (KeyShare.public_key client_share)) ;;
       ret (shared_secrets ++ [classical_secret]))
      (fun _ =>
         substitute <- in_env (token_bytes 32) ;;
         ret (shared_secrets ++ [substitute]))
  else ret shared_secrets.

(** Lines 425-435: the primary post-quantum exchange. *)
Definition pq_primary_exchange (server_key_shares client_key_shares : dict KeyShare.t)
    (shared_secrets : list bytes) : M (t * Env) (list bytes) :=
  if dict_in "pq_primary" server_key_shares && dict_in "pq_primary" client_key_shares
  then
    try_except
      (server_share <- getitem "pq_primary" server_key_shares ;;
       '(ciphertext, pq_secret1) <-
         on_pq_kem1 (QuantumSafeKEM.encapsulate (KeyShare.public_key server_share)) ;;
       ret (shared_secrets ++ [pq_secret1]))
      (fun _ =>
         substitute <- in_env (token_bytes 32) ;;
         ret (shared_secrets ++ [substitute]))
  else ret shared_secrets.

(** Lines 437-447: the secondary post-quantum exchange. *)
Definition pq_secondary_exchange (server_key_shares client_key_shares : dict KeyShare.t)
    (shared_secrets : list bytes) : M (t * Env) (list bytes) :=
  s <- self ;;
  match (if dict_in "pq_secondary" server_key_shares
            && dict_in "pq_secondary" client_key_shares
         then pq_kem2 s else None) with
  | Some k2 =>
      try_except
        (server_share <- getitem "pq_secondary" server_key_shares ;;
         '(ciphertext, pq_secret2) <-
           on_pq_kem2 k2 (QuantumSafeKEM.encapsulate (KeyShare.public_key server_share)) ;;
         ret (shared_secrets ++ [pq_secret2]))
        (fun _ =>
           substitute <- in_env (token_bytes 32) ;;
           ret (shared_secrets ++ [substitute]))
  | None => ret shared_secrets
  end.

Definition hybrid_salt : bytes := encode "TLS 1.3 Hybrid Key Schedule".

Definition hybrid_info (x : KeyExchangeType) : bytes :=
  encode (String.append "hybrid-" (KeyExchangeType_value x)).

(** Lines 449-474: the secrets are joined and run through HKDF. *)
Definition combine (shared_secrets : list bytes) : M (t * Env) bytes :=
  s <- self ;;
  match shared_secrets with
  | _ :: _ =>
      let combined_secret := join shared_secrets in
      let final_secret :=
        hkdf_sha384 48 hybrid_salt (hybrid_info (exchange_type s)) combined_secret in
      _log_message "SharedSecret" "Combined"
        (SharedSecretPayload (List.length shared_secrets)
           (len combined_secret) (len final_secret)) ;;;
      ret final_secret
  | [] => raise (ValueError "No shared secrets could be computed")
  end.

(** Lines 406-474. *)
Definition compute_shared_secrets (server_key_shares client_key_shares : dict KeyShare.t)
  : M (t * Env) bytes :=
  let shared_secrets := [] in
  shared_secrets <- classical_exchange server_key_shares client_key_shares shared_secrets ;;
  shared_secrets <- pq_primary_exchange server_key_shares client_key_shares shared_secrets ;;
  shared_secrets <- pq_secondary_exchange server_key_shares client_key_shares shared_secrets ;;
  combine shared_secrets.

(** Lines 519-536. *)
Definition _derive_session_keys (shared_secret : bytes) : M (t * Env) SessionKeys.t :=
  let key_material :=
    hkdf_sha384 32 (encode "TLS 1.3 session keys") (encode "client server keys")
      shared_secret in
  client_write_iv <- in_env (token_bytes 12) ;;
  server_write_iv <- in_env (token_bytes 12) ;;
  ret (SessionKeys.mk (slice 0 16 key_material) (slice 16 32 key_material)
         client_write_iv server_write_iv).

(** [shares.get(k, {}).get("key_size", 0)]. *)
Definition key_size_of (k : string) (shares : dict KeyShare.t) : nat :=
  match dict_get k shares with
  | Some entry => KeyShare.key_size entry
  | None => 0
  end.

(** Lines 476-517. *)
Definition perform_handshake : M (t * Env) HandshakeResult.t :=
  start_time <- in_env time_time ;;
  client_hello <- client_hello ;;
  server_hello <- server_hello client_hello ;;
  server_key_shares <- generate_key_shares true ;;
  client_key_shares <- generate_key_shares false ;;
  shared_secret <- compute_shared_secrets server_key_shares client_key_shares ;;
  session_keys <- _derive_session_keys shared_secret ;;
  end_time <- in_env time_time ;;
  let handshake_duration := (end_time - start_time)%Z in
  s <- self ;;
  let result :=
    HandshakeResult.mk true
      (KeyExchangeType_value (exchange_type s))
      [CryptoAlgorithm_value (classical_alg s); CryptoAlgorithm_value (pq_alg1 s)]
      handshake_duration
      (len shared_secret)
      session_keys
      (List.length (handshake_messages s))
      (key_size_of "classical" server_key_shares)
      (key_size_of "pq_primary" server_key_shares)
      (key_size_of "pq_secondary" server_key_shares) in
  let result :=
    match pq_alg2 s with
    | Some a2 => HandshakeResult.append_algorithm (CryptoAlgorithm_value a2) result
    | None => result
    end in
  _log_message "HandshakeComplete" "System" (HandshakeCompletePayload result) ;;;
  ret result.

(** Lines 538-556. *)
Definition get_handshake_summary : M (t * Env) HandshakeSummary.t :=
  s <- self ;;
  ret (HandshakeSummary.mk
         (List.length (handshake_messages s))
         (KeyExchangeType_value (exchange_type s))
         [Some (CryptoAlgorithm_value (classical_alg s));
          Some (CryptoAlgorithm_value (pq_alg1 s));
          match pq_alg2 s with
          | Some a2 => Some (CryptoAlgorithm_value a2)
          | None => None
          end]
         (map (fun msg =>
                 HandshakeSummary.mk_message (HandshakeMessage.message_type msg)
                   (HandshakeMessage.sender msg) (HandshakeMessage.timestamp msg))
              (handshake_messages s))).

End WithBackend.
Arguments t B : clear implicits.
End HybridTLSHandshake.

(** ** The callers of the handshake

    client_server_apps.py builds the handshake objects of its server and of
    its client from their configurations, and main.py runs a list of
    handshakes and collects their results. *)

(** The enumeration [ConnectionMode] (client_server_apps.py, lines 36-41). *)
Module ConnectionMode.
Inductive t : Type := CLASSICAL | HYBRID | PQ_ONLY | AUTO_NEGOTIATE.

Definition value (m : t) : string :=
  match m with
  | CLASSICAL => "classical"
  | HYBRID => "hybrid"
  | PQ_ONLY => "post_quantum"
  | AUTO_NEGOTIATE => "auto_negotiate"
  end.
End ConnectionMode.

(** The data class [ServerConfig] (client_server_apps.py, lines 43-54): the
    fields [_create_handshake_handler] reads. *)
Module ServerConfig.
Record t : Type := mk {
  mode : ConnectionMode.t;
  classical_alg : CryptoAlgorithm;
  pq_alg1 : CryptoAlgorithm;
  pq_alg2 : option CryptoAlgorithm
}.
End ServerConfig.

(** The data class [ClientConfig] (client_server_apps.py, lines 56-66): the
    fields [_create_handshake_handler] reads. *)
Module ClientConfig.
Record t : Type := mk {
  mode : ConnectionMode.t;
  preferred_classical : CryptoAlgorithm;
  preferred_pq1 : CryptoAlgorithm;
  preferred_pq2 : option CryptoAlgorithm
}.
End ClientConfig.

Module QuantumSafeServer.
Section WithBackend.
Context {B : Backend}.

(** client_server_apps.py, lines 102-119; the socket and the address it is
    passed are not read. *)
Definition _create_handshake_handler (config : ServerConfig.t)
  : HybridTLSHandshake.t B :=
  let exchange_type :=
    match ServerConfig.mode config with
    | ConnectionMode.CLASSICAL => CLASSICAL
    | ConnectionMode.HYBRID => DUAL_HYBRID
    | ConnectionMode.PQ_ONLY => PQ_ONLY
    | ConnectionMode.AUTO_NEGOTIATE => DUAL_HYBRID
    end in
  HybridTLSHandshake.__init__ exchange_type
    (ServerConfig.classical_alg config)
    (ServerConfig.pq_alg1 config)
    (ServerConfig.pq_alg2 config).

End WithBackend.
End QuantumSafeServer.

Module QuantumSafeClient.
Section WithBackend.
Context {B : Backend}.

(** client_server_apps.py, lines 388-404. *)
Definition _create_handshake_handler (config : ClientConfig.t)
  : HybridTLSHandshake.t B :=
  let exchange_type :=
    match ClientConfig.mode config with
    | ConnectionMode.CLASSICAL => CLASSICAL
    | ConnectionMode.HYBRID => DUAL_HYBRID
    | ConnectionMode.PQ_ONLY => PQ_ONLY
    | ConnectionMode.AUTO_NEGOTIATE => DUAL_HYBRID
    end in
  HybridTLSHandshake.__init__ exchange_type
    (ClientConfig.preferred_classical config)
    (ClientConfig.preferred_pq1 config)
    (ClientConfig.preferred_pq2 config).

End WithBackend.
End QuantumSafeClient.

(** A method call on an object that is local to the caller: the object is
    dropped when the call ends. *)
Definition on_local {O A} (o : O) (m : M (O * Env) A) : M Env A :=
  fun e => let (r, st) := m (o, e) in (r, snd st).

(** [for x in xs: body], threading what the loop body updates. *)
Fixpoint for_each {S A X} (xs : list X) (body : X -> A -> M S A) (acc : A)
  : M S A :=
  match xs with
  | [] => ret acc
  | x :: xs' => acc' <- body x acc ;; for_each xs' body acc'
  end.

(** The keys of the dict [perform_handshake] returns (hybrid_tls.py, lines
    498-511). *)
Definition result_keys : list string :=
  ["success"; "exchange_type"; "algorithms"; "handshake_duration";
   "shared_secret_size"; "session_keys"; "message_count"; "key_sizes"].

(** A read [result[key]] whose value goes to [print] only: it returns, or
    raises [KeyError]. *)
Definition read_key {S} (key : string) : M S unit :=
  if str_in key result_keys then ret tt else raise (KeyError key).

Module QuantumSafeCryptoSuite.
Section WithBackend.
Context {B : Backend}.

(** main.py, lines 78-83. *)
Definition configs
  : list (string * KeyExchangeType * CryptoAlgorithm * CryptoAlgorithm
          * option CryptoAlgorithm) :=
  [("Classical X25519", CLASSICAL, X25519, KYBER768, None);
   ("Hybrid X25519+Kyber768", DUAL_HYBRID, X25519, KYBER768, None);
   ("Triple Hybrid", TRIPLE_HYBRID, ECDH_P256, KYBER768, Some NTRU_HPS2048509);
   ("Post-Quantum Only", PQ_ONLY, X25519, KYBER1024, None)].

(** main.py, lines 72-117: the list [results] the method returns.  What it
    prints is not part of the model, but the reads of [result] that feed the
    prints are, since a missing key ends the [try] block. *)
Definition demo_hybrid_tls : M Env (list (string * HandshakeResult.t * Z)) :=
  let results := [] in
  for_each configs
    (fun '(name, kex_type, classical, pq1, pq2) results =>
       try_except
         (let handshake :=
            HybridTLSHandshake.__init__ (B := B) kex_type classical pq1 pq2 in
          start_time <- time_time ;;
          result <- on_local handshake HybridTLSHandshake.perform_handshake ;;
          end_time <- time_time ;;
          let duration := (end_time - start_time)%Z in
          read_key "algorithms" ;;;
          read_key "shared_secret_size" ;;;
          read_key "protocol_efficiency" ;;;
          ret (results ++ [(name, result, duration)]))
         (fun _ => ret results))
    results.

End WithBackend.
End QuantumSafeCryptoSuite.

(** ** The round trip of a KEM

    The experiment the KEM round-trip property speaks of, on one
    [QuantumSafeKEM] object: a key pair, an encapsulation against its public
    key, a decapsulation of that ciphertext with its private key.  It returns
    the encapsulated secret and the decapsulated one. *)

Definition round_trip {B : Backend} : M (QuantumSafeKEM.t B * Env) (bytes * bytes) :=
  keys <- QuantumSafeKEM.generate_keypair ;;
  '(ciphertext, shared_secret) <-
    QuantumSafeKEM.encapsulate (KeyMaterial.public_key keys) ;;
  recovered <- QuantumSafeKEM.decapsulate ciphertext (KeyMaterial.private_key keys) ;;
  ret (shared_secret, recovered).

(** ** The combiner as the specification words it

    Section 4.4 of the specification: the per-primitive secrets, in the fixed
    order classical, primary post-quantum, secondary post-quantum, are
    concatenated and fed through HKDF with the protocol salt and an info
    string that names the exchange mode, giving a 48-byte master secret; with
    no secret at all the combiner fails.  A primitive that was not negotiated
    has no secret ([None]). *)

Definition present (s : option bytes) : list bytes :=
  match s with
  | Some b => [b]
  | None => []
  end.

Definition spec_combiner {B : Backend} (mode : KeyExchangeType)
    (classical pq_primary pq_secondary : option bytes) : result bytes :=
  match present classical ++ present pq_primary ++ present pq_secondary with
  | [] => Raise (ValueError "No shared secrets could be computed")
  | ordered =>
      Ok (hkdf_sha384 48 (encode "TLS 1.3 Hybrid Key Schedule")
            (encode (String.append "hybrid-" (KeyExchangeType_value mode)))
            (List.concat ordered))
  end.

(** ** A backend to run the model on

    An executable stand-in for the libraries, for evaluating the model on
    concrete inputs: no oqs binding is installed, the entropy stream counts
    upwards, and the curve and HKDF operations are simple byte shuffles that
    keep the libraries' sizes and length checks.  The theorems below are
    proved for every backend; this one only supplies instances. *)

Module Demo.

Definition counter (i : nat) : byte :=
  match Byte.of_nat (i mod 256) with
  | Some b => b
  | None => x00
  end.

(** A fresh process: nothing drawn yet, the clock reading [i] at its
    [i]-th call. *)
Definition env0 : Env := mkEnv counter 0 Z.of_nat 0.

(** [n] bytes read cyclically from [data]. *)
Definition stretch (n : nat) (data : bytes) : bytes :=
  map (fun i => nth (i mod len data) data x00) (seq 0 n).

Definition public_size (c : Curve) : nat :=
  match c with
  | Curve25519 => 32
  | Curve448 => 56
  | SECP256R1 => 65
  | SECP384R1 => 97
  end.

Definition private_size (c : Curve) : nat :=
  match c with
  | Curve25519 => 32
  | Curve448 => 56
  | SECP256R1 => 138
  | SECP384R1 => 185
  end.

Definition generate (c : Curve) : M Env (bytes * bytes) :=
  priv <- token_bytes (private_size c) ;;
  ret (stretch (public_size c) (rev priv), priv).

Definition exchange (c : Curve) (priv pub : bytes) : result bytes :=
  if negb (Nat.eqb (len priv) (private_size c)) then
    Raise (ValueError "wrong private key length")
  else if negb (Nat.eqb (len pub) (public_size c)) then
    Raise (ValueError "wrong public key length")
  else Ok (stretch (public_size c) (priv ++ pub)).

Definition backend : Backend := {|
  hkdf_sha384 := fun n salt info ikm => stretch n (ikm ++ info ++ salt);
  curve_generate := generate;
  curve_exchange := exchange;
  OQS_AVAILABLE := false;
  oqs_kem := unit;
  oqs_KeyEncapsulation := fun _ => Raise (LibraryError "oqs is not installed");
  oqs_generate_keypair := fun _ => raise (LibraryError "oqs is not installed");
  oqs_export_secret_key := fun _ => [];
  oqs_encap_secret := fun _ _ => raise (LibraryError "oqs is not installed");
  oqs_decap_secret := fun _ _ => Raise (LibraryError "oqs is not installed")
|}.

(** The configurations of the module's own demo (lines 563-592). *)
Definition classical_only : HybridTLSHandshake.t backend :=
  HybridTLSHandshake.__init__ CLASSICAL X25519 KYBER768 None.

Definition dual_hybrid : HybridTLSHandshake.t backend :=
  HybridTLSHandshake.__init__ DUAL_HYBRID X25519 KYBER768 None.

Definition triple_hybrid : HybridTLSHandshake.t backend :=
  HybridTLSHandshake.__init__ TRIPLE_HYBRID ECDH_P256 KYBER768
    (Some NTRU_HPS2048509).

(** Another process: [n] bytes of the stream already drawn. *)
Definition env_from (n : nat) : Env := mkEnv counter n Z.of_nat 0.

(** A 48-byte master secret. *)
Definition master : bytes := stretch 48 (encode "master secret").

(** Key shares for X25519 whose server entry holds a private key one byte
    short, as [compute_shared_secrets] may be handed them. *)
Definition short_server_shares : dict KeyShare.t :=
  [("classical",
    KeyShare.mk "X25519" (map counter (seq 0 32)) 32 (Some (map counter (seq 0 31))))].

Definition client_shares : dict KeyShare.t :=
  [("classical", KeyShare.mk "X25519" (map counter (seq 32 32)) 32 None)].

(** A ClientHello advertising [groups]. *)
Definition hello (groups : list string) : ClientHello.t :=
  ClientHello.mk "TLS 1.3" (map counter (seq 0 32))
    ["TLS_AES_256_GCM_SHA384"] groups "triple_hybrid" ["TLS 1.3"] true.

End Demo.

(** ** A backend with an oqs binding

    A stand-in for an installed oqs, to run the wrapper's oqs branch on: the
    KEM object holds its secret key, 32 bytes of the entropy stream; the
    public key is the secret key reversed; a ciphertext is 32 fresh bytes, and
    the secret it encapsulates is read off the ciphertext and the public key,
    which decapsulation recomputes from the secret key.  The curves and the
    HKDF are those of [Demo]. *)

Module DemoOqs.

Definition generate (k : bytes) : M Env (bytes * bytes) :=
  secret_key <- token_bytes 32 ;;
  ret (rev secret_key, secret_key).

Definition encap (k : bytes) (public_key : bytes) : M Env (bytes * bytes) :=
  ciphertext <- token_bytes 32 ;;
  ret (ciphertext, Demo.stretch 32 (ciphertext ++ public_key)).

Definition decap (k : bytes) (ciphertext : bytes) : result bytes :=
  Ok (Demo.stretch 32 (ciphertext ++ rev k)).

Definition backend : Backend := {|
  hkdf_sha384 := fun n salt info ikm => Demo.stretch n (ikm ++ info ++ salt);
  curve_generate := Demo.generate;
  curve_exchange := Demo.exchange;
  OQS_AVAILABLE := true;
  oqs_kem := bytes;
  oqs_KeyEncapsulation := fun _ => Ok [];
  oqs_generate_keypair := generate;
  oqs_export_secret_key := fun k => k;
  oqs_encap_secret := encap;
  oqs_decap_secret := decap
|}.

End DemoOqs.

(** ** The vocabulary of the properties *)

Import HybridTLSHandshake.

Definition no_group : exn := ValueError "No compatible key exchange group found".

Definition no_secrets : exn := ValueError "No shared secrets could be computed".

(** The type and sender of each message of a transcript. *)
Definition labels (log : list HandshakeMessage.t) : list (string * string) :=
  map (fun m => (HandshakeMessage.message_type m, HandshakeMessage.sender m)) log.

(** The five entries a successful run adds before it builds its result. *)
Definition five_steps : list (string * string) :=
  [("ClientHello", "Client"); ("ServerHello", "Server");
   ("KeyShare", "Server"); ("KeyShare", "Client");
   ("SharedSecret", "Combined")].

(** ["private_key" in entry]. *)
Definition has_private_key (entry : KeyShare.t) : bool :=
  match KeyShare.private_key entry with
  | Some _ => true
  | None => false
  end.

Section Vocabulary.
Context {B : Backend}.

(** The transcript of a state. *)
Definition log_of (st : t B * Env) : list HandshakeMessage.t :=
  handshake_messages (fst st).

(** The wrapper cannot use oqs for [alg]: the import failed, or [alg] has no
    oqs name, or the [KeyEncapsulation] constructor raised. *)
Definition not_instantiable (alg : CryptoAlgorithm) : Prop :=
  OQS_AVAILABLE = false
  \/ match QuantumSafeKEM.oqs_names alg with
     | Some name => exists x, oqs_KeyEncapsulation name = Raise x
     | None => True
     end.

(** The part of the object no method writes: the configuration
    [__init__] stored and the classical KEM. *)
Definition config (h : t B)
  : KeyExchangeType * CryptoAlgorithm * CryptoAlgorithm * option CryptoAlgorithm
    * ClassicalKEM.t :=
  (exchange_type h, classical_alg h, pq_alg1 h, pq_alg2 h, classical_kem h).

(** The algorithms [perform_handshake] lists (lines 501 and 513-514). *)
Definition configured_algorithms (h : t B) : list string :=
  [CryptoAlgorithm_value (classical_alg h); CryptoAlgorithm_value (pq_alg1 h)]
  ++ match pq_alg2 h with
     | Some a2 => [CryptoAlgorithm_value a2]
     | None => []
     end.

(** [keeps proj m]: whatever [m] returns or raises, the part [proj] of the
    handshake object is as before. *)
Definition keeps {X A} (proj : t B -> X) (m : M (t B * Env) A) : Prop :=
  forall st, proj (fst (snd (m st))) = proj (fst st).

(** [proj] does not read the two post-quantum KEM objects. *)
Definition ignores_kems {X} (proj : t B -> X) : Prop :=
  (forall k h, proj (set_pq_kem1 k h) = proj h)
  /\ (forall k h, proj (set_pq_kem2 k h) = proj h).

(** [proj] does not read the transcript. *)
Definition ignores_log {X} (proj : t B -> X) : Prop :=
  forall m h, proj (append_message m h) = proj h.

(** [logs_one ty sd m]: when [m] returns, exactly one message, of type [ty]
    from sender [sd], has been appended. *)
Definition logs_one {A} (ty sd : string) (m : M (t B * Env) A) : Prop :=
  forall st a st',
    m st = (Ok a, st') ->
    exists msg,
      log_of st' = log_of st ++ [msg]
      /\ HandshakeMessage.message_type msg = ty
      /\ HandshakeMessage.sender msg = sd.

End Vocabulary.

(** ** The vocabulary of the further properties *)

(** The algorithms [ClassicalKEM.generate_keypair] has a branch for. *)
Definition classical_supported (a : CryptoAlgorithm) : bool :=
  match a with
  | X25519 | X448 | ECDH_P256 | ECDH_P384 => true
  | _ => false
  end.

(** The error of [ClassicalKEM.generate_keypair] for another algorithm. *)
Definition unsupported (a : CryptoAlgorithm) : exn :=
  ValueError (String.append "Unsupported classical algorithm: " (CryptoAlgorithm_str a)).

Definition is_some {A} (o : option A) : bool :=
  match o with
  | Some _ => true
  | None => false
  end.

(** What the name of a selected group starts with. *)
Definition group_prefix (x : KeyExchangeType) : list string :=
  match x with
  | DUAL_HYBRID => ["hybrid"]
  | TRIPLE_HYBRID => ["triple_hybrid"]
  | CLASSICAL | PQ_ONLY => []
  end.

(** The six entries of the transcript of a run that returns. *)
Definition six_steps : list (string * string) :=
  five_steps ++ [("HandshakeComplete", "System")].

(** A configuration [perform_handshake] can complete: the classical
    algorithm, where the mode uses one, is one the classical KEM generates
    keys for, and a triple hybrid names its second post-quantum algorithm. *)
Definition usable (x : KeyExchangeType) (c : CryptoAlgorithm)
    (p2 : option CryptoAlgorithm) : bool :=
  match x with
  | CLASSICAL | DUAL_HYBRID => classical_supported c
  | PQ_ONLY => true
  | TRIPLE_HYBRID => classical_supported c && is_some p2
  end.

(** The modes that exchange a classical key (lines 298 and 371). *)
Definition uses_classical (x : KeyExchangeType) : bool :=
  type_in x [CLASSICAL; DUAL_HYBRID; TRIPLE_HYBRID].

(** The algorithms [ClassicalKEM.derive_shared_secret] runs a curve
    exchange for. *)
Definition derives (a : CryptoAlgorithm) : bool :=
  match a with
  | X25519 | X448 => true
  | _ => false
  end.

(** What two dicts of key shares hold for [compute_shared_secrets]: the
    server's classical private key and the client's classical public key,
    and for each post-quantum share the server's public key and whether the
    client has a share of that name. *)
Definition exchange_view (sks cks : dict KeyShare.t) :=
  (option_map KeyShare.private_key (dict_get "classical" sks),
   option_map KeyShare.public_key (dict_get "classical" cks),
   (option_map KeyShare.public_key (dict_get "pq_primary" sks),
    dict_in "pq_primary" cks),
   (option_map KeyShare.public_key (dict_get "pq_secondary" sks),
    dict_in "pq_secondary" cks)).

(** The lengths of the two write keys and of the two IVs. *)
Definition key_lengths (k : SessionKeys.t) : nat * nat * nat * nat :=
  (len (SessionKeys.client_write_key k), len (SessionKeys.server_write_key k),
   len (SessionKeys.client_write_iv k), len (SessionKeys.server_write_iv k)).

(** The entries of a summary's ["algorithms_used"] that are not [None]. *)
Definition named (l : list (option string)) : list string :=
  flat_map (fun o => match o with Some a => [a] | None => [] end) l.

Section Coverage.
Context {B : Backend}.

(** The algorithms a handshake exchanges keys with, by its mode; a triple
    hybrid without a second post-quantum algorithm has none. *)
Definition required_algorithms (h : t B) : option (list CryptoAlgorithm) :=
  match exchange_type h with
  | CLASSICAL => Some [classical_alg h]
  | PQ_ONLY => Some [pq_alg1 h]
  | DUAL_HYBRID => Some [classical_alg h; pq_alg1 h]
  | TRIPLE_HYBRID =>
      match pq_alg2 h with
      | Some a2 => Some [classical_alg h; pq_alg1 h; a2]
      | None => None
      end
  end.

(** The groups [client_hello] offers: the required algorithms, and the
    first two of a triple hybrid that has no third. *)
Definition offered_groups (h : t B) : list string :=
  match required_algorithms h with
  | Some algs => map CryptoAlgorithm_value algs
  | None => [CryptoAlgorithm_value (classical_alg h); CryptoAlgorithm_value (pq_alg1 h)]
  end.

(** Every required algorithm is among the groups a peer offers. *)
Definition accepts (h : t B) (groups : list string) : bool :=
  match required_algorithms h with
  | Some algs => forallb (fun a => str_in (CryptoAlgorithm_value a) groups) algs
  | None => false
  end.

(** The name of the group a handshake selects: the required algorithms
    joined by "_", after "hybrid" or "triple_hybrid" for the hybrid modes. *)
Definition group_name (h : t B) : string :=
  match required_algorithms h with
  | Some algs =>
      String.concat "_"
        (group_prefix (exchange_type h) ++ map CryptoAlgorithm_value algs)
  | None => ""
  end.

(** The names of the key shares of a handshake, by its mode. *)
Definition share_names (h : t B) : list string :=
  match exchange_type h with
  | CLASSICAL => ["classical"]
  | PQ_ONLY => ["pq_primary"]
  | DUAL_HYBRID => ["classical"; "pq_primary"]
  | TRIPLE_HYBRID =>
      if is_some (pq_kem2 h)
      then ["classical"; "pq_primary"; "pq_secondary"]
      else ["classical"; "pq_primary"]
  end.

(** The exchanges [compute_shared_secrets] runs on two dicts of key shares:
    those whose share both dicts hold, the secondary one only when the
    object has a second post-quantum KEM. *)
Definition exchanged (sks cks : dict KeyShare.t) (h : t B) : list string :=
  filter (fun name => dict_in name sks && dict_in name cks)
    (["classical"; "pq_primary"]
     ++ if is_some (pq_kem2 h) then ["pq_secondary"] else []).

(** The oqs binding generates a key pair whenever it is asked to. *)
Definition oqs_generates : Prop :=
  forall k e, exists public_key k' e',
    oqs_generate_keypair k e = (Ok (public_key, k'), e').

(** The libraries generate keys: each curve does, and so does the oqs
    binding unless its import failed. *)
Definition generators_return : Prop :=
  (forall c e, exists keys e', curve_generate c e = (Ok keys, e'))
  /\ (OQS_AVAILABLE = false \/ oqs_generates).

(** A wrapper whose [generate_keypair] returns: it simulates, or the oqs
    binding generates. *)
Definition keygen_ready (k : QuantumSafeKEM.t B) : Prop :=
  QuantumSafeKEM.real_kem k = None \/ oqs_generates.

Definition kems_ready (h : t B) : Prop :=
  keygen_ready (pq_kem1 h)
  /\ forall k2, pq_kem2 h = Some k2 -> keygen_ready k2.

(** Where the mode exchanges a classical key, the classical KEM generates
    keys for its algorithm. *)
Definition classical_ok (h : t B) : Prop :=
  uses_classical (exchange_type h) = true ->
  classical_supported (ClassicalKEM.algorithm (classical_kem h)) = true.

(** The oqs binding is correct: what [encap_secret] encapsulates against
    the public key of a generated pair, [decap_secret] of the object that
    generated the pair recovers. *)
Definition oqs_correct : Prop :=
  forall k e public_key k' e1 ciphertext shared_secret e2,
    oqs_generate_keypair k e = (Ok (public_key, k'), e1) ->
    oqs_encap_secret k' public_key e1 = (Ok (ciphertext, shared_secret), e2) ->
    oqs_decap_secret k' ciphertext = Ok shared_secret.

(** [quiet_on_raise m]: when [m] raises, it has logged nothing. *)
Definition quiet_on_raise {A} (m : M (t B * Env) A) : Prop :=
  forall st x st', m st = (Raise x, st') -> log_of st' = log_of st.

End Coverage.

(** * Properties *)

(** ** Stepping through the monad *)

Lemma bind_ok {S A C} (m : M S A) (k : A -> M S C) (s s' : S) (c : C) :
  bind m k s = (Ok c, s') ->
  exists a s1, m s = (Ok a, s1) /\ k a s1 = (Ok c, s').
Proof.
  unfold bind. destruct (m s) as [[a | x] s1] eqn:E; intros H.
  - exists a, s1. split; [reflexivity | exact H].
  - discriminate H.
Qed.

Lemma bind_step {S A C} (m : M S A) (k : A -> M S C) (s s1 : S) (a : A) :
  m s = (Ok a, s1) -> bind m k s = k a s1.
Proof.
  intros E. unfold bind. rewrite E. reflexivity.
Qed.

Lemma bind_raise {S A C} (m : M S A) (k : A -> M S C) (s s1 : S) (x : exn) :
  m s = (Raise x, s1) -> bind m k s = (Raise x, s1).
Proof.
  intros E. unfold bind. rewrite E. reflexivity.
Qed.

(** ** What a step leaves unchanged

    [keeps proj m]: whatever [m] returns or raises, the part [proj] of the
    handshake object is as before.  With [proj := handshake_messages] this
    says that [m] logs nothing. *)

Section Frame.
Context {B : Backend} {X : Type} (proj : t B -> X).

Lemma keeps_ret {A} (a : A) : keeps proj (ret a).
Proof. intros st. reflexivity. Qed.

Lemma keeps_raise {A} (x : exn) : keeps proj (raise (A := A) x).
Proof. intros st. reflexivity. Qed.

Lemma keeps_self : keeps proj self.
Proof. intros st. reflexivity. Qed.

Lemma keeps_of_result {A} (r : result A) : keeps proj (of_result r).
Proof. intros st. reflexivity. Qed.

Lemma keeps_getitem {V} (k : string) (d : dict V) : keeps proj (getitem k d).
Proof. intros st. unfold getitem. destruct (dict_get k d); reflexivity. Qed.

Lemma keeps_in_env {A} (m : M Env A) : keeps proj (in_env m).
Proof.
  intros [h e]. unfold in_env, zoom. simpl.
  destruct (m e) as [r e']. reflexivity.
Qed.

Lemma keeps_on_pq_kem1 {A} (m : M (QuantumSafeKEM.t B * Env) A) :
  ignores_kems proj -> keeps proj (on_pq_kem1 m).
Proof.
  intros [H1 _] [h e]. unfold on_pq_kem1, zoom. simpl.
  destruct (m (pq_kem1 h, e)) as [r ks]. simpl. apply H1.
Qed.

Lemma keeps_on_pq_kem2 {A} (k2 : QuantumSafeKEM.t B)
    (m : M (QuantumSafeKEM.t B * Env) A) :
  ignores_kems proj -> keeps proj (on_pq_kem2 k2 m).
Proof.
  intros [_ H2] [h e]. unfold on_pq_kem2, zoom. simpl.
  destruct (m (k2, e)) as [r ks]. simpl. apply H2.
Qed.

Lemma keeps_log_message (ty sd : string) (p : Payload) :
  ignores_log proj -> keeps proj (_log_message ty sd p).
Proof.
  intros H [h e]. unfold _log_message, bind, in_env, zoom, time_time, modify.
  simpl. apply H.
Qed.

Lemma keeps_bind {A C} (m : M (t B * Env) A) (k : A -> M (t B * Env) C) :
  keeps proj m -> (forall a, keeps proj (k a)) -> keeps proj (bind m k).
Proof.
  intros Hm Hk st. unfold bind. specialize (Hm st).
  destruct (m st) as [[a | x] s1]; simpl in *.
  - rewrite Hk. exact Hm.
  - exact Hm.
Qed.

Lemma keeps_try_except {A} (body : M (t B * Env) A)
    (handler : exn -> M (t B * Env) A) :
  keeps proj body -> (forall x, keeps proj (handler x)) ->
  keeps proj (try_except body handler).
Proof.
  intros Hb Hh st. unfold try_except. specialize (Hb st).
  destruct (body st) as [[a | x] s1]; simpl in *.
  - exact Hb.
  - rewrite Hh. exact Hb.
Qed.

Lemma keeps_ok {A} (m : M (t B * Env) A) (st st' : t B * Env) (a : A) :
  keeps proj m -> m st = (Ok a, st') -> proj (fst st') = proj (fst st).
Proof.
  intros Hm E. specialize (Hm st). rewrite E in Hm. exact Hm.
Qed.

End Frame.

(** [keeps] goals follow the shape of the method. *)
Ltac keeps :=
  repeat first
    [ apply keeps_ret | apply keeps_raise | apply keeps_self
    | apply keeps_of_result | apply keeps_getitem | apply keeps_in_env
    | apply keeps_on_pq_kem1; split; intros; reflexivity
    | apply keeps_on_pq_kem2; split; intros; reflexivity
    | apply keeps_log_message; intros ? ?; reflexivity
    | apply keeps_bind; [| intro]
    | apply keeps_try_except; [| intro]
    | match goal with
      | |- keeps _ (if ?c then _ else _) => destruct c
      | |- keeps _ (match ?x with _ => _ end) => destruct x
      end ].

(** ** The transcript

    [logs_one ty sd m]: when [m] returns, exactly one message, of type [ty]
    from sender [sd], has been appended. *)

Section Transcript.
Context {B : Backend}.

Lemma log_message_appends (ty sd : string) (p : Payload) (st : t B * Env) :
  exists ts st',
    _log_message ty sd p st = (Ok tt, st')
    /\ log_of st' = log_of st ++ [HandshakeMessage.mk ty sd p ts]
    /\ snd st' = mkEnv (entropy (snd st)) (cursor (snd st)) (wall (snd st))
                       (S (reads (snd st))).
Proof.
  destruct st as [h e].
  exists (wall e (reads e)).
  eexists. split; [| split].
  - unfold _log_message, bind, in_env, zoom, time_time, modify. simpl. reflexivity.
  - reflexivity.
  - reflexivity.
Qed.

Lemma logs_one_raise {A} (ty sd : string) (x : exn) :
  logs_one ty sd (raise (A := A) x).
Proof. intros st a st' H. discriminate H. Qed.

(** The closing [_log_message] and [return] of a method. *)
Lemma logs_one_log {C} (ty sd : string) (p : Payload) (c : C) :
  logs_one ty sd (bind (_log_message ty sd p) (fun _ => ret c)).
Proof.
  intros st c' st' H.
  apply bind_ok in H. destruct H as ([] & s2 & E2 & H).
  unfold ret in H. injection H as _ <-.
  destruct (log_message_appends ty sd p st) as (ts & s2' & E2' & Hlog & _).
  rewrite E2 in E2'. injection E2' as <-.
  exists (HandshakeMessage.mk ty sd p ts).
  split; [exact Hlog | split; reflexivity].
Qed.

Lemma logs_one_bind {A C} (ty sd : string) (m : M (t B * Env) A)
    (k : A -> M (t B * Env) C) :
  keeps handshake_messages m -> (forall a, logs_one ty sd (k a)) ->
  logs_one ty sd (bind m k).
Proof.
  intros Hm Hk st c st' H.
  apply bind_ok in H. destruct H as (a & s1 & E1 & H).
  destruct (Hk a s1 c st' H) as (msg & Hlog & Hty & Hsd).
  exists msg. split; [| split; assumption].
  rewrite Hlog. f_equal.
  exact (keeps_ok _ _ _ _ _ Hm E1).
Qed.

End Transcript.

Section Methods.
Context {B : Backend}.

Lemma client_hello_logs : logs_one "ClientHello" "Client" (client_hello (B := B)).
Proof.
  unfold client_hello.
  apply logs_one_bind; [keeps | intros s].
  apply logs_one_bind; [keeps | intros random].
  apply logs_one_log.
Qed.

Lemma server_hello_logs (ch : ClientHello.t) :
  logs_one "ServerHello" "Server" (server_hello (B := B) ch).
Proof.
  unfold server_hello.
  apply logs_one_bind; [keeps | intros s].
  destruct (if truthy _ then _ else _) as [group |].
  - apply logs_one_bind; [keeps | intros random]. apply logs_one_log.
  - apply logs_one_raise.
Qed.

Lemma generate_key_shares_logs (is_server : bool) :
  logs_one "KeyShare" (if is_server then "Server" else "Client")
    (generate_key_shares (B := B) is_server).
Proof.
  unfold generate_key_shares.
  apply logs_one_bind; [keeps | intros s].
  apply logs_one_bind; [keeps | intros ks1].
  apply logs_one_bind; [keeps | intros ks2].
  apply logs_one_bind; [keeps | intros ks3].
  apply logs_one_log.
Qed.

Lemma classical_exchange_keeps {X} (proj : t B -> X)
    (sks cks : dict KeyShare.t) (ss : list bytes) :
  keeps proj (classical_exchange sks cks ss).
Proof. unfold classical_exchange. keeps. Qed.

Lemma pq_primary_exchange_keeps {X} (proj : t B -> X)
    (sks cks : dict KeyShare.t) (ss : list bytes) :
  ignores_kems proj -> keeps proj (pq_primary_exchange sks cks ss).
Proof.
  intros Hk. unfold pq_primary_exchange.
  repeat first
    [ apply keeps_on_pq_kem1; exact Hk | progress keeps ].
Qed.

Lemma pq_secondary_exchange_keeps {X} (proj : t B -> X)
    (sks cks : dict KeyShare.t) (ss : list bytes) :
  ignores_kems proj -> keeps proj (pq_secondary_exchange sks cks ss).
Proof.
  intros Hk. unfold pq_secondary_exchange.
  repeat first
    [ apply keeps_on_pq_kem2; exact Hk | progress keeps ].
Qed.

Lemma log_ignores_kems : ignores_kems (B := B) handshake_messages.
Proof. split; intros; reflexivity. Qed.

Lemma combine_logs (ss : list bytes) :
  logs_one "SharedSecret" "Combined" (combine (B := B) ss).
Proof.
  unfold combine.
  apply logs_one_bind; [keeps | intros s].
  destruct ss as [| s0 ss'].
  - apply logs_one_raise.
  - apply logs_one_log.
Qed.

Lemma compute_shared_secrets_logs (sks cks : dict KeyShare.t) :
  logs_one "SharedSecret" "Combined" (compute_shared_secrets (B := B) sks cks).
Proof.
  unfold compute_shared_secrets.
  apply logs_one_bind; [apply classical_exchange_keeps | intros ss1].
  apply logs_one_bind;
    [apply pq_primary_exchange_keeps, log_ignores_kems | intros ss2].
  apply logs_one_bind;
    [apply pq_secondary_exchange_keeps, log_ignores_kems | intros ss3].
  apply combine_logs.
Qed.

Lemma derive_session_keys_keeps {X} (proj : t B -> X) (secret : bytes) :
  keeps proj (_derive_session_keys secret).
Proof. unfold _derive_session_keys. keeps. Qed.

End Methods.

(** ** The transcript of a whole handshake *)

Section Handshake.
Context {B : Backend}.

Lemma labels_snoc (log : list HandshakeMessage.t) (m : HandshakeMessage.t) :
  labels (log ++ [m])
  = labels log ++ [(HandshakeMessage.message_type m, HandshakeMessage.sender m)].
Proof. unfold labels. rewrite map_app. reflexivity. Qed.

(** From any state, a run that returns has appended the five step entries,
    counted them together with what the transcript already held, and then
    appended [HandshakeComplete]. *)
Lemma perform_handshake_transcript (st st' : t B * Env) (r : HandshakeResult.t) :
  perform_handshake st = (Ok r, st') ->
  HandshakeResult.message_count r = List.length (log_of st) + 5
  /\ labels (log_of st')
     = labels (log_of st) ++ five_steps ++ [("HandshakeComplete", "System")].
Proof.
  unfold perform_handshake. intros H.
  apply bind_ok in H. destruct H as (t0 & s1 & E1 & H).
  apply (keeps_ok handshake_messages _ _ _ _ (keeps_in_env _ _)) in E1.
  apply bind_ok in H. destruct H as (ch & s2 & E2 & H).
  apply client_hello_logs in E2. destruct E2 as (m1 & L2 & T1 & S1).
  apply bind_ok in H. destruct H as (sh & s3 & E3 & H).
  apply server_hello_logs in E3. destruct E3 as (m2 & L3 & T2 & S2).
  apply bind_ok in H. destruct H as (sks & s4 & E4 & H).
  apply generate_key_shares_logs in E4. destruct E4 as (m3 & L4 & T3 & S3).
  apply bind_ok in H. destruct H as (cks & s5 & E5 & H).
  apply generate_key_shares_logs in E5. destruct E5 as (m4 & L5 & T4 & S4).
  apply bind_ok in H. destruct H as (secret & s6 & E6 & H).
  apply compute_shared_secrets_logs in E6. destruct E6 as (m5 & L6 & T5 & S5).
  apply bind_ok in H. destruct H as (keys & s7 & E7 & H).
  apply (keeps_ok handshake_messages _ _ _ _ (derive_session_keys_keeps _ _)) in E7.
  apply bind_ok in H. destruct H as (t1 & s8 & E8 & H).
  apply (keeps_ok handshake_messages _ _ _ _ (keeps_in_env _ _)) in E8.
  apply bind_ok in H. destruct H as (s & s9 & E9 & H).
  unfold self, gets in E9. injection E9 as <- <-.
  apply bind_ok in H. destruct H as ([] & s10 & E10 & H).
  unfold ret in H. injection H as <- <-.
  match type of E10 with
  | _log_message ?ty ?sd ?p ?s = _ =>
      destruct (log_message_appends ty sd p s) as (ts & s10' & E10' & L10 & _)
  end.
  rewrite E10 in E10'. injection E10' as <-.
  unfold log_of in *.
  assert (Hlog : handshake_messages (fst s8)
                 = handshake_messages (fst st) ++ [m1; m2; m3; m4; m5]).
  { rewrite E8, E7, L6, L5, L4, L3, L2, E1.
    repeat rewrite <- app_assoc. reflexivity. }
  split.
  - assert (Hcount : List.length (handshake_messages (fst s8))
                     = List.length (handshake_messages (fst st)) + 5).
    { rewrite Hlog, length_app. reflexivity. }
    destruct (pq_alg2 (fst s8)); simpl; exact Hcount.
  - rewrite L10, labels_snoc, Hlog. unfold labels at 1.
    rewrite map_app. simpl.
    rewrite T1, S1, T2, S2, T3, S3, T4, S4, T5, S5.
    rewrite <- app_assoc. reflexivity.
Qed.

(** C9.  On a freshly constructed handshake object, whatever its exchange
    type and algorithms, a [perform_handshake] that returns has logged
    exactly ClientHello, ServerHello, the server's KeyShare, the client's
    KeyShare and SharedSecret when it builds its result, so the result's
    [message_count] is 5; HandshakeComplete is logged after the count. *)
Theorem fresh_handshake_counts_five_messages
    (x : KeyExchangeType) (c p1 : CryptoAlgorithm) (p2 : option CryptoAlgorithm)
    (e : Env) (r : HandshakeResult.t) (st' : t B * Env) :
  perform_handshake (__init__ x c p1 p2, e) = (Ok r, st') ->
  HandshakeResult.message_count r = 5
  /\ labels (firstn 5 (log_of st')) = five_steps
  /\ labels (log_of st') = five_steps ++ [("HandshakeComplete", "System")].
Proof.
  intros H. apply perform_handshake_transcript in H.
  destruct H as [Hcount Hlabels]. simpl in Hcount, Hlabels.
  split; [exact Hcount | split; [| exact Hlabels]].
  unfold labels in *. rewrite <- firstn_map, Hlabels. reflexivity.
Qed.

End Handshake.

(** ** Negotiation *)

Section Negotiation.
Context {B : Backend}.

Lemma server_hello_without_group (h : t B) (e : Env) (ch : ClientHello.t) :
  select_group h (ClientHello.supported_groups ch) = None ->
  server_hello ch (h, e) = (Raise no_group, (h, e)).
Proof.
  intros Hsel. unfold server_hello, bind, self, gets. simpl.
  rewrite Hsel. reflexivity.
Qed.

Lemma select_group_triple_without_pq2 (h : t B) (groups : list string) :
  exchange_type h = TRIPLE_HYBRID -> pq_alg2 h = None ->
  select_group h groups = None.
Proof.
  intros Hx H2. unfold select_group. rewrite Hx, H2. reflexivity.
Qed.

(** C3.  A triple-hybrid handshake whose peer offers the classical and the
    first post-quantum algorithm but not the second one selects no group:
    [server_hello] raises "No compatible key exchange group found", logs no
    ServerHello and draws no randomness; it does not fall back to the
    dual-hybrid group, nor to a smaller one. *)
Theorem triple_hybrid_is_all_or_nothing
    (h : t B) (e : Env) (ch : ClientHello.t) :
  exchange_type h = TRIPLE_HYBRID ->
  str_in (CryptoAlgorithm_value (classical_alg h)) (ClientHello.supported_groups ch) = true ->
  str_in (CryptoAlgorithm_value (pq_alg1 h)) (ClientHello.supported_groups ch) = true ->
  (forall a2, pq_alg2 h = Some a2 ->
     str_in (CryptoAlgorithm_value a2) (ClientHello.supported_groups ch) = false) ->
  select_group h (ClientHello.supported_groups ch) = None
  /\ server_hello ch (h, e) = (Raise no_group, (h, e)).
Proof.
  intros Hx Hc H1 H2.
  assert (Hsel : select_group h (ClientHello.supported_groups ch) = None).
  { destruct (pq_alg2 h) as [a2 |] eqn:E2.
    - unfold select_group. rewrite Hx, E2. simpl.
      rewrite Hc, H1, (H2 a2 eq_refl). reflexivity.
    - apply select_group_triple_without_pq2; assumption. }
  split; [exact Hsel | apply server_hello_without_group; exact Hsel].
Qed.

(** C10.  A handshake built as triple hybrid with [pq_alg2 = None] has no
    second KEM, its [server_hello] raises "No compatible key exchange group
    found" on every ClientHello and in every environment, and so does its
    [perform_handshake]: it cannot complete. *)
Theorem triple_hybrid_without_second_algorithm_never_completes
    (c p1 : CryptoAlgorithm) :
  let h := __init__ (B := B) TRIPLE_HYBRID c p1 None in
  pq_kem2 h = None
  /\ (forall ch e, server_hello ch (h, e) = (Raise no_group, (h, e)))
  /\ (forall e, exists st', perform_handshake (h, e) = (Raise no_group, st')).
Proof.
  intros h. split; [reflexivity | split].
  - intros ch e. apply server_hello_without_group.
    apply select_group_triple_without_pq2; reflexivity.
  - intros e. eexists. subst h.
    unfold perform_handshake, client_hello, _log_message.
    unfold bind, self, gets, in_env, zoom, time_time, token_bytes, modify, ret.
    simpl. reflexivity.
Qed.

End Negotiation.

(** The instance of C9 on the classical-only demo handshake, which
    returns. *)
Lemma fresh_handshake_counts_five_messages_demo :
  exists r st',
    perform_handshake (Demo.classical_only, Demo.env0) = (Ok r, st')
    /\ HandshakeResult.message_count r = 5.
Proof.
  destruct (perform_handshake (Demo.classical_only, Demo.env0))
    as [[r | x] st'] eqn:E.
  - exists r, st'. split; [reflexivity |].
    exact (proj1 (fresh_handshake_counts_five_messages
                    CLASSICAL X25519 KYBER768 None Demo.env0 r st' E)).
  - vm_compute in E. discriminate E.
Defined.

(** The instance of C3 for ECDH-P256, Kyber768 and NTRU-HPS-2048-509 against
    a peer that offers only the first two. *)
Lemma triple_hybrid_is_all_or_nothing_demo :
  select_group Demo.triple_hybrid ["ECDH-P256"; "Kyber768"] = None
  /\ server_hello (Demo.hello ["ECDH-P256"; "Kyber768"])
       (Demo.triple_hybrid, Demo.env0)
     = (Raise no_group, (Demo.triple_hybrid, Demo.env0)).
Proof.
  apply (triple_hybrid_is_all_or_nothing Demo.triple_hybrid Demo.env0
           (Demo.hello ["ECDH-P256"; "Kyber768"])).
  - reflexivity.
  - reflexivity.
  - reflexivity.
  - intros a2 H. injection H as <-. reflexivity.
Defined.

(** ** The post-quantum KEM wrapper *)

Section Wrapper.
Context {B : Backend}.

Lemma not_instantiable_simulates (alg : CryptoAlgorithm) :
  not_instantiable alg ->
  QuantumSafeKEM.__init__ alg = QuantumSafeKEM.mk alg true None.
Proof.
  unfold QuantumSafeKEM.__init__. intros [H | H].
  - rewrite H. reflexivity.
  - destruct OQS_AVAILABLE; [| reflexivity].
    destruct (QuantumSafeKEM.oqs_names alg) as [name |]; [| reflexivity].
    destruct H as [x H]. rewrite H. reflexivity.
Qed.

(** In simulation mode [decapsulate] reads neither of its arguments: it is
    32 fresh bytes of the entropy stream. *)
Lemma simulated_decapsulate_is_random (k : QuantumSafeKEM.t B) (e : Env)
    (ciphertext private_key : bytes) :
  QuantumSafeKEM.real_kem k = None ->
  QuantumSafeKEM.decapsulate ciphertext private_key (k, e)
  = (Ok (map (entropy e) (seq (cursor e) 32)),
     (k, mkEnv (entropy e) (cursor e + 32) (wall e) (reads e))).
Proof.
  intros H. unfold QuantumSafeKEM.decapsulate, bind, self, gets. simpl.
  rewrite H. reflexivity.
Qed.

(** C7, as the code has it.  When the wrapper cannot use oqs for an
    algorithm, [generate_keypair] does not fail: it returns key material
    whose public and private keys are the next bytes of the entropy
    stream, of the sizes the table [key_sizes] gives the algorithm (1024
    and 2048 for one not listed), with [key_size] the public size. *)
Theorem generate_keypair_simulates_when_not_instantiable
    (alg : CryptoAlgorithm) (e : Env) :
  not_instantiable alg ->
  QuantumSafeKEM.generate_keypair (QuantumSafeKEM.__init__ alg, e)
  = (Ok (KeyMaterial.mk
           (map (entropy e)
              (seq (cursor e) (fst (QuantumSafeKEM.key_sizes_get alg))))
           (map (entropy e)
              (seq (cursor e + fst (QuantumSafeKEM.key_sizes_get alg))
                 (snd (QuantumSafeKEM.key_sizes_get alg))))
           alg
           (fst (QuantumSafeKEM.key_sizes_get alg))),
     (QuantumSafeKEM.__init__ alg,
      mkEnv (entropy e)
        (cursor e + fst (QuantumSafeKEM.key_sizes_get alg)
         + snd (QuantumSafeKEM.key_sizes_get alg))
        (wall e) (reads e))).
Proof.
  intros H. rewrite (not_instantiable_simulates alg H).
  unfold QuantumSafeKEM.generate_keypair, bind, self, gets. simpl.
  destruct (QuantumSafeKEM.key_sizes_get alg) as [pub_size priv_size].
  reflexivity.
Qed.

End Wrapper.

(** The instance of C7 on the demo backend, whose oqs import has failed. *)
Lemma generate_keypair_simulates_demo :
  QuantumSafeKEM.generate_keypair
    (QuantumSafeKEM.__init__ (B := Demo.backend) KYBER768, Demo.env0)
  = (Ok (KeyMaterial.mk (map Demo.counter (seq 0 1184))
           (map Demo.counter (seq 1184 2400)) KYBER768 1184),
     (QuantumSafeKEM.__init__ KYBER768, Demo.env_from 3584)).
Proof.
  exact (generate_keypair_simulates_when_not_instantiable
           (B := Demo.backend) KYBER768 Demo.env0 (or_introl eq_refl)).
Defined.

(** C7 as stated fails: with no oqs binding, [generate_keypair] for Kyber768
    returns 1184 and 2400 bytes read off the entropy stream, not an error. *)
Lemma generate_keypair_without_oqs_returns_random_bytes :
  OQS_AVAILABLE (Backend := Demo.backend) = false
  /\ fst (QuantumSafeKEM.generate_keypair
            (QuantumSafeKEM.__init__ (B := Demo.backend) KYBER768, Demo.env0))
     = Ok (KeyMaterial.mk (map Demo.counter (seq 0 1184))
             (map Demo.counter (seq 1184 2400)) KYBER768 1184).
Proof.
  split; reflexivity.
Qed.

(** C1 fails on the code.  With no oqs binding, the round trip of the
    Kyber768 wrapper encapsulates the bytes 4768..4799 of the entropy stream
    and decapsulates the bytes 4800..4831: the two secrets differ. *)
Theorem simulated_round_trip_disagrees :
  fst (round_trip (QuantumSafeKEM.__init__ (B := Demo.backend) KYBER768, Demo.env0))
  = Ok (map Demo.counter (seq 4768 32), map Demo.counter (seq 4800 32))
  /\ bytes_eqb (map Demo.counter (seq 4768 32)) (map Demo.counter (seq 4800 32))
     = false.
Proof.
  split; vm_compute; reflexivity.
Qed.

(** ** Session keys *)

Section Keys.
Context {B : Backend}.

(** What [_derive_session_keys] returns and what it leaves: the two write
    keys are slices of one HKDF output over the secret, the two IVs are the
    next 24 bytes of the entropy stream. *)
Lemma derive_session_keys_value (secret : bytes) (h : t B) (e : Env) :
  _derive_session_keys secret (h, e)
  = (Ok (SessionKeys.mk
           (slice 0 16 (hkdf_sha384 32 (encode "TLS 1.3 session keys")
                          (encode "client server keys") secret))
           (slice 16 32 (hkdf_sha384 32 (encode "TLS 1.3 session keys")
                           (encode "client server keys") secret))
           (map (entropy e) (seq (cursor e) 12))
           (map (entropy e) (seq (cursor e + 12) 12))),
     (h, mkEnv (entropy e) (cursor e + 12 + 12) (wall e) (reads e))).
Proof. reflexivity. Qed.

Lemma combine_value (s0 : bytes) (ss : list bytes) (h : t B) (e : Env) :
  fst (combine (s0 :: ss) (h, e))
  = Ok (hkdf_sha384 48 hybrid_salt (hybrid_info (exchange_type h)) (join (s0 :: ss))).
Proof. reflexivity. Qed.

(** C2, as the code has it.  Two peers with the same exchange type that
    combine the same per-primitive secrets, in the same order, get the same
    master secret, and the session keys derived from it have byte-identical
    [client_write_key] and [server_write_key], whatever the two peers'
    environments; [client_write_iv] and [server_write_iv] are not derived:
    each is the next 12 bytes of the deriving peer's own entropy stream. *)
Theorem write_keys_are_determined_by_the_secrets
    (h1 h2 : t B) (e1 e2 : Env) (s0 : bytes) (ss : list bytes) :
  exchange_type h1 = exchange_type h2 ->
  exists master k1 k2 st1 st2,
    fst (combine (s0 :: ss) (h1, e1)) = Ok master
    /\ fst (combine (s0 :: ss) (h2, e2)) = Ok master
    /\ _derive_session_keys master (h1, e1) = (Ok k1, st1)
    /\ _derive_session_keys master (h2, e2) = (Ok k2, st2)
    /\ SessionKeys.client_write_key k1 = SessionKeys.client_write_key k2
    /\ SessionKeys.server_write_key k1 = SessionKeys.server_write_key k2
    /\ SessionKeys.client_write_iv k1 = map (entropy e1) (seq (cursor e1) 12)
    /\ SessionKeys.server_write_iv k1 = map (entropy e1) (seq (cursor e1 + 12) 12)
    /\ SessionKeys.client_write_iv k2 = map (entropy e2) (seq (cursor e2) 12)
    /\ SessionKeys.server_write_iv k2 = map (entropy e2) (seq (cursor e2 + 12) 12).
Proof.
  intros Hx.
  exists (hkdf_sha384 48 hybrid_salt (hybrid_info (exchange_type h1)) (join (s0 :: ss))).
  do 4 eexists.
  split; [apply combine_value |].
  split; [rewrite combine_value, Hx; reflexivity |].
  split; [apply derive_session_keys_value |].
  split; [apply derive_session_keys_value |].
  repeat split.
Qed.

End Keys.

(** The instance of C2 for a client at the start of the entropy stream and a
    server 100 bytes into it. *)
Lemma write_keys_are_determined_by_the_secrets_demo :
  exists master k1 k2 st1 st2,
    fst (combine [Demo.master] (Demo.dual_hybrid, Demo.env0)) = Ok master
    /\ fst (combine [Demo.master] (Demo.dual_hybrid, Demo.env_from 100)) = Ok master
    /\ _derive_session_keys master (Demo.dual_hybrid, Demo.env0) = (Ok k1, st1)
    /\ _derive_session_keys master (Demo.dual_hybrid, Demo.env_from 100) = (Ok k2, st2)
    /\ SessionKeys.client_write_key k1 = SessionKeys.client_write_key k2
    /\ SessionKeys.server_write_key k1 = SessionKeys.server_write_key k2
    /\ SessionKeys.client_write_iv k1 = map Demo.counter (seq 0 12)
    /\ SessionKeys.server_write_iv k1 = map Demo.counter (seq 12 12)
    /\ SessionKeys.client_write_iv k2 = map Demo.counter (seq 100 12)
    /\ SessionKeys.server_write_iv k2 = map Demo.counter (seq 112 12).
Proof.
  exact (write_keys_are_determined_by_the_secrets
           Demo.dual_hybrid Demo.dual_hybrid Demo.env0 (Demo.env_from 100)
           Demo.master [] eq_refl).
Defined.

(** C2 as stated fails: the same handshake configuration and the same
    master secret, derived once at the start of the entropy stream and once
    100 bytes into it, give session keys that are not byte-identical. *)
Lemma session_keys_differ_between_two_runs :
  exists k1 k2,
    fst (_derive_session_keys Demo.master (Demo.dual_hybrid, Demo.env0)) = Ok k1
    /\ fst (_derive_session_keys Demo.master (Demo.dual_hybrid, Demo.env_from 100))
       = Ok k2
    /\ SessionKeys.eqb k1 k2 = false
    /\ bytes_eqb (SessionKeys.client_write_iv k1) (SessionKeys.client_write_iv k2)
       = false.
Proof.
  do 2 eexists. split; [reflexivity | split; [reflexivity |]].
  split; vm_compute; reflexivity.
Qed.

(** ** The exchanges of [compute_shared_secrets] *)

(** Case analysis on whatever the goal branches on. *)
Ltac split_cases :=
  repeat (simpl;
          match goal with
          | |- context [match ?x with _ => _ end] => destruct x eqn:?
          | |- context [if ?x then _ else _] => destruct x eqn:?
          end).

Section Exchanges.
Context {B : Backend}.

(** Each exchange returns, and appends at most one secret to the list it is
    given; which one does not depend on that list. *)
Lemma classical_exchange_shape (sks cks : dict KeyShare.t) (st : t B * Env) :
  exists o st', forall ss,
    classical_exchange sks cks ss st = (Ok (ss ++ present o), st').
Proof.
  unfold classical_exchange, try_except, bind, self, gets, getitem, in_env, zoom,
    token_bytes, ret, raise.
  split_cases;
    first [ eexists (Some _), _; intros ss; reflexivity
          | exists None; eexists; intros ss; rewrite app_nil_r; reflexivity ].
Qed.

Lemma pq_primary_exchange_shape (sks cks : dict KeyShare.t) (st : t B * Env) :
  exists o st', forall ss,
    pq_primary_exchange sks cks ss st = (Ok (ss ++ present o), st').
Proof.
  unfold pq_primary_exchange, try_except, bind, self, gets, getitem, in_env, zoom,
    on_pq_kem1, token_bytes, ret, raise.
  split_cases;
    first [ eexists (Some _), _; intros ss; reflexivity
          | exists None; eexists; intros ss; rewrite app_nil_r; reflexivity ].
Qed.

Lemma pq_secondary_exchange_shape (sks cks : dict KeyShare.t) (st : t B * Env) :
  exists o st', forall ss,
    pq_secondary_exchange sks cks ss st = (Ok (ss ++ present o), st').
Proof.
  unfold pq_secondary_exchange, try_except, bind, self, gets, getitem, in_env, zoom,
    on_pq_kem2, token_bytes, ret, raise.
  split_cases;
    first [ eexists (Some _), _; intros ss; reflexivity
          | exists None; eexists; intros ss; rewrite app_nil_r; reflexivity ].
Qed.

(** [compute_shared_secrets] is [combine] of what the three exchanges append,
    in their order, and it raises nothing but [no_secrets]. *)
Lemma compute_shared_secrets_shape (sks cks : dict KeyShare.t) (st : t B * Env) :
  exists classical pq_primary pq_secondary st1 st2 st3,
    classical_exchange sks cks [] st = (Ok (present classical), st1)
    /\ pq_primary_exchange sks cks [] st1 = (Ok (present pq_primary), st2)
    /\ pq_secondary_exchange sks cks [] st2 = (Ok (present pq_secondary), st3)
    /\ compute_shared_secrets sks cks st
       = combine (present classical ++ present pq_primary ++ present pq_secondary) st3.
Proof.
  destruct (classical_exchange_shape sks cks st) as (o1 & st1 & H1).
  destruct (pq_primary_exchange_shape sks cks st1) as (o2 & st2 & H2).
  destruct (pq_secondary_exchange_shape sks cks st2) as (o3 & st3 & H3).
  exists o1, o2, o3, st1, st2, st3.
  split; [apply (H1 []) | split; [apply (H2 []) | split; [apply (H3 []) |]]].
  unfold compute_shared_secrets.
  rewrite (bind_step _ _ _ _ _ (H1 [])).
  rewrite (bind_step _ _ _ _ _ (H2 _)).
  rewrite (bind_step _ _ _ _ _ (H3 _)).
  rewrite <- app_assoc. reflexivity.
Qed.

Lemma combine_raises_only_no_secrets (ss : list bytes) (st st' : t B * Env) (x : exn) :
  combine ss st = (Raise x, st') -> x = no_secrets.
Proof.
  destruct st as [h e]. destruct ss as [| s0 ss']; intros H.
  - injection H as <- _. reflexivity.
  - discriminate H.
Qed.

(** C4, as the code has it.  A primitive that raises inside
    [compute_shared_secrets] does not abort the handshake: the exception is
    caught and 32 bytes of [secrets.token_bytes], drawn after the failure,
    are appended where the primitive's secret would have been.  This holds
    for the classical [derive_shared_secret] and for both post-quantum
    encapsulations; the only error [compute_shared_secrets] raises is "No
    shared secrets could be computed". *)
Theorem failed_exchanges_are_replaced_by_random_bytes
    (sks cks : dict KeyShare.t) (ss : list bytes) (h : t B) (e : Env) :
  (forall server_share client_share priv x e',
     dict_get "classical" sks = Some server_share ->
     KeyShare.private_key server_share = Some priv ->
     dict_get "classical" cks = Some client_share ->
     ClassicalKEM.derive_shared_secret (classical_kem h) priv
       (KeyShare.public_key client_share) e = (Raise x, e') ->
     classical_exchange sks cks ss (h, e)
     = (Ok (ss ++ [map (entropy e') (seq (cursor e') 32)]),
        (h, mkEnv (entropy e') (cursor e' + 32) (wall e') (reads e'))))
  /\ (forall server_share x k1 e',
        dict_get "pq_primary" sks = Some server_share ->
        dict_in "pq_primary" cks = true ->
        QuantumSafeKEM.encapsulate (KeyShare.public_key server_share) (pq_kem1 h, e)
        = (Raise x, (k1, e')) ->
        pq_primary_exchange sks cks ss (h, e)
        = (Ok (ss ++ [map (entropy e') (seq (cursor e') 32)]),
           (set_pq_kem1 k1 h,
            mkEnv (entropy e') (cursor e' + 32) (wall e') (reads e'))))
  /\ (forall server_share x k2 k2' e',
        dict_get "pq_secondary" sks = Some server_share ->
        dict_in "pq_secondary" cks = true ->
        pq_kem2 h = Some k2 ->
        QuantumSafeKEM.encapsulate (KeyShare.public_key server_share) (k2, e)
        = (Raise x, (k2', e')) ->
        pq_secondary_exchange sks cks ss (h, e)
        = (Ok (ss ++ [map (entropy e') (seq (cursor e') 32)]),
           (set_pq_kem2 k2' h,
            mkEnv (entropy e') (cursor e' + 32) (wall e') (reads e'))))
  /\ (forall x st',
        compute_shared_secrets sks cks (h, e) = (Raise x, st') -> x = no_secrets).
Proof.
  split; [| split; [| split]].
  - intros server_share client_share priv x e' Hs Hp Hc Hraise.
    unfold classical_exchange, dict_in, try_except, bind, self, gets, getitem,
      in_env, zoom.
    simpl.
    repeat (first [rewrite Hs | rewrite Hp | rewrite Hc | rewrite Hraise]; simpl).
    reflexivity.
  - intros server_share x k1 e' Hs Hc Hraise.
    unfold pq_primary_exchange. rewrite Hc. unfold dict_in. rewrite Hs. simpl.
    unfold try_except, bind, getitem, on_pq_kem1, zoom. simpl.
    repeat (first [rewrite Hs | rewrite Hraise]; simpl).
    reflexivity.
  - intros server_share x k2 k2' e' Hs Hc Hk Hraise.
    unfold pq_secondary_exchange, bind, self, gets. simpl.
    rewrite Hc. unfold dict_in. rewrite Hs, Hk. simpl.
    unfold try_except, bind, getitem, on_pq_kem2, zoom. simpl.
    repeat (first [rewrite Hs | rewrite Hraise]; simpl).
    reflexivity.
  - intros x st' H.
    destruct (compute_shared_secrets_shape sks cks (h, e))
      as (o1 & o2 & o3 & st1 & st2 & st3 & _ & _ & _ & Hc).
    rewrite Hc in H. apply combine_raises_only_no_secrets in H. exact H.
Qed.

Lemma exchange_type_ignores_kems : ignores_kems (B := B) exchange_type.
Proof. split; intros; reflexivity. Qed.

Lemma combine_refines_spec (o1 o2 o3 : option bytes) (st : t B * Env) :
  fst (combine (present o1 ++ present o2 ++ present o3) st)
  = spec_combiner (exchange_type (fst st)) o1 o2 o3.
Proof.
  destruct st as [h e]. unfold spec_combiner.
  destruct (present o1 ++ present o2 ++ present o3) as [| s0 ss]; reflexivity.
Qed.

Lemma compute_shared_secrets_length (sks cks : dict KeyShare.t)
    (st st' : t B * Env) (m : bytes) :
  hkdf_length_law B ->
  compute_shared_secrets sks cks st = (Ok m, st') -> len m = 48.
Proof.
  intros Hlen H.
  destruct (compute_shared_secrets_shape sks cks st)
    as (o1 & o2 & o3 & st1 & st2 & st3 & _ & _ & _ & Hc).
  rewrite Hc in H. destruct st3 as [h3 e3].
  destruct (present o1 ++ present o2 ++ present o3) as [| s0 ss].
  - discriminate H.
  - injection H as <- _. apply Hlen.
Qed.

(** C5.  [compute_shared_secrets] refines the combiner of the
    specification: the secrets the classical, the primary and the secondary
    exchange append, in that order, are concatenated and run through HKDF
    with the salt "TLS 1.3 Hybrid Key Schedule" and the info "hybrid-" plus
    the exchange type, and with no secret at all it raises "No shared secrets
    could be computed".  The HKDF object is built with length 48, so the
    master secret has 48 bytes and a handshake that returns reports
    [shared_secret_size] 48. *)
Theorem shared_secrets_are_combined_in_order_into_48_bytes (st : t B * Env) :
  hkdf_length_law B ->
  (forall sks cks,
     exists classical pq_primary pq_secondary st1 st2 st3,
       classical_exchange sks cks [] st = (Ok (present classical), st1)
       /\ pq_primary_exchange sks cks [] st1 = (Ok (present pq_primary), st2)
       /\ pq_secondary_exchange sks cks [] st2 = (Ok (present pq_secondary), st3)
       /\ fst (compute_shared_secrets sks cks st)
          = spec_combiner (exchange_type (fst st)) classical pq_primary pq_secondary
       /\ (forall m, fst (compute_shared_secrets sks cks st) = Ok m -> len m = 48))
  /\ (forall r st',
        perform_handshake st = (Ok r, st') ->
        HandshakeResult.shared_secret_size r = 48).
Proof.
  intros Hlen. split.
  - intros sks cks.
    destruct (compute_shared_secrets_shape sks cks st)
      as (o1 & o2 & o3 & st1 & st2 & st3 & H1 & H2 & H3 & Hc).
    exists o1, o2, o3, st1, st2, st3.
    split; [exact H1 | split; [exact H2 | split; [exact H3 |]]].
    assert (Hx : exchange_type (fst st3) = exchange_type (fst st)).
    { rewrite (keeps_ok exchange_type _ _ _ _
                 (pq_secondary_exchange_keeps _ sks cks []
                    exchange_type_ignores_kems) H3).
      rewrite (keeps_ok exchange_type _ _ _ _
                 (pq_primary_exchange_keeps _ sks cks []
                    exchange_type_ignores_kems) H2).
      exact (keeps_ok exchange_type _ _ _ _
               (classical_exchange_keeps _ sks cks []) H1). }
    split.
    + rewrite Hc, combine_refines_spec, Hx. reflexivity.
    + intros m Hm.
      destruct (compute_shared_secrets sks cks st) as [r st'] eqn:E.
      simpl in Hm. subst r.
      exact (compute_shared_secrets_length sks cks st st' m Hlen E).
  - unfold perform_handshake. intros r st' H.
    apply bind_ok in H. destruct H as (t0 & s1 & _ & H).
    apply bind_ok in H. destruct H as (ch & s2 & _ & H).
    apply bind_ok in H. destruct H as (sh & s3 & _ & H).
    apply bind_ok in H. destruct H as (sks & s4 & _ & H).
    apply bind_ok in H. destruct H as (cks & s5 & _ & H).
    apply bind_ok in H. destruct H as (secret & s6 & E6 & H).
    apply (compute_shared_secrets_length _ _ _ _ _ Hlen) in E6.
    apply bind_ok in H. destruct H as (keys & s7 & _ & H).
    apply bind_ok in H. destruct H as (t1 & s8 & _ & H).
    apply bind_ok in H. destruct H as (s & s9 & _ & H).
    apply bind_ok in H. destruct H as ([] & s10 & _ & H).
    unfold ret in H. injection H as <- _.
    destruct (pq_alg2 s); simpl; exact E6.
Qed.

End Exchanges.

Lemma demo_stretch_length (n : nat) (data : bytes) : len (Demo.stretch n data) = n.
Proof.
  unfold Demo.stretch, len. rewrite length_map. apply length_seq.
Qed.

Lemma demo_hkdf_length : hkdf_length_law Demo.backend.
Proof.
  intros n salt info ikm. apply demo_stretch_length.
Qed.

(** The instance of C4 on the short private key: the demo backend's
    exchange refuses it, and the classical exchange appends the first 32
    bytes of the entropy stream. *)
Lemma failed_exchanges_are_replaced_demo :
  classical_exchange Demo.short_server_shares Demo.client_shares []
    (Demo.classical_only, Demo.env0)
  = (Ok [map Demo.counter (seq 0 32)], (Demo.classical_only, Demo.env_from 32)).
Proof.
  exact (proj1 (failed_exchanges_are_replaced_by_random_bytes
                  Demo.short_server_shares Demo.client_shares []
                  Demo.classical_only Demo.env0)
           _ _ _ (ValueError "wrong private key length") Demo.env0
           eq_refl eq_refl eq_refl eq_refl).
Defined.

(** C4 as stated fails: [derive_shared_secret] raises on the short private
    key, and [compute_shared_secrets] returns all the same, with a master
    secret derived from 32 bytes of the entropy stream. *)
Lemma failed_classical_exchange_does_not_abort :
  ClassicalKEM.derive_shared_secret (B := Demo.backend)
    (classical_kem Demo.classical_only)
    (map Demo.counter (seq 0 31)) (map Demo.counter (seq 32 32)) Demo.env0
  = (Raise (ValueError "wrong private key length"), Demo.env0)
  /\ fst (compute_shared_secrets Demo.short_server_shares Demo.client_shares
            (Demo.classical_only, Demo.env0))
     = Ok (hkdf_sha384 (Backend := Demo.backend) 48
             (encode "TLS 1.3 Hybrid Key Schedule") (encode "hybrid-classical")
             (map Demo.counter (seq 0 32))).
Proof.
  split; reflexivity.
Qed.

(** The instance of C5 on the classical-only demo handshake. *)
Lemma shared_secrets_are_combined_demo :
  exists r st',
    perform_handshake (Demo.classical_only, Demo.env0) = (Ok r, st')
    /\ HandshakeResult.shared_secret_size r = 48.
Proof.
  destruct (perform_handshake (Demo.classical_only, Demo.env0))
    as [[r | x] st'] eqn:E.
  - exists r, st'. split; [reflexivity |].
    exact (proj2 (shared_secrets_are_combined_in_order_into_48_bytes
                    (Demo.classical_only, Demo.env0) demo_hkdf_length) r st' E).
  - vm_compute in E. discriminate E.
Defined.

(** ** What the result reports *)

Section Result.
Context {B : Backend}.

Lemma config_ignores_kems : ignores_kems config.
Proof. split; intros; reflexivity. Qed.

Lemma client_hello_keeps_config : keeps config client_hello.
Proof. unfold client_hello. keeps. Qed.

Lemma server_hello_keeps_config (ch : ClientHello.t) : keeps config (server_hello ch).
Proof. unfold server_hello. keeps. Qed.

Lemma generate_key_shares_keeps_config (is_server : bool) :
  keeps config (generate_key_shares is_server).
Proof. unfold generate_key_shares. keeps. Qed.

Lemma compute_shared_secrets_keeps_config (sks cks : dict KeyShare.t) :
  keeps config (compute_shared_secrets sks cks).
Proof.
  unfold compute_shared_secrets.
  apply keeps_bind; [apply classical_exchange_keeps | intros ss1].
  apply keeps_bind;
    [apply pq_primary_exchange_keeps, config_ignores_kems | intros ss2].
  apply keeps_bind;
    [apply pq_secondary_exchange_keeps, config_ignores_kems | intros ss3].
  unfold combine. keeps.
Qed.

(** A run that returns reports success, its exchange type, and the
    configured algorithms: the classical one, the first post-quantum one,
    and the second when there is one, whatever the exchange type. *)
Lemma perform_handshake_reports (st st' : t B * Env) (r : HandshakeResult.t) :
  perform_handshake st = (Ok r, st') ->
  HandshakeResult.success r = true
  /\ HandshakeResult.exchange_type r = KeyExchangeType_value (exchange_type (fst st))
  /\ HandshakeResult.algorithms r = configured_algorithms (fst st).
Proof.
  unfold perform_handshake. intros H.
  apply bind_ok in H. destruct H as (t0 & s1 & E1 & H).
  apply (keeps_ok config _ _ _ _ (keeps_in_env _ _)) in E1.
  apply bind_ok in H. destruct H as (ch & s2 & E2 & H).
  apply (keeps_ok config _ _ _ _ client_hello_keeps_config) in E2.
  apply bind_ok in H. destruct H as (sh & s3 & E3 & H).
  apply (keeps_ok config _ _ _ _ (server_hello_keeps_config _)) in E3.
  apply bind_ok in H. destruct H as (sks & s4 & E4 & H).
  apply (keeps_ok config _ _ _ _ (generate_key_shares_keeps_config _)) in E4.
  apply bind_ok in H. destruct H as (cks & s5 & E5 & H).
  apply (keeps_ok config _ _ _ _ (generate_key_shares_keeps_config _)) in E5.
  apply bind_ok in H. destruct H as (secret & s6 & E6 & H).
  apply (keeps_ok config _ _ _ _ (compute_shared_secrets_keeps_config _ _)) in E6.
  apply bind_ok in H. destruct H as (keys & s7 & E7 & H).
  apply (keeps_ok config _ _ _ _ (derive_session_keys_keeps _ _)) in E7.
  apply bind_ok in H. destruct H as (t1 & s8 & E8 & H).
  apply (keeps_ok config _ _ _ _ (keeps_in_env _ _)) in E8.
  apply bind_ok in H. destruct H as (s & s9 & E9 & H).
  unfold self, gets in E9. injection E9 as <- <-.
  apply bind_ok in H. destruct H as ([] & s10 & _ & H).
  unfold ret in H. injection H as <- _.
  assert (Hc : config (fst s8) = config (fst st)).
  { rewrite E8, E7, E6, E5, E4, E3, E2, E1. reflexivity. }
  unfold config in Hc. injection Hc as Hx Hca Hp1 Hp2 _.
  unfold configured_algorithms. rewrite <- Hx, <- Hca, <- Hp1, <- Hp2.
  destruct (pq_alg2 (fst s8)); repeat split.
Qed.

(** *** The classical-only handshake completes *)

Lemma value_is_not_empty (a : CryptoAlgorithm) :
  String.eqb (CryptoAlgorithm_value a) "" = false.
Proof. destruct a; reflexivity. Qed.

Lemma client_hello_classical (st : t B * Env) :
  exchange_type (fst st) = CLASSICAL ->
  exists ch st',
    client_hello st = (Ok ch, st')
    /\ ClientHello.supported_groups ch
       = [CryptoAlgorithm_value (classical_alg (fst st))].
Proof.
  destruct st as [h e]. simpl.
  intros Hx. unfold client_hello, bind, self, gets. simpl. rewrite Hx. simpl.
  destruct (pq_alg2 h); do 2 eexists; split; reflexivity.
Qed.

Lemma server_hello_classical (st : t B * Env) (ch : ClientHello.t) :
  exchange_type (fst st) = CLASSICAL ->
  str_in (CryptoAlgorithm_value (classical_alg (fst st)))
    (ClientHello.supported_groups ch) = true ->
  exists sh st',
    server_hello ch st = (Ok sh, st')
    /\ ServerHello.selected_group sh = CryptoAlgorithm_value (classical_alg (fst st)).
Proof.
  destruct st as [h e]. simpl.
  intros Hx Hin. unfold server_hello, bind, self, gets. simpl.
  unfold select_group. rewrite Hx. simpl. rewrite Hin.
  unfold truthy. rewrite value_is_not_empty. simpl.
  do 2 eexists; split; reflexivity.
Qed.

Lemma generate_key_shares_classical (is_server : bool) (st : t B * Env) :
  exchange_type (fst st) = CLASSICAL ->
  ClassicalKEM.algorithm (classical_kem (fst st)) = X25519 ->
  (forall e0, exists keys e1, curve_generate Curve25519 e0 = (Ok keys, e1)) ->
  exists ks st',
    generate_key_shares is_server st = (Ok ks, st')
    /\ dict_in "classical" ks = true.
Proof.
  destruct st as [h e]. simpl.
  intros Hx Ha Hgen.
  destruct (Hgen e) as ([pub priv] & e1 & G).
  unfold generate_key_shares, bind, self, gets. simpl. rewrite Hx. simpl.
  unfold in_env, zoom, ClassicalKEM.generate_keypair, bind. simpl.
  rewrite Ha, G. simpl.
  do 2 eexists; split; reflexivity.
Qed.

Lemma classical_exchange_appends_one (sks cks : dict KeyShare.t) (st : t B * Env) :
  dict_in "classical" sks = true -> dict_in "classical" cks = true ->
  exists secret st', forall ss,
    classical_exchange sks cks ss st = (Ok (ss ++ [secret]), st').
Proof.
  intros Hs Hc.
  unfold classical_exchange. rewrite Hs, Hc.
  unfold try_except, bind, self, gets, getitem, in_env, zoom, token_bytes, ret, raise.
  split_cases; do 2 eexists; intros ss; reflexivity.
Qed.

Lemma compute_shared_secrets_classical (sks cks : dict KeyShare.t) (st : t B * Env) :
  dict_in "classical" sks = true -> dict_in "classical" cks = true ->
  exists m st', compute_shared_secrets sks cks st = (Ok m, st').
Proof.
  intros Hs Hc.
  destruct (classical_exchange_appends_one sks cks st Hs Hc) as (s0 & st1 & H1).
  destruct (pq_primary_exchange_shape sks cks st1) as (o2 & st2 & H2).
  destruct (pq_secondary_exchange_shape sks cks st2) as (o3 & st3 & H3).
  unfold compute_shared_secrets.
  rewrite (bind_step _ _ _ _ _ (H1 [])).
  rewrite (bind_step _ _ _ _ _ (H2 _)).
  rewrite (bind_step _ _ _ _ _ (H3 _)).
  destruct st3 as [h3 e3].
  unfold combine, bind, self, gets, _log_message, in_env, zoom, time_time,
    modify, ret.
  simpl. do 2 eexists. reflexivity.
Qed.

Lemma classical_handshake_completes (st : t B * Env) :
  exchange_type (fst st) = CLASSICAL ->
  ClassicalKEM.algorithm (classical_kem (fst st)) = X25519 ->
  classical_alg (fst st) = X25519 ->
  (forall e0, exists keys e1, curve_generate Curve25519 e0 = (Ok keys, e1)) ->
  exists r st', perform_handshake st = (Ok r, st').
Proof.
  intros Hx Ha Hc Hgen.
  assert (config_at : forall s : t B * Env,
             config (fst s) = config (fst st) ->
             exchange_type (fst s) = CLASSICAL
             /\ ClassicalKEM.algorithm (classical_kem (fst s)) = X25519
             /\ classical_alg (fst s) = X25519).
  { intros s Hs. unfold config in Hs. injection Hs as -> -> _ _ ->.
    repeat split; assumption. }
  unfold perform_handshake.
  destruct (in_env (O := t B) time_time st) as [[t0 | x0] s1] eqn:E1;
    [| destruct st; discriminate E1].
  rewrite (bind_step _ _ _ _ _ E1).
  apply (keeps_ok config _ _ _ _ (keeps_in_env _ _)) in E1.
  destruct (config_at s1 E1) as (X1 & A1 & C1).
  destruct (client_hello_classical s1 X1) as (ch & s2 & E2 & G2).
  rewrite (bind_step _ _ _ _ _ E2).
  apply (keeps_ok config _ _ _ _ client_hello_keeps_config) in E2.
  rewrite E1 in E2.
  destruct (config_at s2 E2) as (X2 & A2 & C2).
  assert (Hin : str_in (CryptoAlgorithm_value (classical_alg (fst s2)))
                  (ClientHello.supported_groups ch) = true).
  { rewrite G2, C1, C2. reflexivity. }
  destruct (server_hello_classical s2 ch X2 Hin) as (sh & s3 & E3 & _).
  rewrite (bind_step _ _ _ _ _ E3).
  apply (keeps_ok config _ _ _ _ (server_hello_keeps_config _)) in E3.
  rewrite E2 in E3.
  destruct (config_at s3 E3) as (X3 & A3 & C3).
  destruct (generate_key_shares_classical true s3 X3 A3 Hgen)
    as (sks & s4 & E4 & Ds).
  rewrite (bind_step _ _ _ _ _ E4).
  apply (keeps_ok config _ _ _ _ (generate_key_shares_keeps_config _)) in E4.
  rewrite E3 in E4.
  destruct (config_at s4 E4) as (X4 & A4 & C4).
  destruct (generate_key_shares_classical false s4 X4 A4 Hgen)
    as (cks & s5 & E5 & Dc).
  rewrite (bind_step _ _ _ _ _ E5).
  destruct (compute_shared_secrets_classical sks cks s5 Ds Dc) as (m & s6 & E6).
  rewrite (bind_step _ _ _ _ _ E6).
  destruct s6 as [h6 e6].
  rewrite (bind_step _ _ _ _ _ (derive_session_keys_value m h6 e6)).
  unfold bind, in_env, zoom, time_time, self, gets, _log_message, modify, ret.
  simpl. do 2 eexists. reflexivity.
Qed.

(** C8, as the code has it.  A classical-only X25519 handshake selects the
    group "X25519" from a peer that offers X25519 and Kyber768, and, provided
    the library generates X25519 keys, [perform_handshake] completes; its
    result lists the configured classical algorithm and the configured first
    post-quantum algorithm, used or not: ["X25519"; "Kyber768"] with the
    default [pq_alg1]. *)
Theorem classical_only_result_lists_the_configured_algorithms
    (p1 : CryptoAlgorithm) (e : Env) :
  (forall e0, exists keys e1, curve_generate Curve25519 e0 = (Ok keys, e1)) ->
  select_group (__init__ (B := B) CLASSICAL X25519 p1 None) ["X25519"; "Kyber768"]
  = Some "X25519"
  /\ exists r st',
       perform_handshake (__init__ CLASSICAL X25519 p1 None, e) = (Ok r, st')
       /\ HandshakeResult.success r = true
       /\ HandshakeResult.exchange_type r = "classical"
       /\ HandshakeResult.algorithms r = ["X25519"; CryptoAlgorithm_value p1].
Proof.
  intros Hgen. split; [reflexivity |].
  destruct (classical_handshake_completes
              (__init__ CLASSICAL X25519 p1 None, e) eq_refl eq_refl eq_refl Hgen)
    as (r & st' & E).
  exists r, st'. split; [exact E |].
  exact (perform_handshake_reports _ _ _ E).
Qed.

End Result.

Lemma demo_generates_keys (e0 : Env) :
  exists keys e1, curve_generate (Backend := Demo.backend) Curve25519 e0 = (Ok keys, e1).
Proof.
  do 2 eexists. reflexivity.
Qed.

(** The instance of C8 on the demo backend: the default first post-quantum
    algorithm, Kyber768, is listed by the classical-only handshake. *)
Lemma classical_only_result_demo :
  select_group Demo.classical_only ["X25519"; "Kyber768"] = Some "X25519"
  /\ exists r st',
       perform_handshake (Demo.classical_only, Demo.env0) = (Ok r, st')
       /\ HandshakeResult.success r = true
       /\ HandshakeResult.exchange_type r = "classical"
       /\ HandshakeResult.algorithms r = ["X25519"; "Kyber768"].
Proof.
  exact (classical_only_result_lists_the_configured_algorithms
           (B := Demo.backend) KYBER768 Demo.env0 demo_generates_keys).
Defined.

(** C8 as stated fails: the classical-only X25519 handshake completes and
    its result lists Kyber768, which it did not use, next to X25519. *)
Lemma classical_only_result_lists_kyber :
  exists r,
    fst (perform_handshake (Demo.classical_only, Demo.env0)) = Ok r
    /\ HandshakeResult.algorithms r = ["X25519"; "Kyber768"]
    /\ str_in "Kyber768" (HandshakeResult.algorithms r) = true.
Proof.
  eexists. split; [vm_compute; reflexivity | split; reflexivity].
Qed.

(** ** Key shares *)

Section Shares.
Context {B : Backend}.

Lemma share_of_private_key (keys : KeyMaterial.t) (is_server : bool) :
  has_private_key (share_of keys is_server) = is_server.
Proof. destruct is_server; reflexivity. Qed.

Lemma dict_set_Forall {V} (P : V -> Prop) (k : string) (v : V) (d : dict V) :
  P v ->
  Forall (fun kv => P (snd kv)) d ->
  Forall (fun kv => P (snd kv)) (dict_set k v d).
Proof.
  intros Hv Hd. induction Hd as [| [k' v'] d' Hk' Hd' IH]; simpl.
  - constructor; [exact Hv | constructor].
  - destruct (String.eqb k k').
    + constructor; [exact Hv | exact Hd'].
    + constructor; [exact Hk' | exact IH].
Qed.

(** One block of [generate_key_shares]: a key pair, then its share stored
    under [name]. *)
Lemma share_block (m : M (t B * Env) KeyMaterial.t) (name : string)
    (is_server : bool) (ks ks' : dict KeyShare.t) (st st' : t B * Env) :
  bind m (fun keys => ret (dict_set name (share_of keys is_server) ks)) st
  = (Ok ks', st') ->
  Forall (fun kv => has_private_key (snd kv) = is_server) ks ->
  Forall (fun kv => has_private_key (snd kv) = is_server) ks'.
Proof.
  intros H Hks. apply bind_ok in H. destruct H as (keys & s1 & _ & H).
  unfold ret in H. injection H as <- _.
  apply (dict_set_Forall (fun entry => has_private_key entry = is_server)).
  - apply share_of_private_key.
  - exact Hks.
Qed.

(** What a call that returned has done, for the three ways a method runs
    another one. *)
Lemma in_env_inv {O A} (m : M Env A) (o : O) (e : Env) (a : A) (st' : O * Env) :
  in_env m (o, e) = (Ok a, st') ->
  exists e', m e = (Ok a, e') /\ st' = (o, e').
Proof.
  unfold in_env, zoom. simpl. destruct (m e) as [r e']. intros H.
  injection H as -> <-. exists e'. split; reflexivity.
Qed.

Lemma on_pq_kem1_inv {A} (m : M (QuantumSafeKEM.t B * Env) A) (h : t B)
    (e : Env) (a : A) (st' : t B * Env) :
  on_pq_kem1 m (h, e) = (Ok a, st') ->
  exists k' e',
    m (pq_kem1 h, e) = (Ok a, (k', e')) /\ st' = (set_pq_kem1 k' h, e').
Proof.
  unfold on_pq_kem1, zoom. simpl.
  destruct (m (pq_kem1 h, e)) as [r [k' e']]. intros H.
  injection H as -> <-. exists k', e'. split; reflexivity.
Qed.

Lemma on_pq_kem2_inv {A} (k2 : QuantumSafeKEM.t B)
    (m : M (QuantumSafeKEM.t B * Env) A) (h : t B)
    (e : Env) (a : A) (st' : t B * Env) :
  on_pq_kem2 k2 m (h, e) = (Ok a, st') ->
  exists k' e',
    m (k2, e) = (Ok a, (k', e')) /\ st' = (set_pq_kem2 k' h, e').
Proof.
  unfold on_pq_kem2, zoom. simpl.
  destruct (m (k2, e)) as [r [k' e']]. intros H.
  injection H as -> <-. exists k', e'. split; reflexivity.
Qed.

(** The entry of a key pair, field by field. *)
Lemma share_of_value (keys : KeyMaterial.t) (is_server : bool) :
  share_of keys is_server
  = KeyShare.mk (CryptoAlgorithm_value (KeyMaterial.algorithm keys))
      (KeyMaterial.public_key keys) (KeyMaterial.key_size keys)
      (if is_server then Some (KeyMaterial.private_key keys) else None).
Proof. destruct is_server; reflexivity. Qed.

(** C6, as the code has it.  In the key shares [generate_key_shares]
    returns, every entry holds a private key when they are generated for
    the server, and none does when they are generated for the client; the
    KeyShare message logged for either side holds, for each share, only the
    length of its public key.  The shares are named "classical",
    "pq_primary" and "pq_secondary", and each is made of the key pair its
    KEM generated in this call, the classical one first: it holds the name
    of the pair's algorithm, its public key under "public_key", its key
    size, and, for the server only, its private key under "private_key". *)
Theorem key_shares_hold_private_keys_for_the_server_only
    (is_server : bool) (st st' : t B * Env) (ks : dict KeyShare.t) :
  generate_key_shares is_server st = (Ok ks, st') ->
  Forall (fun kv => has_private_key (snd kv) = is_server) ks
  /\ (exists ts,
        handshake_messages (fst st')
        = handshake_messages (fst st)
          ++ [HandshakeMessage.mk "KeyShare" (if is_server then "Server" else "Client")
                (KeySharePayload (share_sizes ks)) ts])
  /\ share_sizes ks
     = map (fun kv =>
              (fst kv,
               String.append
                 (str_of_nat (List.length (KeyShare.public_key (snd kv))))
                 " bytes"))
         ks
  /\ incl (map fst ks) ["classical"; "pq_primary"; "pq_secondary"]
  /\ exists e1 e2,
       (forall entry,
          dict_get "classical" ks = Some entry ->
          exists keys,
            ClassicalKEM.generate_keypair (classical_kem (fst st)) (snd st)
            = (Ok keys, e1)
            /\ entry
               = KeyShare.mk (CryptoAlgorithm_value (KeyMaterial.algorithm keys))
                   (KeyMaterial.public_key keys) (KeyMaterial.key_size keys)
                   (if is_server then Some (KeyMaterial.private_key keys) else None))
       /\ (dict_get "classical" ks = None -> e1 = snd st)
       /\ (forall entry,
             dict_get "pq_primary" ks = Some entry ->
             exists keys k1,
               QuantumSafeKEM.generate_keypair (pq_kem1 (fst st), e1)
               = (Ok keys, (k1, e2))
               /\ entry
                  = KeyShare.mk (CryptoAlgorithm_value (KeyMaterial.algorithm keys))
                      (KeyMaterial.public_key keys) (KeyMaterial.key_size keys)
                      (if is_server then Some (KeyMaterial.private_key keys) else None))
       /\ (dict_get "pq_primary" ks = None -> e2 = e1)
       /\ (forall entry,
             dict_get "pq_secondary" ks = Some entry ->
             exists k2 keys st3,
               pq_kem2 (fst st) = Some k2
               /\ QuantumSafeKEM.generate_keypair (k2, e2) = (Ok keys, st3)
               /\ entry
                  = KeyShare.mk (CryptoAlgorithm_value (KeyMaterial.algorithm keys))
                      (KeyMaterial.public_key keys) (KeyMaterial.key_size keys)
                      (if is_server then Some (KeyMaterial.private_key keys) else None)).
Proof.
  unfold generate_key_shares. intros H.
  apply bind_ok in H. destruct H as (s & s0 & E0 & H).
  unfold self, gets in E0. injection E0 as <- <-.
  apply bind_ok in H. destruct H as (ks1 & s1 & E1 & H).
  apply bind_ok in H. destruct H as (ks2 & s2 & E2 & H).
  apply bind_ok in H. destruct H as (ks3 & s3 & E3 & H).
  apply bind_ok in H. destruct H as ([] & s4 & E4 & H).
  unfold ret in H. injection H as <- <-.
  assert (K1 := E1). apply (keeps_ok handshake_messages) in K1; [| keeps].
  assert (K2 := E2). apply (keeps_ok handshake_messages) in K2; [| keeps].
  assert (K3 := E3). apply (keeps_ok handshake_messages) in K3; [| keeps].
  split; [| split; [| split; [reflexivity | split]]].
  - assert (F1 : Forall (fun kv => has_private_key (snd kv) = is_server) ks1).
    { destruct (type_in _ _) in E1.
      - exact (share_block _ _ _ _ _ _ _ E1 (Forall_nil _)).
      - unfold ret in E1. injection E1 as <- _. constructor. }
    assert (F2 : Forall (fun kv => has_private_key (snd kv) = is_server) ks2).
    { destruct (type_in _ _) in E2.
      - exact (share_block _ _ _ _ _ _ _ E2 F1).
      - unfold ret in E2. injection E2 as <- _. exact F1. }
    destruct (if KeyExchangeType_eqb _ _ then _ else _) in E3.
    + exact (share_block _ _ _ _ _ _ _ E3 F2).
    + unfold ret in E3. injection E3 as <- _. exact F2.
  - destruct (log_message_appends "KeyShare"
                (if is_server then "Server" else "Client")
                (KeySharePayload (share_sizes ks3)) s3)
      as (ts & s4' & E4' & L4 & _).
    rewrite E4 in E4'. injection E4' as <-.
    exists ts. unfold log_of in L4. rewrite L4, K3, K2, K1. reflexivity.
  - destruct (type_in _ _) in E1; destruct (type_in _ _) in E2;
      destruct (if KeyExchangeType_eqb _ _ then _ else _) in E3;
      repeat match goal with
             | E : bind _ _ _ = (Ok _, _) |- _ =>
                 apply bind_ok in E; destruct E as (? & ? & _ & E)
             | E : ret _ _ = (Ok _, _) |- _ =>
                 unfold ret in E; injection E as <- _
             end;
      intros name Hname; simpl in Hname |- *; intuition.
  - clear K1 K2 K3 E4 s4.
    destruct st as [h e]. cbn [fst snd] in *.
    (* the classical block *)
    assert (B1 : exists e1,
               s1 = (h, e1)
               /\ ((exists keys,
                      ClassicalKEM.generate_keypair (classical_kem h) e = (Ok keys, e1)
                      /\ ks1 = [("classical", share_of keys is_server)])
                   \/ (e1 = e /\ ks1 = []))).
    { destruct (type_in _ _) in E1.
      - apply bind_ok in E1. destruct E1 as (keys & s1' & G & E1).
        unfold ret in E1. injection E1 as <- <-.
        apply in_env_inv in G. destruct G as (e1 & G & ->).
        exists e1. split; [reflexivity | left]. exists keys. split; [exact G | reflexivity].
      - unfold ret in E1. injection E1 as <- <-.
        exists e. split; [reflexivity | right; split; reflexivity]. }
    destruct B1 as (e1 & -> & B1).
    (* the primary post-quantum block *)
    assert (B2 : exists h2 e2,
               s2 = (h2, e2) /\ pq_kem2 h2 = pq_kem2 h
               /\ ((exists keys k1,
                      QuantumSafeKEM.generate_keypair (pq_kem1 h, e1)
                      = (Ok keys, (k1, e2))
                      /\ ks2 = dict_set "pq_primary" (share_of keys is_server) ks1)
                   \/ (e2 = e1 /\ ks2 = ks1))).
    { destruct (type_in _ _) in E2.
      - apply bind_ok in E2. destruct E2 as (keys & s2' & G & E2).
        unfold ret in E2. injection E2 as <- <-.
        apply on_pq_kem1_inv in G. destruct G as (k1 & e2 & G & ->).
        exists (set_pq_kem1 k1 h), e2.
        split; [reflexivity | split; [reflexivity | left]].
        exists keys, k1. split; [exact G | reflexivity].
      - unfold ret in E2. injection E2 as <- <-.
        exists h, e1.
        split; [reflexivity | split; [reflexivity | right; split; reflexivity]]. }
    destruct B2 as (h2 & e2 & -> & P2 & B2).
    (* the secondary post-quantum block *)
    assert (B3 : (exists k2 keys st3,
                    pq_kem2 h = Some k2
                    /\ QuantumSafeKEM.generate_keypair (k2, e2) = (Ok keys, st3)
                    /\ ks3 = dict_set "pq_secondary" (share_of keys is_server) ks2)
                 \/ ks3 = ks2).
    { destruct (if KeyExchangeType_eqb _ _ then _ else _) as [k2 |] eqn:K in E3.
      - assert (Hk2 : pq_kem2 h = Some k2).
        { destruct (KeyExchangeType_eqb (exchange_type h) TRIPLE_HYBRID);
            [exact K | discriminate K]. }
        apply bind_ok in E3. destruct E3 as (keys & s3' & G & E3).
        unfold ret in E3. injection E3 as <- _.
        apply on_pq_kem2_inv in G. destruct G as (k' & e3 & G & _).
        left. exists k2, keys, (k', e3).
        split; [exact Hk2 | split; [exact G | reflexivity]].
      - unfold ret in E3. injection E3 as <- _. right. reflexivity. }
    exists e1, e2.
    destruct B1 as [(keys1 & G1 & ->) | (-> & ->)];
      destruct B2 as [(keys2 & k1 & G2 & ->) | (-> & ->)];
      destruct B3 as [(k2 & keys3 & st3 & Hk2 & G3 & ->) | ->];
      simpl;
      repeat match goal with
             | |- _ /\ _ => split
             | |- forall entry, Some _ = Some entry -> _ =>
                 intros entry Hentry; injection Hentry as <-
             | |- forall entry, None = Some entry -> _ =>
                 intros entry Hentry; discriminate Hentry
             | |- Some _ = None -> _ => intros Hnone; discriminate Hnone
             | |- None = None -> _ => intros _; reflexivity
             end;
      eauto 10 using share_of_value.
Qed.

End Shares.

(** The instance of C6 for the client's shares of the dual-hybrid demo
    handshake. *)
Lemma key_shares_of_the_client_demo :
  exists ks st',
    generate_key_shares false (Demo.dual_hybrid, Demo.env0) = (Ok ks, st')
    /\ Forall (fun kv => has_private_key (snd kv) = false) ks
    /\ map fst ks = ["classical"; "pq_primary"].
Proof.
  destruct (generate_key_shares false (Demo.dual_hybrid, Demo.env0))
    as [[ks | x] st'] eqn:E.
  - exists ks, st'. split; [reflexivity | split].
    + exact (proj1 (key_shares_hold_private_keys_for_the_server_only
                      false _ _ _ E)).
    + vm_compute in E. injection E as <- _. reflexivity.
  - vm_compute in E. discriminate E.
Defined.

(** C6 as stated fails: the key shares generated for the server of a
    classical-only handshake hold, under "private_key", the private key of
    the X25519 pair just generated. *)
Lemma server_key_shares_hold_the_private_key :
  exists keys ks,
    fst (ClassicalKEM.generate_keypair (B := Demo.backend)
           (classical_kem Demo.classical_only) Demo.env0) = Ok keys
    /\ fst (generate_key_shares true (Demo.classical_only, Demo.env0)) = Ok ks
    /\ option_map KeyShare.private_key (dict_get "classical" ks)
       = Some (Some (KeyMaterial.private_key keys))
    /\ KeyMaterial.private_key keys = map Demo.counter (seq 0 32).
Proof.
  do 2 eexists. split; [reflexivity | split; [reflexivity | split; reflexivity]].
Qed.

(** The triple-hybrid demo handshake (ECDH-P256, Kyber768,
    NTRU-HPS-2048-509) returns, and its SharedSecret message records three
    secrets of 32 bytes each combined into 48 bytes. *)
Lemma triple_hybrid_combines_three_secrets :
  match perform_handshake (Demo.triple_hybrid, Demo.env0) with
  | (Ok r, st') =>
      HandshakeResult.algorithms r = ["ECDH-P256"; "Kyber768"; "NTRU-HPS-2048-509"]
      /\ option_map HandshakeMessage.payload (nth_error (log_of st') 4)
         = Some (SharedSecretPayload 3 96 48)
  | (Raise _, _) => False
  end.
Proof.
  vm_compute. split; reflexivity.
Qed.

(** * Further properties of the code *)

(** ** Negotiation, for every mode *)

Section MoreNegotiation.
Context {B : Backend}.

Lemma group_name_is_not_empty (h : t B) (algs : list CryptoAlgorithm) :
  required_algorithms h = Some algs -> String.eqb (group_name h) "" = false.
Proof.
  unfold group_name, required_algorithms.
  destruct (exchange_type h); [| | | destruct (pq_alg2 h)];
    intros H; try discriminate H; simpl;
    first [ apply value_is_not_empty | reflexivity ].
Qed.

Lemma select_group_accepts (h : t B) (groups : list string) :
  select_group h groups = if accepts h groups then Some (group_name h) else None.
Proof.
  unfold select_group, accepts, group_name, required_algorithms.
  destruct (exchange_type h); [| | | destruct (pq_alg2 h)]; simpl;
    rewrite ?andb_true_r; reflexivity.
Qed.

Lemma server_hello_accepted (h : t B) (e : Env) (ch : ClientHello.t) :
  accepts h (ClientHello.supported_groups ch) = true ->
  let sh := ServerHello.mk "TLS 1.3" (map (entropy e) (seq (cursor e) 32))
              "TLS_AES_256_GCM_SHA384" (group_name h) true true in
  server_hello ch (h, e)
  = (Ok sh,
     (append_message
        (HandshakeMessage.mk "ServerHello" "Server" (ServerHelloPayload sh)
           (wall e (reads e))) h,
      mkEnv (entropy e) (cursor e + 32) (wall e) (S (reads e)))).
Proof.
  intros Hacc sh. subst sh.
  assert (Hname : String.eqb (group_name h) "" = false).
  { unfold accepts in Hacc.
    destruct (required_algorithms h) as [algs |] eqn:E; [| discriminate Hacc].
    exact (group_name_is_not_empty h algs E). }
  unfold server_hello, bind, self, gets. simpl.
  rewrite select_group_accepts, Hacc. unfold truthy. rewrite Hname. simpl.
  reflexivity.
Qed.

Lemma server_hello_refused (h : t B) (e : Env) (ch : ClientHello.t) :
  accepts h (ClientHello.supported_groups ch) = false ->
  server_hello ch (h, e) = (Raise no_group, (h, e)).
Proof.
  intros Hacc. apply server_hello_without_group.
  rewrite select_group_accepts, Hacc. reflexivity.
Qed.

(** X1.  [server_hello] returns exactly when every algorithm the mode of
    the handshake requires is among the groups of the ClientHello, whatever
    else the ClientHello holds.  When it returns, the selected group is named
    after the required algorithms, the cipher suite is
    TLS_AES_256_GCM_SHA384, the random is the next 32 bytes of the entropy
    stream and one ServerHello entry has been logged; otherwise it raises "No
    compatible key exchange group found" and leaves the object and the
    environment as they were. *)
Theorem server_hello_selects_iff_every_required_algorithm_is_offered
    (h : t B) (e : Env) (ch : ClientHello.t) :
  ((exists sh st', server_hello ch (h, e) = (Ok sh, st'))
   <-> accepts h (ClientHello.supported_groups ch) = true)
  /\ (forall sh st',
        server_hello ch (h, e) = (Ok sh, st') ->
        ServerHello.selected_group sh = group_name h
        /\ ServerHello.cipher_suite sh = "TLS_AES_256_GCM_SHA384"
        /\ ServerHello.random sh = map (entropy e) (seq (cursor e) 32)
        /\ labels (log_of st') = labels (handshake_messages h) ++ [("ServerHello", "Server")])
  /\ (forall x st',
        server_hello ch (h, e) = (Raise x, st') -> x = no_group /\ st' = (h, e)).
Proof.
  destruct (accepts h (ClientHello.supported_groups ch)) eqn:Hacc.
  - pose proof (server_hello_accepted h e ch Hacc) as E. cbv zeta in E.
    split; [split; [reflexivity | intros _; eauto] | split].
    + intros sh st' H. rewrite E in H. injection H as <- <-.
      repeat split. unfold log_of. simpl. apply labels_snoc.
    + intros x st' H. rewrite E in H. discriminate H.
  - pose proof (server_hello_refused h e ch Hacc) as E.
    split; [split | split].
    + intros (sh & st' & H). rewrite E in H. discriminate H.
    + intros H. discriminate H.
    + intros sh st' H. rewrite E in H. discriminate H.
    + intros x st' H. rewrite E in H. injection H as <- <-. split; reflexivity.
Qed.

Lemma client_hello_value (h : t B) (e : Env) :
  exists ch,
    client_hello (h, e)
    = (Ok ch,
       (append_message
          (HandshakeMessage.mk "ClientHello" "Client" (ClientHelloPayload ch)
             (wall e (reads e))) h,
        mkEnv (entropy e) (cursor e + 32) (wall e) (S (reads e))))
    /\ ClientHello.supported_groups ch = offered_groups h
    /\ ClientHello.random ch = map (entropy e) (seq (cursor e) 32)
    /\ ClientHello.key_exchange_type ch = KeyExchangeType_value (exchange_type h).
Proof.
  unfold client_hello, offered_groups, required_algorithms, bind, self, gets. simpl.
  destruct (exchange_type h); destruct (pq_alg2 h); simpl;
    eexists; (split; [reflexivity | repeat split]).
Qed.

Lemma str_in_map_value (a : CryptoAlgorithm) (algs : list CryptoAlgorithm) :
  In a algs -> str_in (CryptoAlgorithm_value a) (map CryptoAlgorithm_value algs) = true.
Proof.
  intros H. unfold str_in. apply existsb_exists.
  exists (CryptoAlgorithm_value a). split; [apply in_map, H | apply String.eqb_refl].
Qed.

Lemma accepts_offered_groups (h : t B) (algs : list CryptoAlgorithm) :
  required_algorithms h = Some algs -> accepts h (offered_groups h) = true.
Proof.
  intros H. unfold accepts, offered_groups. rewrite H.
  apply forallb_forall. intros a Ha. apply str_in_map_value, Ha.
Qed.

Lemma accepts_ignores_log (m : HandshakeMessage.t) (h : t B) (groups : list string) :
  accepts (append_message m h) groups = accepts h groups.
Proof. reflexivity. Qed.

(** X2.  [client_hello] always returns, and offers the algorithms the mode
    requires, in their order.  [server_hello] of the same object accepts
    that ClientHello and selects the group of the mode, except for a triple
    hybrid without a second post-quantum algorithm: its ClientHello offers
    the classical and the first post-quantum algorithm, and its
    [server_hello] raises "No compatible key exchange group found". *)
Theorem a_handshake_accepts_its_own_client_hello (h : t B) (e : Env) :
  exists ch st1,
    client_hello (h, e) = (Ok ch, st1)
    /\ ClientHello.supported_groups ch = offered_groups h
    /\ match required_algorithms h with
       | Some algs =>
           exists sh st2,
             server_hello ch st1 = (Ok sh, st2)
             /\ ServerHello.selected_group sh = group_name h
       | None => server_hello ch st1 = (Raise no_group, st1)
       end.
Proof.
  destruct (client_hello_value h e) as (ch & E & Hg & _).
  eexists ch, _. split; [exact E | split; [exact Hg |]].
  destruct (required_algorithms h) as [algs |] eqn:R.
  - pose proof (server_hello_accepted
                  (append_message
                     (HandshakeMessage.mk "ClientHello" "Client"
                        (ClientHelloPayload ch) (wall e (reads e))) h)
                  (mkEnv (entropy e) (cursor e + 32) (wall e) (S (reads e))) ch) as S.
    rewrite accepts_ignores_log, Hg in S.
    specialize (S (accepts_offered_groups h algs R)). cbv zeta in S.
    do 2 eexists. split; [exact S | reflexivity].
  - apply server_hello_refused. rewrite accepts_ignores_log.
    unfold accepts. rewrite R. reflexivity.
Qed.

End MoreNegotiation.

(** ** The key shares of every mode *)

Section MoreShares.
Context {B : Backend}.

Lemma in_env_ok {O A} (m : M Env A) (o : O) (e e' : Env) (a : A) :
  m e = (Ok a, e') -> in_env m (o, e) = (Ok a, (o, e')).
Proof. intros H. unfold in_env, zoom. simpl. rewrite H. reflexivity. Qed.

Lemma in_env_raise {O A} (m : M Env A) (o : O) (e e' : Env) (x : exn) :
  m e = (Raise x, e') -> in_env (A := A) m (o, e) = (Raise x, (o, e')).
Proof. intros H. unfold in_env, zoom. simpl. rewrite H. reflexivity. Qed.

Lemma on_pq_kem1_ok {A} (m : M (QuantumSafeKEM.t B * Env) A) (h : t B)
    (e e' : Env) (k' : QuantumSafeKEM.t B) (a : A) :
  m (pq_kem1 h, e) = (Ok a, (k', e')) ->
  on_pq_kem1 m (h, e) = (Ok a, (set_pq_kem1 k' h, e')).
Proof. intros H. unfold on_pq_kem1, zoom. simpl. rewrite H. reflexivity. Qed.

Lemma on_pq_kem2_ok {A} (m : M (QuantumSafeKEM.t B * Env) A) (h : t B)
    (e e' : Env) (k2 k' : QuantumSafeKEM.t B) (a : A) :
  m (k2, e) = (Ok a, (k', e')) ->
  on_pq_kem2 k2 m (h, e) = (Ok a, (set_pq_kem2 k' h, e')).
Proof. intros H. unfold on_pq_kem2, zoom. simpl. rewrite H. reflexivity. Qed.

Lemma keygen_ready_generates (k : QuantumSafeKEM.t B) (e : Env) :
  keygen_ready k ->
  exists keys k' e',
    QuantumSafeKEM.generate_keypair (k, e) = (Ok keys, (k', e'))
    /\ keygen_ready k'.
Proof.
  intros Hk. unfold QuantumSafeKEM.generate_keypair, bind, self, gets. simpl.
  destruct (QuantumSafeKEM.real_kem k) as [o |] eqn:R.
  - destruct Hk as [Hk | Hk]; [rewrite R in Hk; discriminate Hk |].
    destruct (Hk o e) as (pk & o' & e' & G).
    unfold in_env, zoom. simpl. rewrite G. simpl.
    do 3 eexists. split; [reflexivity | right; exact Hk].
  - destruct (QuantumSafeKEM.key_sizes_get (QuantumSafeKEM.algorithm k))
      as [pub_size priv_size].
    do 3 eexists. split; [reflexivity | left; exact R].
Qed.

Lemma classical_generate_returns (s : ClassicalKEM.t) (e : Env) :
  (forall c e0, exists keys e1, curve_generate c e0 = (Ok keys, e1)) ->
  classical_supported (ClassicalKEM.algorithm s) = true ->
  exists keys e', ClassicalKEM.generate_keypair s e = (Ok keys, e').
Proof.
  intros Hgen Hs. unfold ClassicalKEM.generate_keypair.
  destruct (ClassicalKEM.algorithm s); try discriminate Hs;
    match goal with
    | |- context [curve_generate ?c] => destruct (Hgen c e) as ([pub priv] & e1 & G)
    end;
    unfold bind; rewrite G; do 2 eexists; reflexivity.
Qed.

Lemma classical_generate_unsupported (s : ClassicalKEM.t) (e : Env) :
  classical_supported (ClassicalKEM.algorithm s) = false ->
  ClassicalKEM.generate_keypair s e
  = (Raise (unsupported (ClassicalKEM.algorithm s)), e).
Proof.
  intros Hs. unfold ClassicalKEM.generate_keypair, unsupported.
  destruct (ClassicalKEM.algorithm s); try discriminate Hs; reflexivity.
Qed.

Lemma log_message_value (ty sd : string) (p : Payload) (h : t B) (e : Env) :
  _log_message ty sd p (h, e)
  = (Ok tt,
     (append_message (HandshakeMessage.mk ty sd p (wall e (reads e))) h,
      mkEnv (entropy e) (cursor e) (wall e) (S (reads e)))).
Proof. reflexivity. Qed.

Lemma generate_key_shares_returns (is_server : bool) (h : t B) (e : Env) :
  (forall c e0, exists keys e1, curve_generate c e0 = (Ok keys, e1)) ->
  kems_ready h ->
  (uses_classical (exchange_type h) = true ->
   classical_supported (ClassicalKEM.algorithm (classical_kem h)) = true) ->
  exists ks h' e',
    generate_key_shares is_server (h, e) = (Ok ks, (h', e'))
    /\ kems_ready h'.
Proof.
  intros Hgen [R1 R2] Hc.
  unfold generate_key_shares.
  rewrite (bind_step self _ (h, e) (h, e) h eq_refl).
  (* the classical block *)
  assert (S1 : exists ks1 e1,
             (if type_in (exchange_type h) [CLASSICAL; DUAL_HYBRID; TRIPLE_HYBRID]
              then
                classical_keys <- in_env (ClassicalKEM.generate_keypair (classical_kem h)) ;;
                ret (dict_set "classical" (share_of classical_keys is_server) [])
              else ret []) (h, e) = (Ok ks1, (h, e1))).
  { unfold uses_classical in Hc.
    destruct (type_in (exchange_type h) [CLASSICAL; DUAL_HYBRID; TRIPLE_HYBRID]).
    - destruct (classical_generate_returns (classical_kem h) e Hgen (Hc eq_refl))
        as (keys & e1 & G).
      rewrite (bind_step _ _ _ _ _ (in_env_ok _ h _ _ _ G)).
      do 2 eexists. reflexivity.
    - do 2 eexists. reflexivity. }
  destruct S1 as (ks1 & e1 & S1). rewrite (bind_step _ _ _ _ _ S1).
  (* the primary post-quantum block *)
  assert (S2 : exists ks2 h2 e2,
             (if type_in (exchange_type h) [PQ_ONLY; DUAL_HYBRID; TRIPLE_HYBRID]
              then
                pq_keys1 <- on_pq_kem1 QuantumSafeKEM.generate_keypair ;;
                ret (dict_set "pq_primary" (share_of pq_keys1 is_server) ks1)
              else ret ks1) (h, e1) = (Ok ks2, (h2, e2))
             /\ kems_ready h2 /\ pq_kem2 h2 = pq_kem2 h).
  { destruct (type_in (exchange_type h) [PQ_ONLY; DUAL_HYBRID; TRIPLE_HYBRID]).
    - destruct (keygen_ready_generates (pq_kem1 h) e1 R1) as (keys & k' & e2 & G & R').
      rewrite (bind_step _ _ _ _ _ (on_pq_kem1_ok _ h _ _ _ _ G)).
      do 3 eexists. split; [reflexivity | split; [split; [exact R' | exact R2] | reflexivity]].
    - do 3 eexists. split; [reflexivity | split; [split; assumption | reflexivity]]. }
  destruct S2 as (ks2 & h2 & e2 & S2 & [R1' R2'] & K2). rewrite (bind_step _ _ _ _ _ S2).
  (* the secondary post-quantum block *)
  assert (S3 : exists ks3 h3 e3,
             (match (if KeyExchangeType_eqb (exchange_type h) TRIPLE_HYBRID
                     then pq_kem2 h else None) with
              | Some k2 =>
                  pq_keys2 <- on_pq_kem2 k2 QuantumSafeKEM.generate_keypair ;;
                  ret (dict_set "pq_secondary" (share_of pq_keys2 is_server) ks2)
              | None => ret ks2
              end) (h2, e2) = (Ok ks3, (h3, e3))
             /\ kems_ready h3).
  { destruct (if KeyExchangeType_eqb (exchange_type h) TRIPLE_HYBRID
              then pq_kem2 h else None) as [k2 |] eqn:K.
    - assert (Hk2 : pq_kem2 h = Some k2).
      { destruct (KeyExchangeType_eqb (exchange_type h) TRIPLE_HYBRID);
          [exact K | discriminate K]. }
      rewrite <- K2 in Hk2.
      destruct (keygen_ready_generates k2 e2 (R2' k2 Hk2)) as (keys & k' & e3 & G & R').
      rewrite (bind_step _ _ _ _ _ (on_pq_kem2_ok _ h2 _ _ _ _ _ G)).
      do 3 eexists. split; [reflexivity |].
      split; [exact R1' | intros k3 H3; simpl in H3; injection H3 as <-; exact R'].
    - do 3 eexists. split; [reflexivity | split; assumption]. }
  destruct S3 as (ks3 & h3 & e3 & S3 & R3). rewrite (bind_step _ _ _ _ _ S3).
  rewrite (bind_step _ _ _ _ _ (log_message_value _ _ _ h3 e3)).
  do 3 eexists. split; [reflexivity | exact R3].
Qed.

Lemma generate_key_shares_unsupported (is_server : bool) (h : t B) (e : Env) :
  uses_classical (exchange_type h) = true ->
  classical_supported (ClassicalKEM.algorithm (classical_kem h)) = false ->
  generate_key_shares is_server (h, e)
  = (Raise (unsupported (ClassicalKEM.algorithm (classical_kem h))), (h, e)).
Proof.
  intros Hx Hs. unfold generate_key_shares, uses_classical in *.
  rewrite (bind_step self _ (h, e) (h, e) h eq_refl).
  rewrite Hx.
  apply bind_raise. apply bind_raise.
  apply in_env_raise. apply classical_generate_unsupported, Hs.
Qed.

End MoreShares.

Section ShareNames.
Context {B : Backend}.

Lemma on_pq_kem1_keeps_pq_kem2 {A} (m : M (QuantumSafeKEM.t B * Env) A)
    (st : t B * Env) :
  pq_kem2 (fst (snd (on_pq_kem1 m st))) = pq_kem2 (fst st).
Proof.
  destruct st as [h e]. unfold on_pq_kem1, zoom. simpl.
  destruct (m (pq_kem1 h, e)) as [r ks]. reflexivity.
Qed.

Lemma on_pq_kem2_sets_pq_kem2 {A} (k2 : QuantumSafeKEM.t B)
    (m : M (QuantumSafeKEM.t B * Env) A) (st : t B * Env) :
  is_some (pq_kem2 (fst (snd (on_pq_kem2 k2 m st)))) = true.
Proof.
  destruct st as [h e]. unfold on_pq_kem2, zoom. simpl.
  destruct (m (k2, e)) as [r ks]. reflexivity.
Qed.

(** The names of the shares [generate_key_shares] returns, and that it keeps
    a second post-quantum KEM when there is one. *)
Lemma generate_key_shares_names (is_server : bool) (st st' : t B * Env)
    (ks : dict KeyShare.t) :
  generate_key_shares is_server st = (Ok ks, st') ->
  map fst ks = share_names (fst st)
  /\ is_some (pq_kem2 (fst st')) = is_some (pq_kem2 (fst st)).
Proof.
  unfold generate_key_shares. intros H.
  apply bind_ok in H. destruct H as (s & s0 & E0 & H).
  unfold self, gets in E0. injection E0 as <- <-.
  apply bind_ok in H. destruct H as (ks1 & s1 & E1 & H).
  apply bind_ok in H. destruct H as (ks2 & s2 & E2 & H).
  apply bind_ok in H. destruct H as (ks3 & s3 & E3 & H).
  apply bind_ok in H. destruct H as ([] & s4 & E4 & H).
  unfold ret in H. injection H as <- <-.
  assert (K4 := E4). apply (keeps_ok pq_kem2) in K4; [| keeps].
  assert (K1 := E1). apply (keeps_ok pq_kem2) in K1; [| keeps].
  assert (K2 : pq_kem2 (fst s2) = pq_kem2 (fst s1)).
  { destruct (type_in _ _) in E2.
    - apply bind_ok in E2. destruct E2 as (keys & s2' & G & E2).
      unfold ret in E2. injection E2 as _ <-.
      pose proof (on_pq_kem1_keeps_pq_kem2 QuantumSafeKEM.generate_keypair s1) as K.
      rewrite G in K. exact K.
    - unfold ret in E2. injection E2 as _ <-. reflexivity. }
  rewrite K4. unfold share_names.
  destruct (exchange_type (fst st)) eqn:X; simpl in E1, E2, E3.
  - (* CLASSICAL *)
    apply bind_ok in E1. destruct E1 as (keys & s1' & _ & E1).
    unfold ret in E1, E2, E3.
    injection E1 as <- _. injection E2 as <- _. injection E3 as <- <-.
    split; [reflexivity | rewrite K2, K1; reflexivity].
  - (* PQ_ONLY *)
    unfold ret in E1. injection E1 as <- _.
    apply bind_ok in E2. destruct E2 as (keys & s2' & _ & E2).
    unfold ret in E2, E3. injection E2 as <- _. injection E3 as <- <-.
    split; [reflexivity | rewrite K2, K1; reflexivity].
  - (* DUAL_HYBRID *)
    apply bind_ok in E1. destruct E1 as (keys1 & s1' & _ & E1).
    apply bind_ok in E2. destruct E2 as (keys2 & s2' & _ & E2).
    unfold ret in E1, E2, E3.
    injection E1 as <- _. injection E2 as <- _. injection E3 as <- <-.
    split; [reflexivity | rewrite K2, K1; reflexivity].
  - (* TRIPLE_HYBRID *)
    apply bind_ok in E1. destruct E1 as (keys1 & s1' & _ & E1).
    apply bind_ok in E2. destruct E2 as (keys2 & s2' & _ & E2).
    unfold ret in E1, E2. injection E1 as <- _. injection E2 as <- _.
    destruct (pq_kem2 (fst st)) as [k2 |] eqn:P2.
    + apply bind_ok in E3. destruct E3 as (keys3 & s3' & G & E3).
      unfold ret in E3. injection E3 as <- <-.
      pose proof (on_pq_kem2_sets_pq_kem2 k2 QuantumSafeKEM.generate_keypair s2) as K.
      rewrite G in K. simpl in K.
      split; [reflexivity | exact K].
    + unfold ret in E3. injection E3 as <- <-.
      split; [reflexivity | rewrite K2, K1; reflexivity].
Qed.

End ShareNames.

(** ** Which exchanges run, and what they read *)

Section MoreExchanges.
Context {B : Backend}.

Lemma classical_exchange_slot (sks cks : dict KeyShare.t) (st : t B * Env) :
  exists o st',
    (forall ss, classical_exchange sks cks ss st = (Ok (ss ++ present o), st'))
    /\ is_some o = dict_in "classical" sks && dict_in "classical" cks
    /\ (is_some o = false -> st' = st).
Proof.
  unfold classical_exchange.
  destruct (dict_in "classical" sks && dict_in "classical" cks).
  - unfold try_except, bind, self, gets, getitem, in_env, zoom, token_bytes, ret, raise.
    split_cases; eexists (Some _), _;
      (split; [intros ss; reflexivity | split; [reflexivity | intros H; discriminate H]]).
  - exists None, st.
    split; [intros ss; rewrite app_nil_r; reflexivity | split; reflexivity].
Qed.

Lemma pq_primary_exchange_slot (sks cks : dict KeyShare.t) (st : t B * Env) :
  exists o st',
    (forall ss, pq_primary_exchange sks cks ss st = (Ok (ss ++ present o), st'))
    /\ is_some o = dict_in "pq_primary" sks && dict_in "pq_primary" cks
    /\ (is_some o = false -> st' = st).
Proof.
  unfold pq_primary_exchange.
  destruct (dict_in "pq_primary" sks && dict_in "pq_primary" cks).
  - unfold try_except, bind, self, gets, getitem, in_env, zoom, on_pq_kem1,
      token_bytes, ret, raise.
    split_cases; eexists (Some _), _;
      (split; [intros ss; reflexivity | split; [reflexivity | intros H; discriminate H]]).
  - exists None, st.
    split; [intros ss; rewrite app_nil_r; reflexivity | split; reflexivity].
Qed.

Lemma pq_secondary_exchange_slot (sks cks : dict KeyShare.t) (st : t B * Env) :
  exists o st',
    (forall ss, pq_secondary_exchange sks cks ss st = (Ok (ss ++ present o), st'))
    /\ is_some o
       = dict_in "pq_secondary" sks && dict_in "pq_secondary" cks
         && is_some (pq_kem2 (fst st))
    /\ (is_some o = false -> st' = st).
Proof.
  unfold pq_secondary_exchange, try_except, bind, self, gets, getitem, in_env, zoom,
    on_pq_kem2, token_bytes, ret, raise.
  destruct (dict_in "pq_secondary" sks && dict_in "pq_secondary" cks);
    destruct (pq_kem2 (fst st)); simpl;
    split_cases;
    first
      [ eexists (Some _), _;
        (split; [intros ss; reflexivity
                | split; [reflexivity | intros H; discriminate H]])
      | exists None; eexists;
        (split; [intros ss; rewrite app_nil_r; reflexivity
                | split; reflexivity]) ].
Qed.

Lemma keeps_on_pq_kem1_left {X A} (proj : t B -> X)
    (m : M (QuantumSafeKEM.t B * Env) A) :
  (forall k h, proj (set_pq_kem1 k h) = proj h) -> keeps proj (on_pq_kem1 m).
Proof.
  intros H1 [h e]. unfold on_pq_kem1, zoom. simpl.
  destruct (m (pq_kem1 h, e)) as [r ks]. simpl. apply H1.
Qed.

Lemma pq_primary_exchange_keeps_pq_kem2 (sks cks : dict KeyShare.t)
    (ss : list bytes) :
  keeps pq_kem2 (pq_primary_exchange (B := B) sks cks ss).
Proof.
  unfold pq_primary_exchange.
  repeat first
    [ apply keeps_on_pq_kem1_left; intros; reflexivity | progress keeps ].
Qed.

Lemma present_length (o : option bytes) :
  List.length (present o) = if is_some o then 1 else 0.
Proof. destruct o; reflexivity. Qed.

Lemma combine_value_full (s0 : bytes) (ss : list bytes) (h : t B) (e : Env) :
  let m := hkdf_sha384 48 hybrid_salt (hybrid_info (exchange_type h)) (join (s0 :: ss)) in
  combine (s0 :: ss) (h, e)
  = (Ok m,
     (append_message
        (HandshakeMessage.mk "SharedSecret" "Combined"
           (SharedSecretPayload (List.length (s0 :: ss)) (len (join (s0 :: ss))) (len m))
           (wall e (reads e))) h,
      mkEnv (entropy e) (cursor e) (wall e) (S (reads e)))).
Proof. reflexivity. Qed.

Lemma compute_shared_secrets_as_combine (sks cks : dict KeyShare.t)
    (h : t B) (e : Env) :
  exists ss st3,
    compute_shared_secrets sks cks (h, e) = combine ss st3
    /\ List.length ss = List.length (exchanged sks cks h)
    /\ handshake_messages (fst st3) = handshake_messages h
    /\ (ss = [] -> st3 = (h, e)).
Proof.
  destruct (classical_exchange_slot sks cks (h, e)) as (o1 & st1 & H1 & I1 & U1).
  destruct (pq_primary_exchange_slot sks cks st1) as (o2 & st2 & H2 & I2 & U2).
  destruct (pq_secondary_exchange_slot sks cks st2) as (o3 & st3 & H3 & I3 & U3).
  assert (K : pq_kem2 (fst st2) = pq_kem2 h).
  { rewrite (keeps_ok pq_kem2 _ _ _ _
               (pq_primary_exchange_keeps_pq_kem2 sks cks []) (H2 [])).
    exact (keeps_ok pq_kem2 _ _ _ _ (classical_exchange_keeps _ sks cks []) (H1 [])). }
  rewrite K in I3.
  exists (present o1 ++ present o2 ++ present o3), st3.
  split; [| split; [| split]].
  - unfold compute_shared_secrets.
    rewrite (bind_step _ _ _ _ _ (H1 [])).
    rewrite (bind_step _ _ _ _ _ (H2 _)).
    rewrite (bind_step _ _ _ _ _ (H3 _)).
    rewrite <- app_assoc. reflexivity.
  - rewrite !length_app, !present_length, I1, I2, I3.
    unfold exchanged. rewrite filter_app, length_app. simpl.
    destruct (dict_in "classical" sks && dict_in "classical" cks);
      destruct (dict_in "pq_primary" sks && dict_in "pq_primary" cks);
      destruct (is_some (pq_kem2 h)); simpl;
      destruct (dict_in "pq_secondary" sks && dict_in "pq_secondary" cks);
      reflexivity.
  - rewrite (keeps_ok handshake_messages _ _ _ _
               (pq_secondary_exchange_keeps _ sks cks _ log_ignores_kems) (H3 [])).
    rewrite (keeps_ok handshake_messages _ _ _ _
               (pq_primary_exchange_keeps _ sks cks _ log_ignores_kems) (H2 [])).
    exact (keeps_ok handshake_messages _ _ _ _
             (classical_exchange_keeps _ sks cks []) (H1 [])).
  - intros P.
    destruct o1; [discriminate P |]. destruct o2; [discriminate P |].
    destruct o3; [discriminate P |].
    rewrite (U3 eq_refl), (U2 eq_refl), (U1 eq_refl). reflexivity.
Qed.

(** X4.  [compute_shared_secrets] runs the exchanges whose share both
    dicts hold, the secondary one only when the object has a second
    post-quantum KEM.  When there is none, it raises "No shared secrets could
    be computed" and changes nothing; otherwise it returns, and the
    SharedSecret entry it logs counts one secret for each of these
    exchanges. *)
Theorem shared_secrets_are_computed_iff_both_sides_hold_a_share
    (sks cks : dict KeyShare.t) (h : t B) (e : Env) :
  match exchanged sks cks h with
  | [] => compute_shared_secrets sks cks (h, e) = (Raise no_secrets, (h, e))
  | slots =>
      exists m st' total ts,
        compute_shared_secrets sks cks (h, e) = (Ok m, st')
        /\ handshake_messages (fst st')
           = handshake_messages h
             ++ [HandshakeMessage.mk "SharedSecret" "Combined"
                   (SharedSecretPayload (List.length slots) total (len m)) ts]
  end.
Proof.
  destruct (compute_shared_secrets_as_combine sks cks h e)
    as (ss & st3 & C & N & L & U).
  rewrite C.
  destruct (exchanged sks cks h) as [| name names] eqn:X.
  - destruct ss; [| discriminate N]. rewrite (U eq_refl). reflexivity.
  - destruct ss as [| s0 ss]; [discriminate N |].
    destruct st3 as [h3 e3]. simpl in L.
    pose proof (combine_value_full s0 ss h3 e3) as V. cbv zeta in V.
    do 4 eexists. split; [exact V |].
    cbn [fst handshake_messages append_message]. rewrite L, N. reflexivity.
Qed.

(** X6.  For a classical algorithm other than X25519 and X448, the
    classical secret is not derived from any key: whenever both dicts hold a
    "classical" share, the classical exchange appends the next 32 bytes of
    the entropy stream, whatever the shares contain, and changes nothing
    else. *)
Theorem classical_secret_without_a_curve_exchange_is_random
    (sks cks : dict KeyShare.t) (ss : list bytes) (h : t B) (e : Env) :
  derives (ClassicalKEM.algorithm (classical_kem h)) = false ->
  dict_in "classical" sks = true ->
  dict_in "classical" cks = true ->
  classical_exchange sks cks ss (h, e)
  = (Ok (ss ++ [map (entropy e) (seq (cursor e) 32)]),
     (h, mkEnv (entropy e) (cursor e + 32) (wall e) (reads e))).
Proof.
  intros Hd Hs Hc. unfold classical_exchange. rewrite Hs, Hc. simpl.
  unfold dict_in in Hs, Hc.
  destruct (dict_get "classical" sks) as [server_share |] eqn:Gs; [| discriminate Hs].
  destruct (dict_get "classical" cks) as [client_share |] eqn:Gc; [| discriminate Hc].
  unfold try_except, bind, self, gets, getitem. simpl. rewrite Gs. simpl.
  destruct (KeyShare.private_key server_share) as [priv |]; simpl.
  - rewrite Gc. simpl.
    unfold in_env, zoom, ClassicalKEM.derive_shared_secret. simpl.
    destruct (ClassicalKEM.algorithm (classical_kem h)); try discriminate Hd;
      reflexivity.
  - reflexivity.
Qed.

Lemma classical_exchange_view (sks cks sks' cks' : dict KeyShare.t)
    (ss : list bytes) (st : t B * Env) :
  option_map KeyShare.private_key (dict_get "classical" sks)
  = option_map KeyShare.private_key (dict_get "classical" sks') ->
  option_map KeyShare.public_key (dict_get "classical" cks)
  = option_map KeyShare.public_key (dict_get "classical" cks') ->
  classical_exchange sks cks ss st = classical_exchange sks' cks' ss st.
Proof.
  intros Hs Hc. destruct st as [h e].
  unfold classical_exchange, dict_in, try_except, bind, self, gets, getitem.
  destruct (dict_get "classical" sks) as [a |], (dict_get "classical" sks') as [a' |];
    try discriminate Hs;
    destruct (dict_get "classical" cks) as [c |], (dict_get "classical" cks') as [c' |];
    try discriminate Hc; simpl in *; try reflexivity.
  injection Hs as Hs. injection Hc as Hc. rewrite Hs, Hc. reflexivity.
Qed.

Lemma pq_primary_exchange_view (sks cks sks' cks' : dict KeyShare.t)
    (ss : list bytes) (st : t B * Env) :
  option_map KeyShare.public_key (dict_get "pq_primary" sks)
  = option_map KeyShare.public_key (dict_get "pq_primary" sks') ->
  dict_in "pq_primary" cks = dict_in "pq_primary" cks' ->
  pq_primary_exchange sks cks ss st = pq_primary_exchange sks' cks' ss st.
Proof.
  intros Hs Hc. destruct st as [h e].
  unfold pq_primary_exchange. rewrite Hc.
  unfold dict_in at 1 3. unfold try_except, bind, getitem.
  destruct (dict_get "pq_primary" sks) as [a |], (dict_get "pq_primary" sks') as [a' |];
    try discriminate Hs; simpl in *; try reflexivity.
  injection Hs as Hs. rewrite Hs. reflexivity.
Qed.

Lemma pq_secondary_exchange_view (sks cks sks' cks' : dict KeyShare.t)
    (ss : list bytes) (st : t B * Env) :
  option_map KeyShare.public_key (dict_get "pq_secondary" sks)
  = option_map KeyShare.public_key (dict_get "pq_secondary" sks') ->
  dict_in "pq_secondary" cks = dict_in "pq_secondary" cks' ->
  pq_secondary_exchange sks cks ss st = pq_secondary_exchange sks' cks' ss st.
Proof.
  intros Hs Hc. destruct st as [h e].
  unfold pq_secondary_exchange. rewrite Hc.
  unfold dict_in at 1 3. unfold try_except, bind, self, gets, getitem.
  destruct (dict_get "pq_secondary" sks) as [a |], (dict_get "pq_secondary" sks') as [a' |];
    try discriminate Hs; simpl in *; try reflexivity.
  injection Hs as Hs. rewrite Hs. reflexivity.
Qed.

(** X5.  [compute_shared_secrets] reads, of the two dicts of key shares,
    the server's classical private key, the client's classical public key,
    the server's post-quantum public keys, and whether the client has a
    share of each post-quantum name.  Nothing else changes its outcome: not
    the post-quantum private keys, not the client's post-quantum public
    keys, not the algorithm names or key sizes of the shares. *)
Theorem shared_secrets_read_only_the_exchanged_keys
    (sks cks sks' cks' : dict KeyShare.t) (st : t B * Env) :
  exchange_view sks cks = exchange_view sks' cks' ->
  compute_shared_secrets sks cks st = compute_shared_secrets sks' cks' st.
Proof.
  unfold exchange_view. intros H.
  injection H as Hc1 Hc2 Hp1 Hp2 Hs1 Hs2.
  unfold compute_shared_secrets, bind.
  rewrite (classical_exchange_view sks cks sks' cks' [] st Hc1 Hc2).
  destruct (classical_exchange sks' cks' [] st) as [[ss1 | x1] st1]; [| reflexivity].
  rewrite (pq_primary_exchange_view sks cks sks' cks' ss1 st1 Hp1 Hp2).
  destruct (pq_primary_exchange sks' cks' ss1 st1) as [[ss2 | x2] st2]; [| reflexivity].
  rewrite (pq_secondary_exchange_view sks cks sks' cks' ss2 st2 Hs1 Hs2).
  reflexivity.
Qed.

End MoreExchanges.

(** ** When a handshake completes *)

Section MoreHandshake.
Context {B : Backend}.

Lemma dict_in_names {V} (k : string) (d : dict V) :
  dict_in k d = str_in k (map fst d).
Proof.
  unfold dict_in, str_in.
  induction d as [| [k' v] d IH]; simpl; [reflexivity |].
  destruct (String.eqb k k'); [reflexivity | exact IH].
Qed.

Lemma exchanged_of_share_names (sks cks : dict KeyShare.t) (h h' : t B) :
  map fst sks = share_names h' -> map fst cks = share_names h' ->
  exists name names, exchanged sks cks h = name :: names.
Proof.
  intros Hs Hc. unfold exchanged. rewrite filter_app. simpl.
  rewrite !dict_in_names, Hs, Hc. unfold share_names.
  destruct (exchange_type h'); [| | | destruct (is_some (pq_kem2 h'))];
    simpl; eauto.
Qed.

Lemma compute_shared_secrets_returns (sks cks : dict KeyShare.t)
    (h : t B) (e : Env) (name : string) (names : list string) :
  exchanged sks cks h = name :: names ->
  exists m st', compute_shared_secrets sks cks (h, e) = (Ok m, st').
Proof.
  intros X.
  destruct (compute_shared_secrets_as_combine sks cks h e) as (ss & st3 & C & N & _).
  rewrite C, X in *. destruct ss as [| s0 ss]; [discriminate N |].
  destruct st3 as [h3 e3]. do 2 eexists. apply combine_value_full.
Qed.

Lemma classical_ok_config (h h' : t B) :
  config h' = config h -> classical_ok h -> classical_ok h'.
Proof.
  unfold config, classical_ok. intros H. injection H as -> _ _ _ ->. exact (fun H => H).
Qed.

Lemma share_names_config (h h' : t B) :
  config h' = config h -> is_some (pq_kem2 h') = is_some (pq_kem2 h) ->
  share_names h' = share_names h.
Proof.
  unfold config, share_names. intros H K. injection H as -> _ _ _ _.
  rewrite K. reflexivity.
Qed.

Lemma time_value (h : t B) (e : Env) :
  in_env time_time (h, e)
  = (Ok (wall e (reads e)), (h, mkEnv (entropy e) (cursor e) (wall e) (S (reads e)))).
Proof. reflexivity. Qed.

(** The tail of [perform_handshake], from the session keys on, returns. *)
Lemma handshake_tail_returns (start_time : Z) (sks : dict KeyShare.t)
    (secret : bytes) (st : t B * Env) :
  exists r st',
    (session_keys <- _derive_session_keys secret ;;
     end_time <- in_env time_time ;;
     let handshake_duration := (end_time - start_time)%Z in
     s <- self ;;
     let result :=
       HandshakeResult.mk true
         (KeyExchangeType_value (exchange_type s))
         [CryptoAlgorithm_value (classical_alg s); CryptoAlgorithm_value (pq_alg1 s)]
         handshake_duration
         (len secret)
         session_keys
         (List.length (handshake_messages s))
         (key_size_of "classical" sks)
         (key_size_of "pq_primary" sks)
         (key_size_of "pq_secondary" sks) in
     let result :=
       match pq_alg2 s with
       | Some a2 => HandshakeResult.append_algorithm (CryptoAlgorithm_value a2) result
       | None => result
       end in
     _log_message "HandshakeComplete" "System" (HandshakeCompletePayload result) ;;;
     ret result) st = (Ok r, st').
Proof.
  destruct st as [h e].
  rewrite (bind_step _ _ _ _ _ (derive_session_keys_value secret h e)).
  unfold bind, in_env, zoom, time_time, self, gets, _log_message, modify, ret.
  simpl. do 2 eexists. reflexivity.
Qed.

Lemma perform_handshake_completes (h : t B) (e : Env) (algs : list CryptoAlgorithm) :
  generators_return -> kems_ready h -> required_algorithms h = Some algs ->
  classical_ok h ->
  exists r st', perform_handshake (h, e) = (Ok r, st').
Proof.
  intros [Hcurves _] Hk Hreq Hc.
  unfold perform_handshake.
  rewrite (bind_step _ _ _ _ _ (time_value h e)).
  destruct (client_hello_value h (mkEnv (entropy e) (cursor e) (wall e) (S (reads e))))
    as (ch & E2 & Hg & _).
  rewrite (bind_step _ _ _ _ _ E2). clear E2.
  match goal with
  | |- context [bind (server_hello ch) _ (?h1, ?e1)] =>
      pose proof (server_hello_accepted h1 e1 ch) as E3;
      rewrite accepts_ignores_log, Hg in E3;
      specialize (E3 (accepts_offered_groups h algs Hreq)); cbv zeta in E3;
      rewrite (bind_step _ _ _ _ _ E3); clear E3
  end.
  match goal with
  | |- context [bind (generate_key_shares true) _ (?h2, ?e2)] =>
      destruct (generate_key_shares_returns true h2 e2 Hcurves Hk Hc)
        as (sks & h3 & e3 & E4 & Hk3);
      rewrite (bind_step _ _ _ _ _ E4);
      pose proof (keeps_ok config _ _ _ _ (generate_key_shares_keeps_config _) E4) as C4;
      destruct (generate_key_shares_names _ _ _ _ E4) as [N4 P4]
  end.
  simpl fst in C4, N4, P4.
  assert (Hc3 : classical_ok h3) by exact (classical_ok_config _ _ C4 Hc).
  destruct (generate_key_shares_returns false h3 e3 Hcurves Hk3 Hc3)
    as (cks & h4 & e4 & E5 & _).
  rewrite (bind_step _ _ _ _ _ E5).
  destruct (generate_key_shares_names _ _ _ _ E5) as [N5 _]. simpl fst in N5.
  rewrite (share_names_config _ _ C4 P4) in N5.
  destruct (exchanged_of_share_names sks cks h4 _ N4 N5) as (name & names & X).
  destruct (compute_shared_secrets_returns sks cks h4 e4 name names X) as (m & s6 & E6).
  rewrite (bind_step _ _ _ _ _ E6).
  apply handshake_tail_returns.
Qed.

Lemma perform_handshake_without_group (h : t B) (e : Env) :
  required_algorithms h = None ->
  exists st',
    perform_handshake (h, e) = (Raise no_group, st')
    /\ labels (log_of st') = labels (handshake_messages h) ++ [("ClientHello", "Client")].
Proof.
  intros Hreq. unfold perform_handshake.
  rewrite (bind_step _ _ _ _ _ (time_value h e)).
  destruct (client_hello_value h (mkEnv (entropy e) (cursor e) (wall e) (S (reads e))))
    as (ch & E2 & _).
  rewrite (bind_step _ _ _ _ _ E2). clear E2.
  eexists. split.
  - apply bind_raise. apply server_hello_refused.
    rewrite accepts_ignores_log. unfold accepts. rewrite Hreq. reflexivity.
  - unfold log_of. simpl. apply labels_snoc.
Qed.

Lemma perform_handshake_unsupported (h : t B) (e : Env) (algs : list CryptoAlgorithm) :
  required_algorithms h = Some algs ->
  uses_classical (exchange_type h) = true ->
  classical_supported (ClassicalKEM.algorithm (classical_kem h)) = false ->
  exists st',
    perform_handshake (h, e)
    = (Raise (unsupported (ClassicalKEM.algorithm (classical_kem h))), st')
    /\ labels (log_of st')
       = labels (handshake_messages h)
         ++ [("ClientHello", "Client"); ("ServerHello", "Server")].
Proof.
  intros Hreq Hx Hs. unfold perform_handshake.
  rewrite (bind_step _ _ _ _ _ (time_value h e)).
  destruct (client_hello_value h (mkEnv (entropy e) (cursor e) (wall e) (S (reads e))))
    as (ch & E2 & Hg & _).
  rewrite (bind_step _ _ _ _ _ E2). clear E2.
  match goal with
  | |- context [bind (server_hello ch) _ (?h1, ?e1)] =>
      pose proof (server_hello_accepted h1 e1 ch) as E3;
      rewrite accepts_ignores_log, Hg in E3;
      specialize (E3 (accepts_offered_groups h algs Hreq)); cbv zeta in E3;
      rewrite (bind_step _ _ _ _ _ E3); clear E3
  end.
  eexists. split.
  - match goal with
    | |- bind (generate_key_shares true) _ (?h2, ?e2) = _ =>
        exact (bind_raise _ _ _ _ _ (generate_key_shares_unsupported true h2 e2 Hx Hs))
    end.
  - unfold log_of. simpl. rewrite !labels_snoc, <- app_assoc. reflexivity.
Qed.

End MoreHandshake.

Section Completion.
Context {B : Backend}.

Lemma init_keygen_ready (a : CryptoAlgorithm) :
  OQS_AVAILABLE = false \/ oqs_generates ->
  keygen_ready (QuantumSafeKEM.__init__ (B := B) a).
Proof.
  intros [H | H]; [left | right; exact H].
  unfold QuantumSafeKEM.__init__. rewrite H. reflexivity.
Qed.

Lemma init_kems_ready (x : KeyExchangeType) (c p1 : CryptoAlgorithm)
    (p2 : option CryptoAlgorithm) :
  generators_return -> kems_ready (__init__ (B := B) x c p1 p2).
Proof.
  intros [_ H]. split.
  - apply init_keygen_ready, H.
  - simpl. intros k2 E.
    destruct p2 as [a2 |]; [| discriminate E].
    destruct (KeyExchangeType_eqb x TRIPLE_HYBRID); [| discriminate E].
    injection E as <-. apply init_keygen_ready, H.
Qed.

Lemma usable_init (x : KeyExchangeType) (c p1 : CryptoAlgorithm)
    (p2 : option CryptoAlgorithm) :
  let h := __init__ (B := B) x c p1 p2 in
  if usable x c p2
  then (exists algs, required_algorithms h = Some algs) /\ classical_ok h
  else required_algorithms h = None
       \/ ((exists algs, required_algorithms h = Some algs)
           /\ uses_classical (exchange_type h) = true
           /\ classical_supported (ClassicalKEM.algorithm (classical_kem h)) = false).
Proof.
  unfold usable, required_algorithms, classical_ok, uses_classical. simpl.
  destruct x; simpl;
    destruct (classical_supported c) eqn:S; simpl;
    try destruct p2; simpl;
    first [ split; [eexists; reflexivity | intros H; first [reflexivity | discriminate H]]
          | left; reflexivity
          | right; split; [eexists; reflexivity | split; reflexivity] ].
Qed.

(** X8.  Where the libraries generate keys (every curve does, and the oqs
    binding does unless its import failed), [perform_handshake] on a newly
    built object returns if and only if the configuration is usable: in the
    modes that exchange a classical key the classical algorithm is X25519,
    X448, ECDH-P256 or ECDH-P384, and a triple hybrid names its second
    post-quantum algorithm.  A failing exchange does not stop it. *)
Theorem handshake_completes_iff_the_configuration_is_usable
    (x : KeyExchangeType) (c p1 : CryptoAlgorithm) (p2 : option CryptoAlgorithm)
    (e : Env) :
  generators_return ->
  (exists r st', perform_handshake (__init__ x c p1 p2, e) = (Ok r, st'))
  <-> usable x c p2 = true.
Proof.
  intros Hgen. pose proof (usable_init x c p1 p2) as U. cbv zeta in U.
  destruct (usable x c p2).
  - destruct U as [[algs R] Hc].
    split; [reflexivity | intros _].
    exact (perform_handshake_completes _ e algs Hgen (init_kems_ready x c p1 p2 Hgen) R Hc).
  - split; [| intros H; discriminate H].
    intros (r & st' & E). exfalso.
    destruct U as [R | [[algs R] [Hx Hs]]].
    + destruct (perform_handshake_without_group _ e R) as (st1 & E1 & _).
      rewrite E1 in E. discriminate E.
    + destruct (perform_handshake_unsupported _ e algs R Hx Hs) as (st1 & E1 & _).
      rewrite E1 in E. discriminate E.
Qed.

(** X9.  An object built with a classical algorithm the classical KEM has
    no branch for (RSA-2048, or a post-quantum algorithm) is built without
    error.  In classical and in dual-hybrid mode, and in triple-hybrid mode
    when a second post-quantum algorithm is configured, its
    [perform_handshake] raises "Unsupported classical algorithm: ..." when
    the server's key shares are generated, and leaves the ClientHello and
    ServerHello entries in the transcript. *)
Theorem unsupported_classical_algorithm_fails_after_the_hellos
    (x : KeyExchangeType) (c p1 : CryptoAlgorithm) (p2 : option CryptoAlgorithm)
    (e : Env) :
  uses_classical x = true ->
  classical_supported c = false ->
  (x = TRIPLE_HYBRID -> is_some p2 = true) ->
  exists st',
    perform_handshake (__init__ x c p1 p2, e) = (Raise (unsupported c), st')
    /\ labels (log_of st') = [("ClientHello", "Client"); ("ServerHello", "Server")].
Proof.
  intros Hx Hs H2.
  assert (R : exists algs, required_algorithms (__init__ (B := B) x c p1 p2) = Some algs).
  { unfold required_algorithms. simpl.
    destruct x; try (eexists; reflexivity).
    destruct p2; [eexists; reflexivity | discriminate (H2 eq_refl)]. }
  destruct R as [algs R].
  exact (perform_handshake_unsupported _ e algs R Hx Hs).
Qed.

End Completion.

Lemma demo_generators_return : generators_return (B := Demo.backend).
Proof.
  split; [| left; reflexivity].
  intros c e. do 2 eexists. reflexivity.
Qed.

(** The instance of X8 on the triple-hybrid demo handshake. *)
Lemma handshake_completes_demo :
  exists r st', perform_handshake (Demo.triple_hybrid, Demo.env0) = (Ok r, st').
Proof.
  exact (proj2 (handshake_completes_iff_the_configuration_is_usable
                  (B := Demo.backend) TRIPLE_HYBRID ECDH_P256 KYBER768
                  (Some NTRU_HPS2048509) Demo.env0 demo_generators_return)
           eq_refl).
Defined.

(** The instance of X9 for a dual hybrid with RSA-2048. *)
Lemma unsupported_classical_algorithm_demo :
  exists st',
    perform_handshake
      (__init__ (B := Demo.backend) DUAL_HYBRID RSA_2048 KYBER768 None, Demo.env0)
    = (Raise (ValueError "Unsupported classical algorithm: CryptoAlgorithm.RSA_2048"), st')
    /\ labels (log_of st') = [("ClientHello", "Client"); ("ServerHello", "Server")].
Proof.
  apply (unsupported_classical_algorithm_fails_after_the_hellos
           (B := Demo.backend) DUAL_HYBRID RSA_2048 KYBER768 None Demo.env0).
  - reflexivity.
  - reflexivity.
  - intros H. discriminate H.
Defined.

(** ** What a handshake leaves behind, whatever its outcome *)

Section Outcomes.
Context {B : Backend}.

Lemma bind_raise_inv {S A C} (m : M S A) (k : A -> M S C) (s s' : S) (x : exn) :
  bind m k s = (Raise x, s') ->
  m s = (Raise x, s')
  \/ exists a s1, m s = (Ok a, s1) /\ k a s1 = (Raise x, s').
Proof.
  unfold bind. destruct (m s) as [[a | y] s1]; intros H.
  - right. exists a, s1. split; [reflexivity | exact H].
  - left. injection H as <- <-. reflexivity.
Qed.

Lemma quiet_raise {A} (x : exn) : quiet_on_raise (B := B) (raise (A := A) x).
Proof. intros st y st' H. injection H as _ <-. reflexivity. Qed.

Lemma quiet_log {C} (ty sd : string) (p : Payload) (c : C) :
  quiet_on_raise (B := B) (bind (_log_message ty sd p) (fun _ => ret c)).
Proof. intros [h e] x st' H. discriminate H. Qed.

Lemma quiet_bind {A C} (m : M (t B * Env) A) (k : A -> M (t B * Env) C) :
  keeps handshake_messages m -> (forall a, quiet_on_raise (k a)) ->
  quiet_on_raise (bind m k).
Proof.
  intros Hm Hk st x st' H.
  apply bind_raise_inv in H. destruct H as [H | (a & s1 & E & H)].
  - specialize (Hm st). rewrite H in Hm. exact Hm.
  - rewrite (Hk a s1 x st' H). exact (keeps_ok _ _ _ _ _ Hm E).
Qed.

Lemma server_hello_quiet (ch : ClientHello.t) :
  quiet_on_raise (B := B) (server_hello ch).
Proof.
  unfold server_hello.
  apply quiet_bind; [keeps | intros s].
  destruct (if truthy _ then _ else _) as [group |].
  - apply quiet_bind; [keeps | intros random]. apply quiet_log.
  - apply quiet_raise.
Qed.

Lemma generate_key_shares_quiet (is_server : bool) :
  quiet_on_raise (B := B) (generate_key_shares is_server).
Proof.
  unfold generate_key_shares.
  apply quiet_bind; [keeps | intros s].
  apply quiet_bind; [keeps | intros ks1].
  apply quiet_bind; [keeps | intros ks2].
  apply quiet_bind; [keeps | intros ks3].
  apply quiet_log.
Qed.

Lemma compute_shared_secrets_quiet (sks cks : dict KeyShare.t) :
  quiet_on_raise (B := B) (compute_shared_secrets sks cks).
Proof.
  unfold compute_shared_secrets.
  apply quiet_bind; [apply classical_exchange_keeps | intros ss1].
  apply quiet_bind;
    [apply pq_primary_exchange_keeps, log_ignores_kems | intros ss2].
  apply quiet_bind;
    [apply pq_secondary_exchange_keeps, log_ignores_kems | intros ss3].
  unfold combine. apply quiet_bind; [keeps | intros s].
  destruct ss3 as [| s0 ss'].
  - apply quiet_raise.
  - apply quiet_log.
Qed.

(** A run that raises has logged ClientHello and at most the three
    entries after it. *)
Lemma perform_handshake_raises (st st' : t B * Env) (x : exn) :
  perform_handshake st = (Raise x, st') ->
  exists n,
    1 <= n /\ n <= 4
    /\ labels (log_of st') = labels (log_of st) ++ firstn n five_steps.
Proof.
  unfold perform_handshake. intros H.
  apply bind_raise_inv in H. destruct H as [H | (t0 & s1 & E1 & H)];
    [destruct st; discriminate H |].
  apply (keeps_ok handshake_messages _ _ _ _ (keeps_in_env _ _)) in E1.
  apply bind_raise_inv in H. destruct H as [H | (ch & s2 & E2 & H)].
  { destruct s1 as [h1 e1]. destruct (client_hello_value h1 e1) as (ch & E & _).
    rewrite E in H. discriminate H. }
  apply client_hello_logs in E2. destruct E2 as (m1 & L2 & T1 & S1).
  unfold log_of in *.
  assert (P1 : labels (handshake_messages (fst s2))
               = labels (handshake_messages (fst st)) ++ firstn 1 five_steps).
  { rewrite L2, labels_snoc, T1, S1, E1. reflexivity. }
  apply bind_raise_inv in H. destruct H as [H | (sh & s3 & E3 & H)].
  { apply server_hello_quiet in H. unfold log_of in H.
    exists 1. rewrite H. repeat split; [repeat constructor .. | exact P1]. }
  apply server_hello_logs in E3. destruct E3 as (m2 & L3 & T2 & S2).
  unfold log_of in *.
  assert (P2 : labels (handshake_messages (fst s3))
               = labels (handshake_messages (fst st)) ++ firstn 2 five_steps).
  { rewrite L3, labels_snoc, T2, S2, P1, <- app_assoc. reflexivity. }
  apply bind_raise_inv in H. destruct H as [H | (sks & s4 & E4 & H)].
  { apply generate_key_shares_quiet in H. unfold log_of in H.
    exists 2. rewrite H. repeat split; [repeat constructor .. | exact P2]. }
  apply generate_key_shares_logs in E4. destruct E4 as (m3 & L4 & T3 & S3).
  unfold log_of in *.
  assert (P3 : labels (handshake_messages (fst s4))
               = labels (handshake_messages (fst st)) ++ firstn 3 five_steps).
  { rewrite L4, labels_snoc, T3, S3, P2, <- app_assoc. reflexivity. }
  apply bind_raise_inv in H. destruct H as [H | (cks & s5 & E5 & H)].
  { apply generate_key_shares_quiet in H. unfold log_of in H.
    exists 3. rewrite H. repeat split; [repeat constructor .. | exact P3]. }
  apply generate_key_shares_logs in E5. destruct E5 as (m4 & L5 & T4 & S4).
  unfold log_of in *.
  assert (P4 : labels (handshake_messages (fst s5))
               = labels (handshake_messages (fst st)) ++ firstn 4 five_steps).
  { rewrite L5, labels_snoc, T4, S4, P3, <- app_assoc. reflexivity. }
  apply bind_raise_inv in H. destruct H as [H | (secret & s6 & E6 & H)].
  { apply compute_shared_secrets_quiet in H. unfold log_of in H.
    exists 4. rewrite H. repeat split; [repeat constructor .. | exact P4]. }
  destruct (handshake_tail_returns t0 sks secret s6) as (r & s7 & T).
  discriminate (eq_trans (eq_sym T) H).
Qed.

Lemma perform_handshake_keeps_config : keeps (B := B) config perform_handshake.
Proof.
  unfold perform_handshake.
  apply keeps_bind; [apply keeps_in_env | intros start_time].
  apply keeps_bind; [apply client_hello_keeps_config | intros ch].
  apply keeps_bind; [apply server_hello_keeps_config | intros sh].
  apply keeps_bind; [apply generate_key_shares_keeps_config | intros sks].
  apply keeps_bind; [apply generate_key_shares_keeps_config | intros cks].
  apply keeps_bind; [apply compute_shared_secrets_keeps_config | intros secret].
  apply keeps_bind; [apply derive_session_keys_keeps | intros keys].
  apply keeps_bind; [apply keeps_in_env | intros end_time].
  cbv zeta.
  apply keeps_bind; [apply keeps_self | intros s].
  apply keeps_bind; [| intros []; apply keeps_ret].
  apply keeps_log_message. intros m h. reflexivity.
Qed.

(** X10.  Whatever [perform_handshake] does, it never changes the
    configuration of the object, and it never removes or rewrites a message:
    the transcript it leaves is the earlier transcript followed by the first
    [n] of the six entries ClientHello, ServerHello, KeyShare of the server,
    KeyShare of the client, SharedSecret, HandshakeComplete.  A run that
    returns leaves all six; a run that raises leaves between one and four,
    and so never a SharedSecret or a HandshakeComplete entry. *)
Theorem a_handshake_leaves_a_prefix_of_its_six_steps (st : t B * Env) :
  config (fst (snd (perform_handshake st))) = config (fst st)
  /\ exists n,
       labels (log_of (snd (perform_handshake st)))
       = labels (log_of st) ++ firstn n six_steps
       /\ match fst (perform_handshake st) with
          | Ok _ => n = 6
          | Raise _ => 1 <= n /\ n <= 4
          end.
Proof.
  split; [apply perform_handshake_keeps_config |].
  destruct (perform_handshake st) as [[r | x] st'] eqn:E; simpl.
  - exists 6. split; [| reflexivity].
    exact (proj2 (perform_handshake_transcript st st' r E)).
  - destruct (perform_handshake_raises st st' x E) as (n & H1 & H4 & L).
    exists n. split; [| split; assumption].
    rewrite L. f_equal. unfold six_steps.
    rewrite firstn_app.
    replace (n - List.length five_steps) with 0; [rewrite app_nil_r; reflexivity |].
    do 5 (destruct n as [| n]; [reflexivity |]).
    repeat apply le_S_n in H4. inversion H4.
Qed.

(** X11.  The transcript is never reset: a second [perform_handshake] on
    the same object appends its six entries to those of the first, and
    reports a [message_count] that is larger by six (11 after 5 on a new
    object). *)
Theorem a_reused_handshake_object_counts_its_earlier_messages
    (st st1 st2 : t B * Env) (r1 r2 : HandshakeResult.t) :
  perform_handshake st = (Ok r1, st1) ->
  perform_handshake st1 = (Ok r2, st2) ->
  HandshakeResult.message_count r2 = HandshakeResult.message_count r1 + 6
  /\ labels (log_of st2) = labels (log_of st) ++ six_steps ++ six_steps.
Proof.
  intros E1 E2.
  destruct (perform_handshake_transcript _ _ _ E1) as [C1 L1].
  destruct (perform_handshake_transcript _ _ _ E2) as [C2 L2].
  split.
  - rewrite C2, C1.
    assert (N : List.length (log_of st1) = List.length (log_of st) + 6).
    { rewrite <- (length_map (fun m => (HandshakeMessage.message_type m,
                                         HandshakeMessage.sender m)) (log_of st1)).
      fold (labels (log_of st1)). rewrite L1, length_app.
      unfold labels. rewrite length_map. reflexivity. }
    rewrite N, <- !Nat.add_assoc. reflexivity.
  - rewrite L2, L1, <- app_assoc. reflexivity.
Qed.

End Outcomes.

(** ** What the result and the summary report *)

Section Reports.
Context {B : Backend}.

Lemma client_hello_keeps_pq_kem2 : keeps (B := B) pq_kem2 client_hello.
Proof. unfold client_hello. keeps. Qed.

Lemma server_hello_keeps_pq_kem2 (ch : ClientHello.t) :
  keeps (B := B) pq_kem2 (server_hello ch).
Proof. unfold server_hello. keeps. Qed.

(** What a run that returns has gone through: the server's key shares, the
    session keys, and how the result reports them. *)
Lemma perform_handshake_inv (st st' : t B * Env) (r : HandshakeResult.t) :
  perform_handshake st = (Ok r, st') ->
  exists s3 sks s4 secret s6 s7,
    generate_key_shares true s3 = (Ok sks, s4)
    /\ config (fst s3) = config (fst st)
    /\ pq_kem2 (fst s3) = pq_kem2 (fst st)
    /\ _derive_session_keys secret s6 = (Ok (HandshakeResult.session_keys r), s7)
    /\ HandshakeResult.key_sizes_classical r = key_size_of "classical" sks
    /\ HandshakeResult.key_sizes_pq_primary r = key_size_of "pq_primary" sks
    /\ HandshakeResult.key_sizes_pq_secondary r = key_size_of "pq_secondary" sks.
Proof.
  unfold perform_handshake. intros H.
  apply bind_ok in H. destruct H as (t0 & s1 & E1 & H).
  assert (C1 := keeps_ok config _ _ _ _ (keeps_in_env _ _) E1).
  assert (K1 := keeps_ok pq_kem2 _ _ _ _ (keeps_in_env _ _) E1).
  apply bind_ok in H. destruct H as (ch & s2 & E2 & H).
  assert (C2 := keeps_ok config _ _ _ _ client_hello_keeps_config E2).
  assert (K2 := keeps_ok pq_kem2 _ _ _ _ client_hello_keeps_pq_kem2 E2).
  apply bind_ok in H. destruct H as (sh & s3 & E3 & H).
  assert (C3 := keeps_ok config _ _ _ _ (server_hello_keeps_config _) E3).
  assert (K3 := keeps_ok pq_kem2 _ _ _ _ (server_hello_keeps_pq_kem2 _) E3).
  apply bind_ok in H. destruct H as (sks & s4 & E4 & H).
  apply bind_ok in H. destruct H as (cks & s5 & _ & H).
  apply bind_ok in H. destruct H as (secret & s6 & _ & H).
  apply bind_ok in H. destruct H as (keys & s7 & E7 & H).
  apply bind_ok in H. destruct H as (t1 & s8 & _ & H).
  apply bind_ok in H. destruct H as (s & s9 & _ & H).
  apply bind_ok in H. destruct H as ([] & s10 & _ & H).
  unfold ret in H. injection H as <- _.
  exists s3, sks, s4, secret, s6, s7.
  split; [exact E4 |].
  split; [rewrite C3, C2, C1; reflexivity |].
  split; [rewrite K3, K2, K1; reflexivity |].
  destruct (pq_alg2 s); simpl; repeat split; exact E7.
Qed.

Lemma key_size_of_absent (k : string) (ks : dict KeyShare.t) :
  str_in k (map fst ks) = false -> key_size_of k ks = 0.
Proof.
  rewrite <- dict_in_names. unfold dict_in, key_size_of.
  destruct (dict_get k ks); [intros H; discriminate H | reflexivity].
Qed.

(** The result sizes the shares of the mode, and no other. *)
Lemma perform_handshake_key_sizes (st st' : t B * Env) (r : HandshakeResult.t) :
  perform_handshake st = (Ok r, st') ->
  (str_in "classical" (share_names (fst st)) = false ->
   HandshakeResult.key_sizes_classical r = 0)
  /\ (str_in "pq_primary" (share_names (fst st)) = false ->
      HandshakeResult.key_sizes_pq_primary r = 0)
  /\ (str_in "pq_secondary" (share_names (fst st)) = false ->
      HandshakeResult.key_sizes_pq_secondary r = 0).
Proof.
  intros H.
  destruct (perform_handshake_inv _ _ _ H)
    as (s3 & sks & s4 & _ & _ & _ & E4 & C & K & _ & -> & -> & ->).
  destruct (generate_key_shares_names _ _ _ _ E4) as [N _].
  rewrite (share_names_config _ _ C (f_equal is_some K)) in N.
  rewrite <- N.
  repeat split; apply key_size_of_absent.
Qed.

(** X12.  The result of a handshake lists the configured algorithms
    whatever the mode, but reports a key size only for the shares of the
    mode: the size of the classical key is 0 in post-quantum-only mode, that
    of the first post-quantum key is 0 in classical mode, and that of the
    second is 0 in every mode but the triple hybrid. *)
Theorem the_result_lists_every_algorithm_but_sizes_only_the_exchanged
    (st st' : t B * Env) (r : HandshakeResult.t) :
  perform_handshake st = (Ok r, st') ->
  HandshakeResult.algorithms r = configured_algorithms (fst st)
  /\ (exchange_type (fst st) = PQ_ONLY -> HandshakeResult.key_sizes_classical r = 0)
  /\ (exchange_type (fst st) = CLASSICAL -> HandshakeResult.key_sizes_pq_primary r = 0)
  /\ (KeyExchangeType_eqb (exchange_type (fst st)) TRIPLE_HYBRID = false ->
      HandshakeResult.key_sizes_pq_secondary r = 0).
Proof.
  intros H.
  destruct (perform_handshake_key_sizes _ _ _ H) as (Sc & S1 & S2).
  split; [exact (proj2 (proj2 (perform_handshake_reports _ _ _ H))) |].
  unfold share_names in Sc, S1, S2.
  split; [| split].
  - intros X. rewrite X in Sc. exact (Sc eq_refl).
  - intros X. rewrite X in S1. exact (S1 eq_refl).
  - intros X. destruct (exchange_type (fst st));
      first [exact (S2 eq_refl) | discriminate X].
Qed.

Lemma slice_length (i j : nat) (b : bytes) :
  j <= len b -> len (slice i j b) = j - i.
Proof.
  intros H. unfold slice, len in *.
  rewrite length_firstn, length_skipn.
  apply Nat.min_l. apply Nat.sub_le_mono_r. exact H.
Qed.

Lemma token_bytes_length (n : nat) (e : Env) :
  len (map (entropy e) (seq (cursor e) n)) = n.
Proof. unfold len. rewrite length_map. apply length_seq. Qed.

(** X7.  With an HKDF that returns the length it is built with,
    [_derive_session_keys] always returns, leaves the object as it was and
    draws 24 bytes of entropy; the two write keys have 16 bytes and the two
    IVs 12 bytes, and so have the session keys in the result of every
    handshake that returns. *)
Theorem session_keys_are_16_byte_keys_and_12_byte_ivs :
  hkdf_length_law B ->
  (forall secret h e,
     exists k e',
       _derive_session_keys secret (h, e) = (Ok k, (h, e'))
       /\ key_lengths k = (16, 16, 12, 12)
       /\ cursor e' = cursor e + 24)
  /\ (forall st st' r,
        perform_handshake st = (Ok r, st') ->
        key_lengths (HandshakeResult.session_keys r) = (16, 16, 12, 12)).
Proof.
  intros Hlen.
  assert (D : forall secret h e,
             exists k e',
               _derive_session_keys secret (h, e) = (Ok k, (h, e'))
               /\ key_lengths k = (16, 16, 12, 12)
               /\ cursor e' = cursor e + 24).
  { intros secret h e. do 2 eexists.
    split; [apply derive_session_keys_value | split].
    - unfold key_lengths. cbn [SessionKeys.client_write_key SessionKeys.server_write_key
                                 SessionKeys.client_write_iv SessionKeys.server_write_iv].
      rewrite !token_bytes_length.
      rewrite !slice_length by (rewrite Hlen; repeat constructor).
      reflexivity.
    - cbn [cursor]. rewrite <- Nat.add_assoc. reflexivity. }
  split; [exact D |].
  intros st st' r H.
  destruct (perform_handshake_inv _ _ _ H)
    as (_ & _ & _ & secret & [h6 e6] & s7 & _ & _ & _ & E7 & _).
  destruct (D secret h6 e6) as (k & e' & E & L & _).
  rewrite E in E7. injection E7 as -> _. exact L.
Qed.

(** X13.  After a handshake that returns, [get_handshake_summary] returns
    without changing anything, and its [total_messages] is the result's
    [message_count] plus one: the result counts the messages before
    HandshakeComplete is logged.  The summary has the exchange type of the
    result, always three entries in [algorithms_used] (the third is [None]
    without a second post-quantum algorithm), whose named entries are the
    result's algorithms, and one entry for each message of the
    transcript. *)
Theorem the_summary_counts_one_message_more_than_the_result
    (st st' : t B * Env) (r : HandshakeResult.t) :
  perform_handshake st = (Ok r, st') ->
  exists s,
    get_handshake_summary st' = (Ok s, st')
    /\ HandshakeSummary.total_messages s = HandshakeResult.message_count r + 1
    /\ HandshakeSummary.exchange_type s = HandshakeResult.exchange_type r
    /\ List.length (HandshakeSummary.algorithms_used s) = 3
    /\ named (HandshakeSummary.algorithms_used s) = HandshakeResult.algorithms r
    /\ map (fun m => (HandshakeSummary.type m, HandshakeSummary.sender m))
         (HandshakeSummary.messages s)
       = labels (log_of st').
Proof.
  intros H.
  destruct (perform_handshake_transcript _ _ _ H) as [Hcount Hlabels].
  destruct (perform_handshake_reports _ _ _ H) as (_ & Hx & Ha).
  pose proof (perform_handshake_keeps_config st) as C. rewrite H in C. simpl in C.
  destruct st' as [h' e']. simpl in C. unfold log_of in *. simpl fst in *.
  assert (N : List.length (handshake_messages h')
              = HandshakeResult.message_count r + 1).
  { rewrite Hcount.
    rewrite <- (length_map (fun m => (HandshakeMessage.message_type m,
                                       HandshakeMessage.sender m))
                  (handshake_messages h')).
    fold (labels (handshake_messages h')). rewrite Hlabels, !length_app.
    unfold labels. rewrite length_map, <- Nat.add_assoc. reflexivity. }
  eexists. split; [reflexivity |].
  cbn [HandshakeSummary.total_messages HandshakeSummary.exchange_type
       HandshakeSummary.algorithms_used HandshakeSummary.messages fst].
  unfold config in C. injection C as Cx Cc C1 C2 _.
  split; [| split; [| split; [| split]]].
  - exact N.
  - rewrite Hx, Cx. reflexivity.
  - reflexivity.
  - rewrite Ha. unfold configured_algorithms. rewrite Cc, C1, C2.
    destruct (pq_alg2 (fst st)); reflexivity.
  - rewrite map_map. reflexivity.
Qed.

End Reports.

(** ** The callers: client_server_apps.py and main.py *)

Section Callers.
Context {B : Backend}.

(** X3.  The key shares [generate_key_shares] returns are named by the
    mode: "classical" in classical mode, "pq_primary" in post-quantum-only
    mode, both in a dual hybrid, and in a triple hybrid both, followed by
    "pq_secondary" when the object has a second post-quantum KEM.  The
    KeyShare entry it logs has the same names, and a later call on the object
    gives the same names again, so the server's and the client's shares
    match name by name. *)
Theorem key_shares_are_named_by_the_mode
    (is_server : bool) (st st' : t B * Env) (ks : dict KeyShare.t) :
  generate_key_shares is_server st = (Ok ks, st') ->
  map fst ks = share_names (fst st)
  /\ map fst (share_sizes ks) = share_names (fst st)
  /\ share_names (fst st') = share_names (fst st).
Proof.
  intros H.
  destruct (generate_key_shares_names _ _ _ _ H) as [N P].
  split; [exact N | split].
  - unfold share_sizes. rewrite map_map. exact N.
  - apply share_names_config; [| exact P].
    exact (keeps_ok config _ _ _ _ (generate_key_shares_keeps_config _) H).
Qed.

Lemma handler_reports (x : KeyExchangeType) (c p1 : CryptoAlgorithm)
    (p2 : option CryptoAlgorithm) (e : Env) (r : HandshakeResult.t)
    (st' : t B * Env) :
  KeyExchangeType_eqb x TRIPLE_HYBRID = false ->
  perform_handshake (__init__ x c p1 p2, e) = (Ok r, st') ->
  HandshakeResult.algorithms r
  = [CryptoAlgorithm_value c; CryptoAlgorithm_value p1]
    ++ match p2 with
       | Some a2 => [CryptoAlgorithm_value a2]
       | None => []
       end
  /\ HandshakeResult.key_sizes_pq_secondary r = 0.
Proof.
  intros Hx H. split.
  - exact (proj2 (proj2 (perform_handshake_reports _ _ _ H))).
  - apply (proj2 (proj2 (perform_handshake_key_sizes _ _ _ H))).
    unfold share_names. simpl. destruct x; first [reflexivity | discriminate Hx].
Qed.

Lemma server_handler_is_not_triple (config : ServerConfig.t) :
  exists x,
    QuantumSafeServer._create_handshake_handler (B := B) config
    = __init__ x (ServerConfig.classical_alg config) (ServerConfig.pq_alg1 config)
        (ServerConfig.pq_alg2 config)
    /\ KeyExchangeType_eqb x TRIPLE_HYBRID = false.
Proof.
  unfold QuantumSafeServer._create_handshake_handler.
  destruct (ServerConfig.mode config); eexists; split; reflexivity.
Qed.

Lemma client_handler_is_not_triple (config : ClientConfig.t) :
  exists x,
    QuantumSafeClient._create_handshake_handler (B := B) config
    = __init__ x (ClientConfig.preferred_classical config)
        (ClientConfig.preferred_pq1 config) (ClientConfig.preferred_pq2 config)
    /\ KeyExchangeType_eqb x TRIPLE_HYBRID = false.
Proof.
  unfold QuantumSafeClient._create_handshake_handler.
  destruct (ClientConfig.mode config); eexists; split; reflexivity.
Qed.

Lemma init_not_triple (x : KeyExchangeType) (c p1 : CryptoAlgorithm)
    (p2 : option CryptoAlgorithm) :
  KeyExchangeType_eqb x TRIPLE_HYBRID = false ->
  pq_kem2 (__init__ (B := B) x c p1 p2) = None.
Proof.
  intros Hx. simpl. rewrite Hx. destruct p2; reflexivity.
Qed.

(** X15.  The handshake objects client_server_apps.py builds for its
    server and its client are never triple hybrids, whatever the connection
    mode: they have no second post-quantum KEM.  A second post-quantum
    algorithm in the configuration is stored all the same, so the result of
    a handshake that returns lists it among the algorithms, with a key size
    of 0. *)
Theorem connection_handshakes_never_exchange_a_second_post_quantum_key
    (sc : ServerConfig.t) (cc : ClientConfig.t) :
  let hs := QuantumSafeServer._create_handshake_handler (B := B) sc in
  let hc := QuantumSafeClient._create_handshake_handler (B := B) cc in
  (KeyExchangeType_eqb (exchange_type hs) TRIPLE_HYBRID = false
   /\ pq_kem2 hs = None /\ pq_alg2 hs = ServerConfig.pq_alg2 sc)
  /\ (KeyExchangeType_eqb (exchange_type hc) TRIPLE_HYBRID = false
      /\ pq_kem2 hc = None /\ pq_alg2 hc = ClientConfig.preferred_pq2 cc)
  /\ (forall e r st',
        perform_handshake (hs, e) = (Ok r, st') ->
        HandshakeResult.algorithms r
        = [CryptoAlgorithm_value (ServerConfig.classical_alg sc);
           CryptoAlgorithm_value (ServerConfig.pq_alg1 sc)]
          ++ match ServerConfig.pq_alg2 sc with
             | Some a2 => [CryptoAlgorithm_value a2]
             | None => []
             end
        /\ HandshakeResult.key_sizes_pq_secondary r = 0)
  /\ (forall e r st',
        perform_handshake (hc, e) = (Ok r, st') ->
        HandshakeResult.algorithms r
        = [CryptoAlgorithm_value (ClientConfig.preferred_classical cc);
           CryptoAlgorithm_value (ClientConfig.preferred_pq1 cc)]
          ++ match ClientConfig.preferred_pq2 cc with
             | Some a2 => [CryptoAlgorithm_value a2]
             | None => []
             end
        /\ HandshakeResult.key_sizes_pq_secondary r = 0).
Proof.
  intros hs hc. subst hs hc.
  destruct (server_handler_is_not_triple sc) as (xs & -> & Hs).
  destruct (client_handler_is_not_triple cc) as (xc & -> & Hc).
  split; [| split; [| split]].
  - split; [exact Hs | split; [apply init_not_triple, Hs | reflexivity]].
  - split; [exact Hc | split; [apply init_not_triple, Hc | reflexivity]].
  - intros e r st' H. exact (handler_reports _ _ _ _ e r st' Hs H).
  - intros e r st' H. exact (handler_reports _ _ _ _ e r st' Hc H).
Qed.

Lemma for_each_skips {S A X} (xs : list X) (body : X -> A -> M S A) (acc : A) :
  (forall x s, exists s', body x acc s = (Ok acc, s')) ->
  forall s, exists s', for_each xs body acc s = (Ok acc, s').
Proof.
  intros Hbody. induction xs as [| x xs IH]; intros s; simpl.
  - exists s. reflexivity.
  - destruct (Hbody x s) as (s1 & E). rewrite (bind_step _ _ _ _ _ E). apply IH.
Qed.

Lemma read_of_protocol_efficiency_raises {S} (s : S) :
  read_key "protocol_efficiency" s = (Raise (KeyError "protocol_efficiency"), s).
Proof. reflexivity. Qed.

(** X16.  [demo_hybrid_tls] of main.py returns an empty list, whatever the
    four handshakes do: each pass of its loop reads
    [result['protocol_efficiency']], a key the result of [perform_handshake]
    does not have, before it appends to [results], and the [except] clause
    ends the pass. *)
Theorem demo_hybrid_tls_returns_no_result (e : Env) :
  exists e', QuantumSafeCryptoSuite.demo_hybrid_tls (B := B) e = (Ok [], e').
Proof.
  unfold QuantumSafeCryptoSuite.demo_hybrid_tls.
  apply for_each_skips.
  intros [[[[name kex_type] classical] pq1] pq2] s.
  unfold try_except.
  match goal with
  | |- exists s', (let (r, s1) := ?body s in _) = _ =>
      destruct (body s) as [[results | x] s1] eqn:E
  end.
  - exfalso.
    apply bind_ok in E. destruct E as (start_time & s2 & _ & E).
    apply bind_ok in E. destruct E as (result & s3 & _ & E).
    apply bind_ok in E. destruct E as (end_time & s4 & _ & E).
    apply bind_ok in E. destruct E as ([] & s5 & _ & E).
    apply bind_ok in E. destruct E as ([] & s6 & _ & E).
    apply bind_ok in E. destruct E as ([] & s7 & E & _).
    rewrite read_of_protocol_efficiency_raises in E. discriminate E.
  - eexists. reflexivity.
Qed.

End Callers.

(** ** The wrapper with an oqs binding *)

Section RealWrapper.
Context {B : Backend}.

(** X14.  For a wrapper that uses the oqs binding, and a correct binding,
    the round trip agrees: when [generate_keypair], [encapsulate] against the
    public key and [decapsulate] of the ciphertext all return, the
    decapsulated secret is the encapsulated one. *)
Theorem round_trip_agrees_when_oqs_is_used
    (k0 : QuantumSafeKEM.t B) (k : oqs_kem) (e : Env)
    (encapsulated recovered : bytes) (st' : QuantumSafeKEM.t B * Env) :
  oqs_correct ->
  QuantumSafeKEM.real_kem k0 = Some k ->
  round_trip (k0, e) = (Ok (encapsulated, recovered), st') ->
  encapsulated = recovered.
Proof.
  intros Hlaw Hk H. unfold round_trip in H.
  apply bind_ok in H. destruct H as (keys & [k1 e1] & G & H).
  unfold QuantumSafeKEM.generate_keypair, bind, self, gets in G. simpl in G.
  rewrite Hk in G. unfold in_env, zoom in G. simpl in G.
  destruct (oqs_generate_keypair k e) as [[[pk k'] | x] e0] eqn:Gen;
    [| discriminate G].
  simpl in G. injection G as <- <- <-.
  assert (Hk' : QuantumSafeKEM.real_kem (QuantumSafeKEM.set_kem k' k0) = Some k').
  { unfold QuantumSafeKEM.real_kem in *. simpl.
    destruct (QuantumSafeKEM._use_simulation k0); [discriminate Hk | reflexivity]. }
  apply bind_ok in H. destruct H as ([ct ss] & [k2 e2] & En & H).
  unfold QuantumSafeKEM.encapsulate, bind, self, gets in En. simpl in En.
  rewrite Hk' in En. unfold in_env, zoom in En. simpl in En.
  destruct (oqs_encap_secret k' pk e0) as [[[ct' ss'] | x] e0'] eqn:Enc;
    [| discriminate En].
  simpl in En. injection En as <- <- <- <-.
  apply bind_ok in H. destruct H as (rec & s3 & De & H).
  unfold ret in H. injection H as <- <- _.
  unfold QuantumSafeKEM.decapsulate, bind, self, gets in De. simpl in De.
  rewrite Hk' in De. unfold of_result in De.
  rewrite (Hlaw _ _ _ _ _ _ _ _ Gen Enc) in De. injection De as <- _. reflexivity.
Qed.

End RealWrapper.

Lemma demo_oqs_is_correct : oqs_correct (B := DemoOqs.backend).
Proof.
  intros k e pk k' e1 ct ss e2 G En.
  simpl in *. unfold DemoOqs.generate, DemoOqs.encap, DemoOqs.decap, bind, ret in *.
  destruct (token_bytes 32 e) as [[sk | x] e0] eqn:T; [| discriminate G].
  injection G as <- <- <-.
  destruct (token_bytes 32 e0) as [[c | x] e0'] eqn:T'; [| discriminate En].
  injection En as <- <- _. reflexivity.
Qed.

(** The instance of X14 on the backend with an oqs binding. *)
Lemma round_trip_agrees_demo :
  exists secret st',
    round_trip (QuantumSafeKEM.__init__ (B := DemoOqs.backend) KYBER768, Demo.env0)
    = (Ok (secret, secret), st').
Proof.
  destruct (round_trip (QuantumSafeKEM.__init__ (B := DemoOqs.backend) KYBER768,
                        Demo.env0)) as [[[a b] | x] st'] eqn:E.
  - exists a, st'.
    rewrite (round_trip_agrees_when_oqs_is_used
               (B := DemoOqs.backend) (QuantumSafeKEM.__init__ KYBER768) []
               Demo.env0 a b st'
               demo_oqs_is_correct eq_refl E).
    reflexivity.
  - apply (f_equal fst) in E. vm_compute in E. discriminate E.
Defined.

(** ** Instances on the demo backend *)

(** The instance of X3 for the server's shares of the triple-hybrid demo
    handshake. *)
Lemma key_shares_of_the_triple_hybrid_demo :
  exists ks st',
    generate_key_shares true (Demo.triple_hybrid, Demo.env0) = (Ok ks, st')
    /\ map fst ks = ["classical"; "pq_primary"; "pq_secondary"].
Proof.
  destruct (generate_key_shares true (Demo.triple_hybrid, Demo.env0))
    as [[ks | x] st'] eqn:E.
  - exists ks, st'. split; [reflexivity |].
    exact (proj1 (key_shares_are_named_by_the_mode true _ _ _ E)).
  - apply (f_equal fst) in E. vm_compute in E. discriminate E.
Defined.

(** The instance of X5 for two pairs of dicts that differ in the server's
    post-quantum private key and in the client's post-quantum share. *)
Lemma shared_secrets_read_only_the_exchanged_keys_demo :
  compute_shared_secrets
    [("pq_primary", KeyShare.mk "Kyber768" Demo.master 48 (Some Demo.master))]
    [("pq_primary", KeyShare.mk "Kyber768" Demo.master 48 None)]
    (Demo.dual_hybrid, Demo.env0)
  = compute_shared_secrets
      [("pq_primary", KeyShare.mk "Kyber768" Demo.master 48 None)]
      [("pq_primary", KeyShare.mk "" [] 0 None)]
      (Demo.dual_hybrid, Demo.env0).
Proof.
  exact (shared_secrets_read_only_the_exchanged_keys _ _ _ _ _ eq_refl).
Defined.

(** The instance of X6 for ECDH-P256, the classical algorithm of the
    triple-hybrid demo handshake. *)
Lemma classical_secret_of_ecdh_p256_demo :
  classical_exchange Demo.short_server_shares Demo.client_shares []
    (Demo.triple_hybrid, Demo.env0)
  = (Ok [map Demo.counter (seq 0 32)], (Demo.triple_hybrid, Demo.env_from 32)).
Proof.
  exact (classical_secret_without_a_curve_exchange_is_random
           Demo.short_server_shares Demo.client_shares []
           Demo.triple_hybrid Demo.env0 eq_refl eq_refl eq_refl).
Defined.

(** The instance of X7 on the demo backend. *)
Lemma session_keys_lengths_demo :
  exists k e',
    _derive_session_keys Demo.master (Demo.dual_hybrid, Demo.env0)
    = (Ok k, (Demo.dual_hybrid, e'))
    /\ key_lengths k = (16, 16, 12, 12)
    /\ cursor e' = 24.
Proof.
  exact (proj1 (session_keys_are_16_byte_keys_and_12_byte_ivs
                  (B := Demo.backend) demo_hkdf_length)
           Demo.master Demo.dual_hybrid Demo.env0).
Defined.

(** The instance of X11 on the classical-only demo handshake, run twice. *)
Lemma reused_handshake_object_demo :
  exists r1 st1 r2 st2,
    perform_handshake (Demo.classical_only, Demo.env0) = (Ok r1, st1)
    /\ perform_handshake st1 = (Ok r2, st2)
    /\ HandshakeResult.message_count r1 = 5
    /\ HandshakeResult.message_count r2 = 11.
Proof.
  destruct (classical_handshake_completes (Demo.classical_only, Demo.env0)
              eq_refl eq_refl eq_refl demo_generates_keys) as (r1 & st1 & E1).
  pose proof (perform_handshake_keeps_config (Demo.classical_only, Demo.env0)) as C.
  rewrite E1 in C. unfold config in C. simpl in C. injection C as Cx Cc _ _ Ck.
  destruct (classical_handshake_completes st1 Cx
              (f_equal ClassicalKEM.algorithm Ck) Cc demo_generates_keys)
    as (r2 & st2 & E2).
  exists r1, st1, r2, st2.
  split; [exact E1 | split; [exact E2 |]].
  pose proof (proj1 (perform_handshake_transcript _ _ _ E1)) as N1. simpl in N1.
  split; [exact N1 |].
  rewrite (proj1 (a_reused_handshake_object_counts_its_earlier_messages
                    _ _ _ _ _ E1 E2)), N1.
  reflexivity.
Defined.

(** The instance of X12 for a post-quantum-only handshake: X25519 is
    listed, and its key size is 0. *)
Lemma pq_only_result_demo :
  exists r st',
    perform_handshake
      (__init__ (B := Demo.backend) PQ_ONLY X25519 KYBER1024 None, Demo.env0)
    = (Ok r, st')
    /\ HandshakeResult.algorithms r = ["X25519"; "Kyber1024"]
    /\ HandshakeResult.key_sizes_classical r = 0.
Proof.
  destruct (perform_handshake_completes
              (__init__ (B := Demo.backend) PQ_ONLY X25519 KYBER1024 None)
              Demo.env0 [KYBER1024] demo_generators_return
              (init_kems_ready _ _ _ _ demo_generators_return) eq_refl
              (fun H => eq_refl))
    as (r & st' & E).
  exists r, st'. split; [exact E |].
  destruct (the_result_lists_every_algorithm_but_sizes_only_the_exchanged _ _ _ E)
    as (A & Sc & _).
  split; [exact A | exact (Sc eq_refl)].
Defined.

(** The instance of X13 on the classical-only demo handshake. *)
Lemma summary_of_the_classical_demo :
  exists r st' s,
    perform_handshake (Demo.classical_only, Demo.env0) = (Ok r, st')
    /\ get_handshake_summary st' = (Ok s, st')
    /\ HandshakeSummary.total_messages s = HandshakeResult.message_count r + 1
    /\ named (HandshakeSummary.algorithms_used s) = ["X25519"; "Kyber768"].
Proof.
  destruct (classical_handshake_completes (Demo.classical_only, Demo.env0)
              eq_refl eq_refl eq_refl demo_generates_keys) as (r & st' & E).
  destruct (the_summary_counts_one_message_more_than_the_result _ _ _ E)
    as (s & S & T & _ & _ & A & _).
  exists r, st', s.
  split; [exact E | split; [exact S | split; [exact T |]]].
  rewrite A. exact (proj2 (proj2 (perform_handshake_reports _ _ _ E))).
Defined.

(** The instance of X15 for a hybrid server configured with a second
    post-quantum algorithm. *)
Lemma hybrid_server_with_a_second_algorithm_demo :
  exists r st',
    perform_handshake
      (QuantumSafeServer._create_handshake_handler (B := Demo.backend)
         (ServerConfig.mk ConnectionMode.HYBRID X25519 KYBER768
            (Some NTRU_HPS2048509)),
       Demo.env0)
    = (Ok r, st')
    /\ HandshakeResult.algorithms r = ["X25519"; "Kyber768"; "NTRU-HPS-2048-509"]
    /\ HandshakeResult.key_sizes_pq_secondary r = 0.
Proof.
  destruct (perform_handshake_completes
              (QuantumSafeServer._create_handshake_handler (B := Demo.backend)
                 (ServerConfig.mk ConnectionMode.HYBRID X25519 KYBER768
                    (Some NTRU_HPS2048509)))
              Demo.env0 [X25519; KYBER768] demo_generators_return
              (init_kems_ready _ _ _ _ demo_generators_return) eq_refl
              (fun H => eq_refl))
    as (r & st' & E).
  exists r, st'. split; [exact E |].
  exact (proj1 (proj2 (proj2
           (connection_handshakes_never_exchange_a_second_post_quantum_key
              (B := Demo.backend)
              (ServerConfig.mk ConnectionMode.HYBRID X25519 KYBER768
                 (Some NTRU_HPS2048509))
              (ClientConfig.mk ConnectionMode.AUTO_NEGOTIATE X25519 KYBER768 None))))
           Demo.env0 r st' E).
Defined.
